(** * Amazon-Scraper/oxylabs_amazon_scraper.py: request pipeline and
      response normalisation of [OxylabsAmazonScraper]

    The Python code is embedded shallowly.  A Python [str] is a list of
    Unicode code points, a decoded JSON document is a [value], a [dict] is
    an association list in insertion order, a raised exception is the
    [Error] case of [result], and the two effects of the class, the HTTP
    call and [time.sleep], are recorded in a trace of [event]s.  The wall
    clock read by [time.strftime] is an explicit argument.  Calls to the
    logger change no result and are left out. *)

From Stdlib Require Import ZArith NArith List String Ascii Bool Lia.
From Stdlib Require Import DecimalString.
Import ListNotations.

(** ** The interpreter: strings, values, exceptions and the built-ins the
       scraper calls *)

Module Py.

Definition char := N.
Definition str := list char.

(** An ASCII literal of the source as a [str]. *)
Definition lit (s : string) : str :=
  map N_of_ascii (list_ascii_of_string s).
Arguments lit : simpl never.

Fixpoint str_eqb (a b : str) : bool :=
  match a, b with
  | [], [] => true
  | x :: a', y :: b' => N.eqb x y && str_eqb a' b'
  | _, _ => false
  end.

(** [str.isspace] on one code point, the set [str.strip()] removes. *)
Definition isspace (c : char) : bool :=
  ((9 <=? c) && (c <=? 13) || (28 <=? c) && (c <=? 32)
   || (c =? 0x85) || (c =? 0xA0) || (c =? 0x1680)
   || (0x2000 <=? c) && (c <=? 0x200A)
   || (c =? 0x2028) || (c =? 0x2029) || (c =? 0x202F)
   || (c =? 0x205F) || (c =? 0x3000))%N.

Fixpoint lstrip (s : str) : str :=
  match s with
  | c :: s' => if isspace c then lstrip s' else s
  | [] => []
  end.

Definition rstrip (s : str) : str := rev (lstrip (rev s)).

Definition strip (s : str) : str := rstrip (lstrip s).

(** The decimal digits of Unicode 14.0 (category Nd), the [\d] of [re]
    and the digits [Decimal] reads: runs of ten code points, for the
    values 0 to 9, that start at the code points listed. *)
Definition digit_zeros : list char :=
  [0x30; 0x660; 0x6F0; 0x7C0; 0x966; 0x9E6; 0xA66; 0xAE6; 0xB66; 0xBE6;
   0xC66; 0xCE6; 0xD66; 0xDE6; 0xE50; 0xED0; 0xF20; 0x1040; 0x1090;
   0x17E0; 0x1810; 0x1946; 0x19D0; 0x1A80; 0x1A90; 0x1B50; 0x1BB0;
   0x1C40; 0x1C50; 0xA620; 0xA8D0; 0xA900; 0xA9D0; 0xA9F0; 0xAA50;
   0xABF0; 0xFF10; 0x104A0; 0x10D30; 0x11066; 0x110F0; 0x11136;
   0x111D0; 0x112F0; 0x11450; 0x114D0; 0x11650; 0x116C0; 0x11730;
   0x118E0; 0x11950; 0x11C50; 0x11D50; 0x11DA0; 0x16A60; 0x16AC0;
   0x16B50; 0x1D7CE; 0x1D7D8; 0x1D7E2; 0x1D7EC; 0x1D7F6; 0x1E140;
   0x1E2F0; 0x1E950; 0x1FBF0]%N.

Definition in_run (c zero : char) : bool :=
  ((zero <=? c) && (c <? zero + 10))%N.

Definition isdigit (c : char) : bool :=
  existsb (in_run c) digit_zeros.

Definition digit_value (c : char) : N :=
  match find (in_run c) digit_zeros with
  | Some zero => (c - zero)%N
  | None => 0%N
  end.

(** [s.replace(c, '')] for a one-character [c]. *)
Definition remove_char (c : char) (s : str) : str :=
  filter (fun x => negb (N.eqb x c)) s.

Fixpoint startswith (p s : str) : bool :=
  match p, s with
  | [], _ => true
  | x :: p', y :: s' => N.eqb x y && startswith p' s'
  | _ :: _, [] => false
  end.

(** [p in s] for two strings. *)
Fixpoint contains (p s : str) : bool :=
  startswith p s ||
  match s with
  | [] => false
  | _ :: s' => contains p s'
  end.

(** [sep.join(parts)]. *)
Fixpoint join (sep : str) (parts : list str) : str :=
  match parts with
  | [] => []
  | [p] => p
  | p :: rest => p ++ sep ++ join sep rest
  end.

(** [re.split] on a character class: the pieces between delimiters,
    empty pieces included. *)
Fixpoint split_on (delim : char -> bool) (s : str) : list str :=
  match s with
  | [] => [[]]
  | c :: s' =>
    if delim c then [] :: split_on delim s'
    else match split_on delim s' with
         | p :: ps => (c :: p) :: ps
         | [] => [[c]]
         end
  end.

(** [s.split(c, 1)]: at most one cut, at the first [c]. *)
Fixpoint split_once (c : char) (s : str) : list str :=
  match s with
  | [] => [[]]
  | x :: s' =>
    if N.eqb x c then [[]; s']
    else match split_once c s' with
         | p :: ps => (x :: p) :: ps
         | [] => [[x]]
         end
  end.

Fixpoint take_while (f : char -> bool) (s : str) : str :=
  match s with
  | c :: s' => if f c then c :: take_while f s' else []
  | [] => []
  end.

Fixpoint drop_while (f : char -> bool) (s : str) : str :=
  match s with
  | c :: s' => if f c then drop_while f s' else s
  | [] => []
  end.

(** [str(n)] for an [int]. *)
Definition str_of_Z (z : Z) : str := lit (NilZero.string_of_int (Z.to_int z)).

(** *** Exceptions *)

Inductive exc_class :=
| InvalidASINError | APIConnectionError | RateLimitError
| InvalidCredentialsError | DataExtractionError | ValidationError
| TypeError | KeyError | AttributeError | ValueError | OverflowError
| InvalidOperation
| Timeout | HTTPError | ConnectionError | RequestException
| JSONDecodeError | OtherException.

(** An exception object: its class and [str(e)]. *)
Record exc := Exc { class_of : exc_class; str_of : str }.

Inductive result (A : Type) :=
| Ok (a : A)
| Error (e : exc).
Arguments Ok {A} a.
Arguments Error {A} e.

Definition bind {A B} (r : result A) (k : A -> result B) : result B :=
  match r with
  | Ok a => k a
  | Error e => Error e
  end.

Definition raise {A} (c : exc_class) (msg : str) : result A :=
  Error (Exc c msg).

(** *** Values *)

(** A [float] is known to the scraper through three observations only:
    [str(f)], [bool(f)] and [int(f)], the last raising on infinities and
    NaN. *)
Record pyfloat := Float {
  float_str : str;
  float_bool : bool;
  float_int : result Z
}.

#[warnings="-register-all"]
Inductive value :=
| VNone
| VBool (b : bool)
| VInt (z : Z)
| VFloat (f : pyfloat)
| VStr (s : str)
| VList (l : list value)
| VDict (d : list (str * value)).

Definition dict := list (str * value).

(** [d.get(k)], [None] standing for an absent key. *)
Fixpoint lookup (k : str) (d : dict) : option value :=
  match d with
  | [] => None
  | (k', v) :: d' => if str_eqb k k' then Some v else lookup k d'
  end.

(** [d[k] = v]: in place when the key is there, appended otherwise. *)
Fixpoint setitem (k : str) (v : value) (d : dict) : dict :=
  match d with
  | [] => [(k, v)]
  | (k', v') :: d' =>
    if str_eqb k k' then (k', v) :: d' else (k', v') :: setitem k v d'
  end.

(** [del d[k]], used to say that a key is absent. *)
Fixpoint delitem (k : str) (d : dict) : dict :=
  match d with
  | [] => []
  | (k', v') :: d' =>
    if str_eqb k k' then delitem k d' else (k', v') :: delitem k d'
  end.

(** [d.update(other)]. *)
Definition update (d other : dict) : dict :=
  fold_left (fun acc kv => setitem (fst kv) (snd kv) acc) other d.

(** [d[k]]. *)
Definition getitem (d : dict) (k : str) : result value :=
  match lookup k d with
  | Some v => Ok v
  | None => raise KeyError k
  end.

(** [bool(v)]. *)
Definition truthy (v : value) : bool :=
  match v with
  | VNone => false
  | VBool b => b
  | VInt z => negb (z =? 0)%Z
  | VFloat f => float_bool f
  | VStr s => match s with [] => false | _ => true end
  | VList l => match l with [] => false | _ => true end
  | VDict d => match d with [] => false | _ => true end
  end.

(** [a or b]. *)
Definition py_or (a b : value) : value := if truthy a then a else b.

(** *** [repr] and [str] *)

Definition hex_digit (n : N) : char :=
  (if n <? 10 then 48 + n else 87 + n)%N.

Fixpoint hex_fixed (width : nat) (n : N) : str :=
  match width with
  | O => []
  | S w => hex_fixed w (n / 16)%N ++ [hex_digit (n mod 16)%N]
  end.

(** The code points of Unicode 14.0 that [str.isprintable] rejects and
    [repr] therefore escapes, as closed ranges: the categories Cc, Cf,
    Cs, Co, Cn, Zl, Zp and Zs, the space excepted. *)
Definition not_printable : list (char * char) :=
  [(0x0, 0x1F); (0x7F, 0xA0); (0xAD, 0xAD); (0x378, 0x379); (0x380, 0x383);
   (0x38B, 0x38B); (0x38D, 0x38D); (0x3A2, 0x3A2); (0x530, 0x530);
   (0x557, 0x558); (0x58B, 0x58C); (0x590, 0x590); (0x5C8, 0x5CF);
   (0x5EB, 0x5EE); (0x5F5, 0x605); (0x61C, 0x61C); (0x6DD, 0x6DD);
   (0x70E, 0x70F); (0x74B, 0x74C); (0x7B2, 0x7BF); (0x7FB, 0x7FC);
   (0x82E, 0x82F); (0x83F, 0x83F); (0x85C, 0x85D); (0x85F, 0x85F);
   (0x86B, 0x86F); (0x88F, 0x897); (0x8E2, 0x8E2); (0x984, 0x984);
   (0x98D, 0x98E); (0x991, 0x992); (0x9A9, 0x9A9); (0x9B1, 0x9B1);
   (0x9B3, 0x9B5); (0x9BA, 0x9BB); (0x9C5, 0x9C6); (0x9C9, 0x9CA);
   (0x9CF, 0x9D6); (0x9D8, 0x9DB); (0x9DE, 0x9DE); (0x9E4, 0x9E5);
   (0x9FF, 0xA00); (0xA04, 0xA04); (0xA0B, 0xA0E); (0xA11, 0xA12);
   (0xA29, 0xA29); (0xA31, 0xA31); (0xA34, 0xA34); (0xA37, 0xA37);
   (0xA3A, 0xA3B); (0xA3D, 0xA3D); (0xA43, 0xA46); (0xA49, 0xA4A);
   (0xA4E, 0xA50); (0xA52, 0xA58); (0xA5D, 0xA5D); (0xA5F, 0xA65);
   (0xA77, 0xA80); (0xA84, 0xA84); (0xA8E, 0xA8E); (0xA92, 0xA92);
   (0xAA9, 0xAA9); (0xAB1, 0xAB1); (0xAB4, 0xAB4); (0xABA, 0xABB);
   (0xAC6, 0xAC6); (0xACA, 0xACA); (0xACE, 0xACF); (0xAD1, 0xADF);
   (0xAE4, 0xAE5); (0xAF2, 0xAF8); (0xB00, 0xB00); (0xB04, 0xB04);
   (0xB0D, 0xB0E); (0xB11, 0xB12); (0xB29, 0xB29); (0xB31, 0xB31);
   (0xB34, 0xB34); (0xB3A, 0xB3B); (0xB45, 0xB46); (0xB49, 0xB4A);
   (0xB4E, 0xB54); (0xB58, 0xB5B); (0xB5E, 0xB5E); (0xB64, 0xB65);
   (0xB78, 0xB81); (0xB84, 0xB84); (0xB8B, 0xB8D); (0xB91, 0xB91);
   (0xB96, 0xB98); (0xB9B, 0xB9B); (0xB9D, 0xB9D); (0xBA0, 0xBA2);
   (0xBA5, 0xBA7); (0xBAB, 0xBAD); (0xBBA, 0xBBD); (0xBC3, 0xBC5);
   (0xBC9, 0xBC9); (0xBCE, 0xBCF); (0xBD1, 0xBD6); (0xBD8, 0xBE5);
   (0xBFB, 0xBFF); (0xC0D, 0xC0D); (0xC11, 0xC11); (0xC29, 0xC29);
   (0xC3A, 0xC3B); (0xC45, 0xC45); (0xC49, 0xC49); (0xC4E, 0xC54);
   (0xC57, 0xC57); (0xC5B, 0xC5C); (0xC5E, 0xC5F); (0xC64, 0xC65);
   (0xC70, 0xC76); (0xC8D, 0xC8D); (0xC91, 0xC91); (0xCA9, 0xCA9);
   (0xCB4, 0xCB4); (0xCBA, 0xCBB); (0xCC5, 0xCC5); (0xCC9, 0xCC9);
   (0xCCE, 0xCD4); (0xCD7, 0xCDC); (0xCDF, 0xCDF); (0xCE4, 0xCE5);
   (0xCF0, 0xCF0); (0xCF3, 0xCFF); (0xD0D, 0xD0D); (0xD11, 0xD11);
   (0xD45, 0xD45); (0xD49, 0xD49); (0xD50, 0xD53); (0xD64, 0xD65);
   (0xD80, 0xD80); (0xD84, 0xD84); (0xD97, 0xD99); (0xDB2, 0xDB2);
   (0xDBC, 0xDBC); (0xDBE, 0xDBF); (0xDC7, 0xDC9); (0xDCB, 0xDCE);
   (0xDD5, 0xDD5); (0xDD7, 0xDD7); (0xDE0, 0xDE5); (0xDF0, 0xDF1);
   (0xDF5, 0xE00); (0xE3B, 0xE3E); (0xE5C, 0xE80); (0xE83, 0xE83);
   (0xE85, 0xE85); (0xE8B, 0xE8B); (0xEA4, 0xEA4); (0xEA6, 0xEA6);
   (0xEBE, 0xEBF); (0xEC5, 0xEC5); (0xEC7, 0xEC7); (0xECE, 0xECF);
   (0xEDA, 0xEDB); (0xEE0, 0xEFF); (0xF48, 0xF48); (0xF6D, 0xF70);
   (0xF98, 0xF98); (0xFBD, 0xFBD); (0xFCD, 0xFCD); (0xFDB, 0xFFF);
   (0x10C6, 0x10C6); (0x10C8, 0x10CC); (0x10CE, 0x10CF); (0x1249, 0x1249);
   (0x124E, 0x124F); (0x1257, 0x1257); (0x1259, 0x1259); (0x125E, 0x125F);
   (0x1289, 0x1289); (0x128E, 0x128F); (0x12B1, 0x12B1); (0x12B6, 0x12B7);
   (0x12BF, 0x12BF); (0x12C1, 0x12C1); (0x12C6, 0x12C7); (0x12D7, 0x12D7);
   (0x1311, 0x1311); (0x1316, 0x1317); (0x135B, 0x135C); (0x137D, 0x137F);
   (0x139A, 0x139F); (0x13F6, 0x13F7); (0x13FE, 0x13FF); (0x1680, 0x1680);
   (0x169D, 0x169F); (0x16F9, 0x16FF); (0x1716, 0x171E); (0x1737, 0x173F);
   (0x1754, 0x175F); (0x176D, 0x176D); (0x1771, 0x1771); (0x1774, 0x177F);
   (0x17DE, 0x17DF); (0x17EA, 0x17EF); (0x17FA, 0x17FF); (0x180E, 0x180E);
   (0x181A, 0x181F); (0x1879, 0x187F); (0x18AB, 0x18AF); (0x18F6, 0x18FF);
   (0x191F, 0x191F); (0x192C, 0x192F); (0x193C, 0x193F); (0x1941, 0x1943);
   (0x196E, 0x196F); (0x1975, 0x197F); (0x19AC, 0x19AF); (0x19CA, 0x19CF);
   (0x19DB, 0x19DD); (0x1A1C, 0x1A1D); (0x1A5F, 0x1A5F); (0x1A7D, 0x1A7E);
   (0x1A8A, 0x1A8F); (0x1A9A, 0x1A9F); (0x1AAE, 0x1AAF); (0x1ACF, 0x1AFF);
   (0x1B4D, 0x1B4F); (0x1B7F, 0x1B7F); (0x1BF4, 0x1BFB); (0x1C38, 0x1C3A);
   (0x1C4A, 0x1C4C); (0x1C89, 0x1C8F); (0x1CBB, 0x1CBC); (0x1CC8, 0x1CCF);
   (0x1CFB, 0x1CFF); (0x1F16, 0x1F17); (0x1F1E, 0x1F1F); (0x1F46, 0x1F47);
   (0x1F4E, 0x1F4F); (0x1F58, 0x1F58); (0x1F5A, 0x1F5A); (0x1F5C, 0x1F5C);
   (0x1F5E, 0x1F5E); (0x1F7E, 0x1F7F); (0x1FB5, 0x1FB5); (0x1FC5, 0x1FC5);
   (0x1FD4, 0x1FD5); (0x1FDC, 0x1FDC); (0x1FF0, 0x1FF1); (0x1FF5, 0x1FF5);
   (0x1FFF, 0x200F); (0x2028, 0x202F); (0x205F, 0x206F); (0x2072, 0x2073);
   (0x208F, 0x208F); (0x209D, 0x209F); (0x20C1, 0x20CF); (0x20F1, 0x20FF);
   (0x218C, 0x218F); (0x2427, 0x243F); (0x244B, 0x245F); (0x2B74, 0x2B75);
   (0x2B96, 0x2B96); (0x2CF4, 0x2CF8); (0x2D26, 0x2D26); (0x2D28, 0x2D2C);
   (0x2D2E, 0x2D2F); (0x2D68, 0x2D6E); (0x2D71, 0x2D7E); (0x2D97, 0x2D9F);
   (0x2DA7, 0x2DA7); (0x2DAF, 0x2DAF); (0x2DB7, 0x2DB7); (0x2DBF, 0x2DBF);
   (0x2DC7, 0x2DC7); (0x2DCF, 0x2DCF); (0x2DD7, 0x2DD7); (0x2DDF, 0x2DDF);
   (0x2E5E, 0x2E7F); (0x2E9A, 0x2E9A); (0x2EF4, 0x2EFF); (0x2FD6, 0x2FEF);
   (0x2FFC, 0x3000); (0x3040, 0x3040); (0x3097, 0x3098); (0x3100, 0x3104);
   (0x3130, 0x3130); (0x318F, 0x318F); (0x31E4, 0x31EF); (0x321F, 0x321F);
   (0xA48D, 0xA48F); (0xA4C7, 0xA4CF); (0xA62C, 0xA63F); (0xA6F8, 0xA6FF);
   (0xA7CB, 0xA7CF); (0xA7D2, 0xA7D2); (0xA7D4, 0xA7D4); (0xA7DA, 0xA7F1);
   (0xA82D, 0xA82F); (0xA83A, 0xA83F); (0xA878, 0xA87F); (0xA8C6, 0xA8CD);
   (0xA8DA, 0xA8DF); (0xA954, 0xA95E); (0xA97D, 0xA97F); (0xA9CE, 0xA9CE);
   (0xA9DA, 0xA9DD); (0xA9FF, 0xA9FF); (0xAA37, 0xAA3F); (0xAA4E, 0xAA4F);
   (0xAA5A, 0xAA5B); (0xAAC3, 0xAADA); (0xAAF7, 0xAB00); (0xAB07, 0xAB08);
   (0xAB0F, 0xAB10); (0xAB17, 0xAB1F); (0xAB27, 0xAB27); (0xAB2F, 0xAB2F);
   (0xAB6C, 0xAB6F); (0xABEE, 0xABEF); (0xABFA, 0xABFF); (0xD7A4, 0xD7AF);
   (0xD7C7, 0xD7CA); (0xD7FC, 0xF8FF); (0xFA6E, 0xFA6F); (0xFADA, 0xFAFF);
   (0xFB07, 0xFB12); (0xFB18, 0xFB1C); (0xFB37, 0xFB37); (0xFB3D, 0xFB3D);
   (0xFB3F, 0xFB3F); (0xFB42, 0xFB42); (0xFB45, 0xFB45); (0xFBC3, 0xFBD2);
   (0xFD90, 0xFD91); (0xFDC8, 0xFDCE); (0xFDD0, 0xFDEF); (0xFE1A, 0xFE1F);
   (0xFE53, 0xFE53); (0xFE67, 0xFE67); (0xFE6C, 0xFE6F); (0xFE75, 0xFE75);
   (0xFEFD, 0xFF00); (0xFFBF, 0xFFC1); (0xFFC8, 0xFFC9); (0xFFD0, 0xFFD1);
   (0xFFD8, 0xFFD9); (0xFFDD, 0xFFDF); (0xFFE7, 0xFFE7); (0xFFEF, 0xFFFB);
   (0xFFFE, 0xFFFF); (0x1000C, 0x1000C); (0x10027, 0x10027);
   (0x1003B, 0x1003B); (0x1003E, 0x1003E); (0x1004E, 0x1004F);
   (0x1005E, 0x1007F); (0x100FB, 0x100FF); (0x10103, 0x10106);
   (0x10134, 0x10136); (0x1018F, 0x1018F); (0x1019D, 0x1019F);
   (0x101A1, 0x101CF); (0x101FE, 0x1027F); (0x1029D, 0x1029F);
   (0x102D1, 0x102DF); (0x102FC, 0x102FF); (0x10324, 0x1032C);
   (0x1034B, 0x1034F); (0x1037B, 0x1037F); (0x1039E, 0x1039E);
   (0x103C4, 0x103C7); (0x103D6, 0x103FF); (0x1049E, 0x1049F);
   (0x104AA, 0x104AF); (0x104D4, 0x104D7); (0x104FC, 0x104FF);
   (0x10528, 0x1052F); (0x10564, 0x1056E); (0x1057B, 0x1057B);
   (0x1058B, 0x1058B); (0x10593, 0x10593); (0x10596, 0x10596);
   (0x105A2, 0x105A2); (0x105B2, 0x105B2); (0x105BA, 0x105BA);
   (0x105BD, 0x105FF); (0x10737, 0x1073F); (0x10756, 0x1075F);
   (0x10768, 0x1077F); (0x10786, 0x10786); (0x107B1, 0x107B1);
   (0x107BB, 0x107FF); (0x10806, 0x10807); (0x10809, 0x10809);
   (0x10836, 0x10836); (0x10839, 0x1083B); (0x1083D, 0x1083E);
   (0x10856, 0x10856); (0x1089F, 0x108A6); (0x108B0, 0x108DF);
   (0x108F3, 0x108F3); (0x108F6, 0x108FA); (0x1091C, 0x1091E);
   (0x1093A, 0x1093E); (0x10940, 0x1097F); (0x109B8, 0x109BB);
   (0x109D0, 0x109D1); (0x10A04, 0x10A04); (0x10A07, 0x10A0B);
   (0x10A14, 0x10A14); (0x10A18, 0x10A18); (0x10A36, 0x10A37);
   (0x10A3B, 0x10A3E); (0x10A49, 0x10A4F); (0x10A59, 0x10A5F);
   (0x10AA0, 0x10ABF); (0x10AE7, 0x10AEA); (0x10AF7, 0x10AFF);
   (0x10B36, 0x10B38); (0x10B56, 0x10B57); (0x10B73, 0x10B77);
   (0x10B92, 0x10B98); (0x10B9D, 0x10BA8); (0x10BB0, 0x10BFF);
   (0x10C49, 0x10C7F); (0x10CB3, 0x10CBF); (0x10CF3, 0x10CF9);
   (0x10D28, 0x10D2F); (0x10D3A, 0x10E5F); (0x10E7F, 0x10E7F);
   (0x10EAA, 0x10EAA); (0x10EAE, 0x10EAF); (0x10EB2, 0x10EFF);
   (0x10F28, 0x10F2F); (0x10F5A, 0x10F6F); (0x10F8A, 0x10FAF);
   (0x10FCC, 0x10FDF); (0x10FF7, 0x10FFF); (0x1104E, 0x11051);
   (0x11076, 0x1107E); (0x110BD, 0x110BD); (0x110C3, 0x110CF);
   (0x110E9, 0x110EF); (0x110FA, 0x110FF); (0x11135, 0x11135);
   (0x11148, 0x1114F); (0x11177, 0x1117F); (0x111E0, 0x111E0);
   (0x111F5, 0x111FF); (0x11212, 0x11212); (0x1123F, 0x1127F);
   (0x11287, 0x11287); (0x11289, 0x11289); (0x1128E, 0x1128E);
   (0x1129E, 0x1129E); (0x112AA, 0x112AF); (0x112EB, 0x112EF);
   (0x112FA, 0x112FF); (0x11304, 0x11304); (0x1130D, 0x1130E);
   (0x11311, 0x11312); (0x11329, 0x11329); (0x11331, 0x11331);
   (0x11334, 0x11334); (0x1133A, 0x1133A); (0x11345, 0x11346);
   (0x11349, 0x1134A); (0x1134E, 0x1134F); (0x11351, 0x11356);
   (0x11358, 0x1135C); (0x11364, 0x11365); (0x1136D, 0x1136F);
   (0x11375, 0x113FF); (0x1145C, 0x1145C); (0x11462, 0x1147F);
   (0x114C8, 0x114CF); (0x114DA, 0x1157F); (0x115B6, 0x115B7);
   (0x115DE, 0x115FF); (0x11645, 0x1164F); (0x1165A, 0x1165F);
   (0x1166D, 0x1167F); (0x116BA, 0x116BF); (0x116CA, 0x116FF);
   (0x1171B, 0x1171C); (0x1172C, 0x1172F); (0x11747, 0x117FF);
   (0x1183C, 0x1189F); (0x118F3, 0x118FE); (0x11907, 0x11908);
   (0x1190A, 0x1190B); (0x11914, 0x11914); (0x11917, 0x11917);
   (0x11936, 0x11936); (0x11939, 0x1193A); (0x11947, 0x1194F);
   (0x1195A, 0x1199F); (0x119A8, 0x119A9); (0x119D8, 0x119D9);
   (0x119E5, 0x119FF); (0x11A48, 0x11A4F); (0x11AA3, 0x11AAF);
   (0x11AF9, 0x11BFF); (0x11C09, 0x11C09); (0x11C37, 0x11C37);
   (0x11C46, 0x11C4F); (0x11C6D, 0x11C6F); (0x11C90, 0x11C91);
   (0x11CA8, 0x11CA8); (0x11CB7, 0x11CFF); (0x11D07, 0x11D07);
   (0x11D0A, 0x11D0A); (0x11D37, 0x11D39); (0x11D3B, 0x11D3B);
   (0x11D3E, 0x11D3E); (0x11D48, 0x11D4F); (0x11D5A, 0x11D5F);
   (0x11D66, 0x11D66); (0x11D69, 0x11D69); (0x11D8F, 0x11D8F);
   (0x11D92, 0x11D92); (0x11D99, 0x11D9F); (0x11DAA, 0x11EDF);
   (0x11EF9, 0x11FAF); (0x11FB1, 0x11FBF); (0x11FF2, 0x11FFE);
   (0x1239A, 0x123FF); (0x1246F, 0x1246F); (0x12475, 0x1247F);
   (0x12544, 0x12F8F); (0x12FF3, 0x12FFF); (0x1342F, 0x143FF);
   (0x14647, 0x167FF); (0x16A39, 0x16A3F); (0x16A5F, 0x16A5F);
   (0x16A6A, 0x16A6D); (0x16ABF, 0x16ABF); (0x16ACA, 0x16ACF);
   (0x16AEE, 0x16AEF); (0x16AF6, 0x16AFF); (0x16B46, 0x16B4F);
   (0x16B5A, 0x16B5A); (0x16B62, 0x16B62); (0x16B78, 0x16B7C);
   (0x16B90, 0x16E3F); (0x16E9B, 0x16EFF); (0x16F4B, 0x16F4E);
   (0x16F88, 0x16F8E); (0x16FA0, 0x16FDF); (0x16FE5, 0x16FEF);
   (0x16FF2, 0x16FFF); (0x187F8, 0x187FF); (0x18CD6, 0x18CFF);
   (0x18D09, 0x1AFEF); (0x1AFF4, 0x1AFF4); (0x1AFFC, 0x1AFFC);
   (0x1AFFF, 0x1AFFF); (0x1B123, 0x1B14F); (0x1B153, 0x1B163);
   (0x1B168, 0x1B16F); (0x1B2FC, 0x1BBFF); (0x1BC6B, 0x1BC6F);
   (0x1BC7D, 0x1BC7F); (0x1BC89, 0x1BC8F); (0x1BC9A, 0x1BC9B);
   (0x1BCA0, 0x1CEFF); (0x1CF2E, 0x1CF2F); (0x1CF47, 0x1CF4F);
   (0x1CFC4, 0x1CFFF); (0x1D0F6, 0x1D0FF); (0x1D127, 0x1D128);
   (0x1D173, 0x1D17A); (0x1D1EB, 0x1D1FF); (0x1D246, 0x1D2DF);
   (0x1D2F4, 0x1D2FF); (0x1D357, 0x1D35F); (0x1D379, 0x1D3FF);
   (0x1D455, 0x1D455); (0x1D49D, 0x1D49D); (0x1D4A0, 0x1D4A1);
   (0x1D4A3, 0x1D4A4); (0x1D4A7, 0x1D4A8); (0x1D4AD, 0x1D4AD);
   (0x1D4BA, 0x1D4BA); (0x1D4BC, 0x1D4BC); (0x1D4C4, 0x1D4C4);
   (0x1D506, 0x1D506); (0x1D50B, 0x1D50C); (0x1D515, 0x1D515);
   (0x1D51D, 0x1D51D); (0x1D53A, 0x1D53A); (0x1D53F, 0x1D53F);
   (0x1D545, 0x1D545); (0x1D547, 0x1D549); (0x1D551, 0x1D551);
   (0x1D6A6, 0x1D6A7); (0x1D7CC, 0x1D7CD); (0x1DA8C, 0x1DA9A);
   (0x1DAA0, 0x1DAA0); (0x1DAB0, 0x1DEFF); (0x1DF1F, 0x1DFFF);
   (0x1E007, 0x1E007); (0x1E019, 0x1E01A); (0x1E022, 0x1E022);
   (0x1E025, 0x1E025); (0x1E02B, 0x1E0FF); (0x1E12D, 0x1E12F);
   (0x1E13E, 0x1E13F); (0x1E14A, 0x1E14D); (0x1E150, 0x1E28F);
   (0x1E2AF, 0x1E2BF); (0x1E2FA, 0x1E2FE); (0x1E300, 0x1E7DF);
   (0x1E7E7, 0x1E7E7); (0x1E7EC, 0x1E7EC); (0x1E7EF, 0x1E7EF);
   (0x1E7FF, 0x1E7FF); (0x1E8C5, 0x1E8C6); (0x1E8D7, 0x1E8FF);
   (0x1E94C, 0x1E94F); (0x1E95A, 0x1E95D); (0x1E960, 0x1EC70);
   (0x1ECB5, 0x1ED00); (0x1ED3E, 0x1EDFF); (0x1EE04, 0x1EE04);
   (0x1EE20, 0x1EE20); (0x1EE23, 0x1EE23); (0x1EE25, 0x1EE26);
   (0x1EE28, 0x1EE28); (0x1EE33, 0x1EE33); (0x1EE38, 0x1EE38);
   (0x1EE3A, 0x1EE3A); (0x1EE3C, 0x1EE41); (0x1EE43, 0x1EE46);
   (0x1EE48, 0x1EE48); (0x1EE4A, 0x1EE4A); (0x1EE4C, 0x1EE4C);
   (0x1EE50, 0x1EE50); (0x1EE53, 0x1EE53); (0x1EE55, 0x1EE56);
   (0x1EE58, 0x1EE58); (0x1EE5A, 0x1EE5A); (0x1EE5C, 0x1EE5C);
   (0x1EE5E, 0x1EE5E); (0x1EE60, 0x1EE60); (0x1EE63, 0x1EE63);
   (0x1EE65, 0x1EE66); (0x1EE6B, 0x1EE6B); (0x1EE73, 0x1EE73);
   (0x1EE78, 0x1EE78); (0x1EE7D, 0x1EE7D); (0x1EE7F, 0x1EE7F);
   (0x1EE8A, 0x1EE8A); (0x1EE9C, 0x1EEA0); (0x1EEA4, 0x1EEA4);
   (0x1EEAA, 0x1EEAA); (0x1EEBC, 0x1EEEF); (0x1EEF2, 0x1EFFF);
   (0x1F02C, 0x1F02F); (0x1F094, 0x1F09F); (0x1F0AF, 0x1F0B0);
   (0x1F0C0, 0x1F0C0); (0x1F0D0, 0x1F0D0); (0x1F0F6, 0x1F0FF);
   (0x1F1AE, 0x1F1E5); (0x1F203, 0x1F20F); (0x1F23C, 0x1F23F);
   (0x1F249, 0x1F24F); (0x1F252, 0x1F25F); (0x1F266, 0x1F2FF);
   (0x1F6D8, 0x1F6DC); (0x1F6ED, 0x1F6EF); (0x1F6FD, 0x1F6FF);
   (0x1F774, 0x1F77F); (0x1F7D9, 0x1F7DF); (0x1F7EC, 0x1F7EF);
   (0x1F7F1, 0x1F7FF); (0x1F80C, 0x1F80F); (0x1F848, 0x1F84F);
   (0x1F85A, 0x1F85F); (0x1F888, 0x1F88F); (0x1F8AE, 0x1F8AF);
   (0x1F8B2, 0x1F8FF); (0x1FA54, 0x1FA5F); (0x1FA6E, 0x1FA6F);
   (0x1FA75, 0x1FA77); (0x1FA7D, 0x1FA7F); (0x1FA87, 0x1FA8F);
   (0x1FAAD, 0x1FAAF); (0x1FABB, 0x1FABF); (0x1FAC6, 0x1FACF);
   (0x1FADA, 0x1FADF); (0x1FAE8, 0x1FAEF); (0x1FAF7, 0x1FAFF);
   (0x1FB93, 0x1FB93); (0x1FBCB, 0x1FBEF); (0x1FBFA, 0x1FFFF);
   (0x2A6E0, 0x2A6FF); (0x2B739, 0x2B73F); (0x2B81E, 0x2B81F);
   (0x2CEA2, 0x2CEAF); (0x2EBE1, 0x2F7FF); (0x2FA1E, 0x2FFFF);
   (0x3134B, 0xE00FF); (0xE01F0, 0x10FFFF)]%N.

Definition isprintable (c : char) : bool :=
  negb (existsb (fun r => (fst r <=? c) && (c <=? snd r))%N not_printable).

Definition escape_char (quote : char) (c : char) : str :=
  (if (c =? quote) || (c =? 92) then [92; c]
   else if c =? 9 then lit "\t"
   else if c =? 10 then lit "\n"
   else if c =? 13 then lit "\r"
   else if isprintable c then [c]
   else if c <? 0x100 then lit "\x" ++ hex_fixed 2 c
   else if c <? 0x10000 then lit "\u" ++ hex_fixed 4 c
   else lit "\U" ++ hex_fixed 8 c)%N.

(** [repr(s)] for a string: single quotes unless the string holds a
    single quote and no double quote. *)
Definition repr_str (s : str) : str :=
  let quote := (if existsb (N.eqb 39) s && negb (existsb (N.eqb 34) s)
                then 34 else 39)%N in
  [quote] ++ flat_map (escape_char quote) s ++ [quote].

Fixpoint repr (v : value) : str :=
  match v with
  | VNone => lit "None"
  | VBool true => lit "True"
  | VBool false => lit "False"
  | VInt z => str_of_Z z
  | VFloat f => float_str f
  | VStr s => repr_str s
  | VList l => lit "[" ++ join (lit ", ") (map repr l) ++ lit "]"
  | VDict d =>
    lit "{" ++
    join (lit ", ")
         (map (fun kv => repr_str (fst kv) ++ lit ": " ++ repr (snd kv)) d)
    ++ lit "}"
  end.

(** [str(v)], also what an f-string writes for [{v}]. *)
Definition str_ (v : value) : str :=
  match v with
  | VStr s => s
  | _ => repr v
  end.

(** [v == s] for a string literal [s]. *)
Definition eq_str (v : value) (s : str) : bool :=
  match v with
  | VStr s' => str_eqb s' s
  | _ => false
  end.

(** *** [decimal.Decimal] *)

(** A [Decimal] as the module keeps it: sign, coefficient and exponent,
    or one of the special values. *)
Inductive decimal :=
| DFinite (neg : bool) (coeff : N) (exp : Z)
| DInfinity (neg : bool)
| DNaN (neg signal : bool) (diag : str).

Definition lower (c : char) : char :=
  (if (65 <=? c) && (c <=? 90) then c + 32 else c)%N.

Definition parse_sign (s : str) : bool * str :=
  match s with
  | 45%N :: r => (true, r)
  | 43%N :: r => (false, r)
  | _ => (false, s)
  end.

Definition digits_to_N (ds : str) : N :=
  fold_left (fun acc c => (acc * 10 + digit_value c)%N) ds 0%N.

Definition nonempty {A} (l : list A) : bool :=
  match l with [] => false | _ => true end.

(** What may follow the digits: nothing, or [E], an optional sign and at
    least one digit, up to the end of the string. *)
Definition parse_exponent (s : str) : option Z :=
  match s with
  | [] => Some 0%Z
  | e :: r =>
    if N.eqb (lower e) 101%N then
      let (neg, ds) := parse_sign r in
      if nonempty ds && forallb isdigit ds then
        Some (if neg then - Z.of_N (digits_to_N ds) else Z.of_N (digits_to_N ds))%Z
      else None
    else None
  end.

(** The numeric alternative of the constructor's grammar: digits with an
    optional fraction, at least one digit in all, then the exponent. *)
Definition parse_number (s : str) : option (N * Z) :=
  let ip := take_while isdigit s in
  let r := drop_while isdigit s in
  let '(fp, r') :=
    match r with
    | 46%N :: t => (take_while isdigit t, drop_while isdigit t)
    | _ => ([], r)
    end in
  if nonempty ip || nonempty fp then
    match parse_exponent r' with
    | Some e => Some (digits_to_N (ip ++ fp), (e - Z.of_nat (List.length fp))%Z)
    | None => None
    end
  else None.

(** The special alternatives: [Inf], [Infinity], [NaN] and [sNaN] with
    diagnostic digits, in any letter case. *)
Definition parse_special (neg : bool) (s : str) : option decimal :=
  let l := map lower s in
  if str_eqb l (lit "inf") || str_eqb l (lit "infinity") then
    Some (DInfinity neg)
  else
    let '(signal, l') :=
      match l with
      | 115%N :: t => (true, t)
      | _ => (false, l)
      end in
    if startswith (lit "nan") l' && forallb isdigit (skipn 3 l') then
      Some (DNaN neg signal (drop_while (N.eqb 48%N) (skipn 3 l')))
    else None.

(** The largest adjusted exponent and the smallest exponent a [Decimal]
    can have. *)
Definition MAX_EMAX : Z := 999999999999999999.
Definition MIN_ETINY : Z := -1999999999999999997.

(** [Decimal(s)] for a string: exact, and [InvalidOperation] when the
    string is not a number or its exponent is out of bounds. *)
Definition Decimal (s : str) : result decimal :=
  let '(neg, r) := parse_sign (remove_char 95%N (strip s)) in
  match parse_number r with
  | Some (c, e) =>
    let digits := Z.of_nat (List.length (str_of_Z (Z.of_N c))) in
    if ((e + digits - 1 <=? MAX_EMAX) && (MIN_ETINY <=? e))%Z
    then Ok (DFinite neg c e)
    else raise InvalidOperation (lit "[<class 'decimal.InvalidOperation'>]")
  | None =>
    match parse_special neg r with
    | Some d => Ok d
    | None => raise InvalidOperation (lit "[<class 'decimal.ConversionSyntax'>]")
    end
  end.

(** [str(d)] for a [Decimal]: plain notation while the exponent is not
    positive and the number is not too small, scientific otherwise. *)
Definition str_of_decimal (d : decimal) : str :=
  let sign (neg : bool) := if neg then lit "-" else [] in
  match d with
  | DInfinity neg => sign neg ++ lit "Infinity"
  | DNaN neg signal diag =>
    sign neg ++ (if signal then lit "sNaN" else lit "NaN") ++ diag
  | DFinite neg coeff exp =>
    let int_ := str_of_Z (Z.of_N coeff) in
    let len := Z.of_nat (List.length int_) in
    let leftdigits := (exp + len)%Z in
    let dotplace :=
      (if (exp <=? 0) && (-6 <? leftdigits) then leftdigits else 1)%Z in
    let '(intpart, fracpart) :=
      if (dotplace <=? 0)%Z then
        (lit "0", lit "." ++ repeat 48%N (Z.to_nat (- dotplace)) ++ int_)
      else if (len <=? dotplace)%Z then
        (int_ ++ repeat 48%N (Z.to_nat (dotplace - len)), [])
      else
        (firstn (Z.to_nat dotplace) int_,
         lit "." ++ skipn (Z.to_nat dotplace) int_) in
    let e := (leftdigits - dotplace)%Z in
    let exp_ :=
      if (leftdigits =? dotplace)%Z then []
      else lit "E" ++ (if (0 <=? e)%Z then lit "+" else []) ++ str_of_Z e in
    sign neg ++ intpart ++ fracpart ++ exp_
  end.

End Py.

Import Py.

Notation "x <- c1 ;; c2" := (bind c1 (fun x => c2))
  (at level 61, c1 at next level, right associativity).

(** ** Module constants *)

Definition DEFAULT_TIMEOUT : Z := 180.
Definition MAX_RETRIES : nat := 3.
Definition RETRY_DELAY : Z := 1.
Definition RETRY_BACKOFF : Z := 2.

(** ** The scraper object and its upstream *)

Record OxylabsAmazonScraper := Scraper {
  username : str;
  password : str;
  timeout : Z
}.

(** [OxylabsAmazonScraper(username, password)]. *)
Definition __init__ (username password : str) : OxylabsAmazonScraper :=
  Scraper username password DEFAULT_TIMEOUT.

(** What one pass through the [try] body of the retry loop does:
    [session.post], [raise_for_status] and [response.json()] either give
    the decoded body or raise; the exceptions are grouped as the [except]
    clauses tell them apart, each with its [str(e)]. *)
Inductive outcome :=
| Returns (body : value)
| RaisesTimeout (e : str)
| RaisesHTTPError (status_code : Z) (e : str)
| RaisesConnectionError (e : str)
| RaisesRequestException (e : str)
| RaisesJSONDecodeError (e : str)
| RaisesException (e : str).

(** The upstream service within one fetch: the outcome of the call made
    at each attempt. *)
Definition upstream := nat -> outcome.

Inductive event :=
| Post (url geo_location : str) (auth : str * str) (timeout : Z)
| Sleep (seconds : Z).

(** ** Identifier and credential checks *)

(** The class [[0-9A-Z]]. *)
Definition in_0_9A_Z (c : char) : bool :=
  ((48 <=? c) && (c <=? 57) || (65 <=? c) && (c <=? 90))%N.

(** [B[0-9A-Z]{9}] matched at the head of [s]; the matched text. *)
Definition match_asin (s : str) : option str :=
  match s with
  | 66%N :: r =>
    let body := firstn 9 r in
    if Nat.eqb (List.length body) 9 && forallb in_0_9A_Z body
    then Some (66%N :: body) else None
  | _ => None
  end.

(** [ASIN_REGEX.match(asin)] for [^B[0-9A-Z]{9}$]; [$] also matches in
    front of a final newline. *)
Definition _validate_asin (asin : str) : bool :=
  match match_asin asin with
  | Some _ =>
    match skipn 10 asin with
    | [] | [10%N] => true
    | _ => false
    end
  | None => false
  end.

(** The four patterns; each is the literal text here followed by the
    group [(B[0-9A-Z]{9})]. *)
Definition asin_patterns : list str :=
  [lit "/dp/"; lit "/product/"; lit "/gp/product/"; lit "asin="].

(** [re.search(pattern, url)] and [match.group(1)]: the leftmost place
    where the literal text is followed by the group. *)
Fixpoint re_search_group (pattern : str) (url : str) : option str :=
  match (if startswith pattern url
         then match_asin (skipn (List.length pattern) url) else None) with
  | Some asin => Some asin
  | None =>
    match url with
    | [] => None
    | _ :: url' => re_search_group pattern url'
    end
  end.

Fixpoint first_valid_asin (patterns : list str) (url : str) : option str :=
  match patterns with
  | [] => None
  | pattern :: rest =>
    match re_search_group pattern url with
    | Some asin =>
      if _validate_asin asin then Some asin else first_valid_asin rest url
    | None => first_valid_asin rest url
    end
  end.

Definition _extract_asin_from_url (url : str) : result str :=
  match first_valid_asin asin_patterns url with
  | Some asin => Ok asin
  | None => raise InvalidASINError (lit "Invalid or missing ASIN in URL: " ++ url)
  end.

Definition _validate_credentials (self : OxylabsAmazonScraper) : result unit :=
  if negb (nonempty (username self)) || negb (nonempty (password self)) then
    raise InvalidCredentialsError (lit "Username and password are required")
  else if (List.length (username self) <? 3)%nat
          || (List.length (password self) <? 3)%nat then
    raise InvalidCredentialsError (lit "Invalid credential format")
  else Ok tt.

(** ** The retry loop *)

(** How one iteration of [for attempt in range(MAX_RETRIES)] ends. *)
Inductive control :=
| Return (result : value)
| Raise (e : exc)
| Next (last_exception : option str).

(** The [if attempt < MAX_RETRIES - 1: time.sleep(...); continue] tail
    shared by the retrying handlers; on the last attempt the handler
    falls through and the loop runs out. *)
Definition sleep_and_continue (attempt : nat) (seconds : Z)
    (last_exception : option str) : list event * control :=
  if (attempt <? MAX_RETRIES - 1)%nat
  then ([Sleep seconds], Next last_exception)
  else ([], Next last_exception).

Definition handle_attempt (attempt : nat) (o : outcome)
    (last_exception : option str) : list event * control :=
  let backoff := (RETRY_DELAY * RETRY_BACKOFF ^ Z.of_nat attempt)%Z in
  match o with
  | Returns result => ([], Return result)
  | RaisesTimeout e => sleep_and_continue attempt backoff (Some e)
  | RaisesHTTPError status_code e =>
    if (status_code =? 401)%Z then
      ([], Raise (Exc InvalidCredentialsError (lit "Invalid API credentials")))
    else if (status_code =? 429)%Z then
      if (attempt <? MAX_RETRIES - 1)%nat
      then ([Sleep (backoff * 2)%Z], Next last_exception)
      else ([], Raise (Exc RateLimitError
                           (lit "Rate limit exceeded after retries")))
    else if (500 <=? status_code)%Z then
      sleep_and_continue attempt backoff (Some e)
    else
      ([], Raise (Exc APIConnectionError
                      (lit "HTTP error " ++ str_of_Z status_code
                       ++ lit ": " ++ e)))
  | RaisesConnectionError e => sleep_and_continue attempt backoff (Some e)
  | RaisesRequestException e => sleep_and_continue attempt backoff (Some e)
  | RaisesJSONDecodeError e =>
    ([], Raise (Exc DataExtractionError (lit "Invalid JSON response: " ++ e)))
  | RaisesException e => sleep_and_continue attempt backoff (Some e)
  end.

Fixpoint retry_loop (self : OxylabsAmazonScraper) (up : upstream)
    (url geo_location : str) (attempts : list nat)
    (last_exception : option str) : list event * result value :=
  match attempts with
  | [] =>
    ([], raise APIConnectionError
           (lit "Request failed after " ++ str_of_Z (Z.of_nat MAX_RETRIES)
            ++ lit " attempts. Last error: "
            ++ match last_exception with
               | Some e => e
               | None => lit "None"
               end))
  | attempt :: rest =>
    let post := Post url geo_location (username self, password self)
                     (timeout self) in
    let '(slept, c) := handle_attempt attempt (up attempt) last_exception in
    match c with
    | Return result => (post :: slept, Ok result)
    | Raise e => (post :: slept, Error e)
    | Next last_exception' =>
      let '(later, r) :=
        retry_loop self up url geo_location rest last_exception' in
      (post :: slept ++ later, r)
    end
  end.

Definition _make_request_with_retry (self : OxylabsAmazonScraper)
    (up : upstream) (url geo_location : str) : list event * result value :=
  match _validate_credentials self with
  | Error e => ([], Error e)
  | Ok _ =>
    match _extract_asin_from_url url with
    | Error e => ([], Error e)
    | Ok _ => retry_loop self up url geo_location (seq 0 MAX_RETRIES) None
    end
  end.

Definition error_response (kind : string) (e : exc) : value :=
  VDict [(lit "error", VStr (lit kind)); (lit "message", VStr (str_of e))].

Definition _make_request (self : OxylabsAmazonScraper) (up : upstream)
    (url geo_location : str) : list event * value :=
  let '(trace, r) := _make_request_with_retry self up url geo_location in
  (trace,
   match r with
   | Ok response => response
   | Error e =>
     match class_of e with
     | InvalidASINError => error_response "invalid_asin" e
     | InvalidCredentialsError => error_response "invalid_credentials" e
     | RateLimitError => error_response "rate_limit" e
     | APIConnectionError => error_response "connection_error" e
     | DataExtractionError => error_response "data_extraction_error" e
     | _ => error_response "unexpected_error" e
     end
   end).

(** ** Structural validation of a response *)

Definition type_name (v : value) : str :=
  match v with
  | VNone => lit "NoneType"
  | VBool _ => lit "bool"
  | VInt _ => lit "int"
  | VFloat _ => lit "float"
  | VStr _ => lit "str"
  | VList _ => lit "list"
  | VDict _ => lit "dict"
  end.

(** [k in v] for a string [k]: key of a dict, element of a list,
    substring of a string, [TypeError] elsewhere. *)
Definition py_in (k : str) (v : value) : result bool :=
  match v with
  | VDict d => Ok (match lookup k d with Some _ => true | None => false end)
  | VList l => Ok (existsb (fun x => eq_str x k) l)
  | VStr s => Ok (contains k s)
  | _ => raise TypeError (lit "argument of type '" ++ type_name v
                          ++ lit "' is not iterable")
  end.

(** [v[k]] for a string [k]. *)
Definition subscript (v : value) (k : str) : result value :=
  match v with
  | VDict d => getitem d k
  | VList _ => raise TypeError
                 (lit "list indices must be integers or slices, not str")
  | VStr _ => raise TypeError (lit "string indices must be integers")
  | _ => raise TypeError (lit "'" ++ type_name v
                          ++ lit "' object is not subscriptable")
  end.

(** [v[0]]. *)
Definition first_item (v : value) : result value :=
  match v with
  | VList (x :: _) => Ok x
  | VList [] => raise OtherException (lit "list index out of range")
  | VStr (c :: _) => Ok (VStr [c])
  | VStr [] => raise OtherException (lit "string index out of range")
  | VDict _ => raise KeyError (lit "0")
  | _ => raise TypeError (lit "'" ++ type_name v
                          ++ lit "' object is not subscriptable")
  end.

Definition _validate_response_structure (response : value) : result unit :=
  match response with
  | VDict r =>
    match lookup (lit "error") r with
    | Some error_type =>
      let error_message :=
        match lookup (lit "message") r with
        | Some m => m
        | None => VStr (lit "Unknown error")
        end in
      if eq_str error_type (lit "invalid_asin") then
        raise InvalidASINError (str_ error_message)
      else if eq_str error_type (lit "invalid_credentials") then
        raise InvalidCredentialsError (str_ error_message)
      else if eq_str error_type (lit "rate_limit") then
        raise RateLimitError (str_ error_message)
      else if eq_str error_type (lit "connection_error") then
        raise APIConnectionError (str_ error_message)
      else
        raise DataExtractionError
              (lit "API returned error: " ++ str_ error_message)
    | None =>
      match lookup (lit "results") r with
      | None =>
        raise ValidationError (lit "No 'results' field found in API response")
      | Some (VList (result :: _)) =>
        has_content <- py_in (lit "content") result ;;
        if negb has_content then
          raise ValidationError (lit "No 'content' field found in first result")
        else
          content <- subscript result (lit "content") ;;
          match content with
          | VDict _ => Ok tt
          | _ => raise ValidationError (lit "Content field must be a dictionary")
          end
      | Some _ =>
        raise ValidationError (lit "Results field must be a non-empty list")
      end
    end
  | _ => raise ValidationError (lit "Response must be a dictionary")
  end.

(** ** Field extractors

    Each walks its list of alternate keys in order.  [content] is the
    dictionary that passed validation. *)

Fixpoint _safe_extract_text (content : dict) (keys : list str) : str :=
  match keys with
  | [] => []
  | key :: rest =>
    match lookup key content with
    | Some value =>
      if truthy value then
        match value with
        | VStr s => strip s
        | VList _ | VDict _ => str_ value
        | _ => _safe_extract_text content rest
        end
      else _safe_extract_text content rest
    | None => _safe_extract_text content rest
    end
  end.

Definition price_keys : list str :=
  [lit "price"; lit "current_price"; lit "sale_price"; lit "price_current";
   lit "price_range"].

(** [re.sub(r'[^\d.,]', '', price_value)]. *)
Definition clean_price_chars (s : str) : str :=
  filter (fun c => isdigit c || N.eqb c 46%N || N.eqb c 44%N) s.

(** [str(Decimal(s))]. *)
Definition decimal_text (s : str) : result str :=
  d <- Decimal s ;; Ok (str_of_decimal d).

Fixpoint price_loop (content : dict) (keys : list str) : result str :=
  match keys with
  | [] => Ok []
  | key :: rest =>
    match lookup key content with
    | Some price_value =>
      if truthy price_value then
        match price_value with
        | VStr s =>
          let clean_price := clean_price_chars s in
          match decimal_text (remove_char 44%N clean_price) with
          | Ok p => Ok p
          | Error _ => Ok (strip s)
          end
        | VBool _ | VInt _ | VFloat _ => decimal_text (str_ price_value)
        | VDict pv =>
          match lookup (lit "value") pv with
          | Some v => Ok (str_ v)
          | None =>
            match lookup (lit "amount") pv with
            | Some v => Ok (str_ v)
            | None => price_loop content rest
            end
          end
        | _ => price_loop content rest
        end
      else price_loop content rest
    | None => price_loop content rest
    end
  end.

Definition _extract_and_format_price (content : dict) : result str :=
  price_loop content price_keys.

Definition rating_keys : list str :=
  [lit "rating"; lit "average_rating"; lit "stars"; lit "rating_average"].

(** [re.search(r'(\d+(?:\.\d+)?)', s)] and its group: the first run of
    digits, with a following dot and digits when there are some. *)
Fixpoint search_rating (s : str) : option str :=
  match s with
  | [] => None
  | c :: s' =>
    if isdigit c then
      let whole := take_while isdigit s in
      Some (match drop_while isdigit s with
            | 46%N :: t =>
              match take_while isdigit t with
              | [] => whole
              | frac => whole ++ [46%N] ++ frac
              end
            | _ => whole
            end)
    else search_rating s'
  end.

Fixpoint rating_loop (content : dict) (keys : list str) : str :=
  match keys with
  | [] => []
  | key :: rest =>
    match lookup key content with
    | Some VNone | None => rating_loop content rest
    | Some rating_value =>
      match rating_value with
      | VStr s =>
        match search_rating s with
        | Some g => g
        | None => strip s
        end
      | VBool _ | VInt _ | VFloat _ => str_ rating_value
      | VDict rv =>
        match lookup (lit "value") rv with
        | Some v => str_ v
        | None => rating_loop content rest
        end
      | _ => rating_loop content rest
      end
    end
  end.

Definition _extract_rating (content : dict) : str :=
  rating_loop content rating_keys.

Definition review_keys : list str :=
  [lit "reviews_count"; lit "review_count"; lit "total_reviews";
   lit "number_of_reviews"].

(** [re.search(r'([\d,]+)', s)] and its group: the first run of digits
    and commas. *)
Definition digit_or_comma (c : char) : bool := isdigit c || N.eqb c 44%N.

Fixpoint search_count (s : str) : option str :=
  match s with
  | [] => None
  | c :: s' =>
    if digit_or_comma c then Some (take_while digit_or_comma s)
    else search_count s'
  end.

(** [int(v)] for a number. *)
Definition int_of_number (v : value) : result Z :=
  match v with
  | VBool b => Ok (if b then 1 else 0)%Z
  | VInt z => Ok z
  | VFloat f => float_int f
  | _ => raise TypeError (lit "int() argument must be a number")
  end.

Fixpoint reviews_loop (content : dict) (keys : list str) : result str :=
  match keys with
  | [] => Ok []
  | key :: rest =>
    match lookup key content with
    | Some VNone | None => reviews_loop content rest
    | Some review_value =>
      match review_value with
      | VStr s =>
        match search_count s with
        | Some g => Ok (remove_char 44%N g)
        | None => Ok (strip s)
        end
      | VBool _ | VInt _ | VFloat _ =>
        n <- int_of_number review_value ;; Ok (str_of_Z n)
      | _ => reviews_loop content rest
      end
    end
  end.

Definition _extract_reviews_count (content : dict) : result str :=
  reviews_loop content review_keys.

Definition bullet_keys : list str :=
  [lit "bullet_points"; lit "features"; lit "key_features"; lit "highlights";
   lit "product_features"].

(** The delimiters of [re.split(r'[\n•▪▫◦‣⁃]', bullet_value)]: the line
    feed and U+2022, U+25AA, U+25AB, U+25E6, U+2023, U+2043. *)
Definition bullet_delimiter (c : char) : bool :=
  existsb (N.eqb c) [10; 0x2022; 0x25AA; 0x25AB; 0x25E6; 0x2023; 0x2043]%N.

Fixpoint bullets_loop (content : dict) (keys : list str) : list str :=
  match keys with
  | [] => []
  | key :: rest =>
    match lookup key content with
    | Some bullet_value =>
      if truthy bullet_value then
        match bullet_value with
        | VList l => map (fun item => strip (str_ item)) (filter truthy l)
        | VStr s =>
          let points := split_on bullet_delimiter s in
          map strip (filter (fun point => nonempty (strip point)) points)
        | _ => bullets_loop content rest
        end
      else bullets_loop content rest
    | None => bullets_loop content rest
    end
  end.

Definition _extract_bullet_points (content : dict) : list str :=
  bullets_loop content bullet_keys.

Definition image_keys : list str :=
  [lit "images"; lit "image_urls"; lit "product_images"; lit "photos"].

Fixpoint images_loop (content : dict) (keys : list str) : list str :=
  match keys with
  | [] => []
  | key :: rest =>
    match lookup key content with
    | Some image_value =>
      if truthy image_value then
        match image_value with
        | VList l => map str_ (filter truthy l)
        | VStr s => [s]
        | _ => images_loop content rest
        end
      else images_loop content rest
    | None => images_loop content rest
    end
  end.

Definition _extract_images (content : dict) : list str :=
  images_loop content image_keys.

Definition spec_keys : list str :=
  [lit "specifications"; lit "specs"; lit "technical_details";
   lit "product_details"; lit "attributes"].

(** One turn of [for item in spec_value] over the dictionary built so
    far. *)
Definition merge_spec_item (spec_dict : dict) (item : value) : dict :=
  match item with
  | VDict d => update spec_dict d
  | VStr s =>
    if contains [58%N] s then
      match split_once 58%N s with
      | [k; v] => setitem (strip k) (VStr (strip v)) spec_dict
      | _ => spec_dict
      end
    else spec_dict
  | _ => spec_dict
  end.

Fixpoint specs_loop (content : dict) (keys : list str) : dict :=
  match keys with
  | [] => []
  | key :: rest =>
    match lookup key content with
    | Some spec_value =>
      if truthy spec_value then
        match spec_value with
        | VDict d => d
        | VList l => fold_left merge_spec_item l []
        | _ => specs_loop content rest
        end
      else specs_loop content rest
    | None => specs_loop content rest
    end
  end.

Definition _extract_specifications (content : dict) : dict :=
  specs_loop content spec_keys.

(** ** Assembling the record *)

(** The [product_data] literal at the head of
    [extract_and_format_product_data]; [now] is what
    [time.strftime("%Y-%m-%d %H:%M:%S")] returns at that moment. *)
Definition initial_product_data (now : str) : dict :=
  [(lit "name", VStr []);
   (lit "brand", VStr []);
   (lit "price", VStr []);
   (lit "rating", VStr []);
   (lit "reviews_count", VStr []);
   (lit "description", VStr []);
   (lit "bullet_points", VList []);
   (lit "images", VList []);
   (lit "specifications", VDict []);
   (lit "availability", VStr []);
   (lit "url", VStr []);
   (lit "scraped_at", VStr now);
   (lit "error", VNone)].

(** [try: product_data[key] = <extractor> except Exception: <log>]. *)
Definition try_assign (key : str) (r : result value) (product_data : dict)
    : dict :=
  match r with
  | Ok v => setitem key v product_data
  | Error _ => product_data
  end.

Definition text (s : str) : result value := Ok (VStr s).

Definition texts (l : list str) : result value := Ok (VList (map VStr l)).

(** The eleven guarded assignments, in source order. *)
Definition extract_fields (content : dict) (product_data : dict) : dict :=
  let product_data :=
    try_assign (lit "name")
      (text (_safe_extract_text content
               [lit "title"; lit "name"; lit "product_title"]))
      product_data in
  let product_data :=
    try_assign (lit "brand")
      (text (_safe_extract_text content
               [lit "brand"; lit "manufacturer"; lit "brand_name"]))
      product_data in
  let product_data :=
    try_assign (lit "price")
      (p <- _extract_and_format_price content ;; text p) product_data in
  let product_data :=
    try_assign (lit "rating") (text (_extract_rating content))
      product_data in
  let product_data :=
    try_assign (lit "reviews_count")
      (n <- _extract_reviews_count content ;; text n) product_data in
  let product_data :=
    try_assign (lit "description")
      (text (_safe_extract_text content
               [lit "description"; lit "product_description"; lit "about"]))
      product_data in
  let product_data :=
    try_assign (lit "bullet_points") (texts (_extract_bullet_points content))
      product_data in
  let product_data :=
    try_assign (lit "images") (texts (_extract_images content))
      product_data in
  let product_data :=
    try_assign (lit "specifications")
      (Ok (VDict (_extract_specifications content))) product_data in
  let product_data :=
    try_assign (lit "availability")
      (text (_safe_extract_text content
               [lit "availability"; lit "stock_status"; lit "in_stock"]))
      product_data in
  try_assign (lit "url")
    (text (_safe_extract_text content
             [lit "url"; lit "product_url"; lit "link"]))
    product_data.

Definition required_fields : list str :=
  [lit "name"; lit "brand"; lit "price"; lit "rating"; lit "reviews_count";
   lit "description"].

Fixpoint check_required (fields : list str) (product_data : dict)
    : result unit :=
  match fields with
  | [] => Ok tt
  | field :: rest =>
    match lookup field product_data with
    | Some _ => check_required rest product_data
    | None => raise ValidationError (lit "Missing required field: " ++ field)
    end
  end.

(** [re.match(pattern, v)] as far as it can raise: the subject must be a
    string.  Whether it matches only decides a log line. *)
Definition re_match_subject (v : value) : result unit :=
  match v with
  | VStr _ => Ok tt
  | _ => raise TypeError (lit "expected string or bytes-like object, got '"
                          ++ type_name v ++ lit "'")
  end.

(** [try: float(v) ... except ValueError: <log>] as far as it can raise:
    a [ValueError] from a string is caught there, an integer too large
    for a double and a non-number are not. *)
Definition float_guarded (v : value) : result unit :=
  match v with
  | VStr _ | VBool _ | VFloat _ => Ok tt
  | VInt z =>
    if (Z.abs z <? 2 ^ 1024 - 2 ^ 970)%Z then Ok tt
    else raise OverflowError (lit "int too large to convert to float")
  | _ => raise TypeError
           (lit "float() argument must be a string or a real number, not '"
            ++ type_name v ++ lit "'")
  end.

(** [try: int(v.replace(',', '')) ... except ValueError: <log>] as far as
    it can raise: only a string has [replace]. *)
Definition int_of_replace_guarded (v : value) : result unit :=
  match v with
  | VStr _ => Ok tt
  | _ => raise AttributeError (lit "'" ++ type_name v
                               ++ lit "' object has no attribute 'replace'")
  end.

(** The checks after the required fields only write warnings to the log;
    what is kept of them is where they can raise. *)
Definition _validate_extracted_data (product_data : dict) : result unit :=
  _ <- check_required required_fields product_data ;;
  price <- getitem product_data (lit "price") ;;
  _ <- (if truthy price then re_match_subject price else Ok tt) ;;
  rating <- getitem product_data (lit "rating") ;;
  _ <- (if truthy rating then float_guarded rating else Ok tt) ;;
  reviews_count <- getitem product_data (lit "reviews_count") ;;
  if truthy reviews_count then int_of_replace_guarded reviews_count
  else Ok tt.

(** The text an f-string puts in front of each point: U+2022 and a
    space. *)
Definition bullet_prefix : str := [0x2022%N; 32%N].

(** [[f"• {point}" for point in v]]. *)
Definition format_points (v : value) : result (list str) :=
  match v with
  | VList l => Ok (map (fun point => bullet_prefix ++ str_ point) l)
  | VStr s => Ok (map (fun c => bullet_prefix ++ [c]) s)
  | VDict d => Ok (map (fun kv => bullet_prefix ++ fst kv) d)
  | _ => raise TypeError (lit "'" ++ type_name v
                          ++ lit "' object is not iterable")
  end.

(** [sum(1 for key in keys if product_data[key])]. *)
Fixpoint count_populated (keys : list str) (product_data : dict)
    : result Z :=
  match keys with
  | [] => Ok 0%Z
  | key :: rest =>
    v <- getitem product_data key ;;
    n <- count_populated rest product_data ;;
    Ok ((if truthy v then 1 else 0) + n)%Z
  end.

Definition _create_clean_json_structure (product_data : dict)
    : result value :=
  points <- getitem product_data (lit "bullet_points") ;;
  bullet_points_text <-
    (if truthy points then
       lines <- format_points points ;; Ok (join [10%N] lines)
     else Ok []) ;;
  name <- getitem product_data (lit "name") ;;
  brand <- getitem product_data (lit "brand") ;;
  price <- getitem product_data (lit "price") ;;
  rating <- getitem product_data (lit "rating") ;;
  reviews_count <- getitem product_data (lit "reviews_count") ;;
  description <- getitem product_data (lit "description") ;;
  features <- getitem product_data (lit "bullet_points") ;;
  images <- getitem product_data (lit "images") ;;
  specifications <- getitem product_data (lit "specifications") ;;
  availability <- getitem product_data (lit "availability") ;;
  url <- getitem product_data (lit "url") ;;
  scraped_at <- getitem product_data (lit "scraped_at") ;;
  error <- getitem product_data (lit "error") ;;
  error_message <- getitem product_data (lit "error") ;;
  fields_extracted <- count_populated required_fields product_data ;;
  Ok (VDict
        [(lit "product",
          VDict
            [(lit "name", py_or name (VStr (lit "Unknown")));
             (lit "brand", py_or brand (VStr (lit "Unknown")));
             (lit "price", py_or price (VStr (lit "0.00")));
             (lit "rating", py_or rating (VStr (lit "0")));
             (lit "reviews_count", py_or reviews_count (VStr (lit "0")));
             (lit "description", description);
             (lit "bullet_points", VStr bullet_points_text);
             (lit "features", features);
             (lit "images", images);
             (lit "specifications", specifications);
             (lit "availability", availability);
             (lit "url", url);
             (lit "scraped_at", scraped_at)]);
         (lit "metadata",
          VDict
            [(lit "extraction_successful",
              VBool (match error with VNone => true | _ => false end));
             (lit "error_message", error_message);
             (lit "fields_extracted", VInt fields_extracted)])]).

(** [result = oxylabs_response["results"][0]; content = result["content"]].
    The extractors are written for a dictionary. *)
Definition content_of (oxylabs_response : value) : result dict :=
  results <- subscript oxylabs_response (lit "results") ;;
  result <- first_item results ;;
  content <- subscript result (lit "content") ;;
  match content with
  | VDict c => Ok c
  | _ => raise TypeError (lit "'" ++ type_name content
                          ++ lit "' object is not a mapping")
  end.

(** The [try] block: the dictionary as it stands when the block is left,
    and how it is left. *)
Definition try_block (oxylabs_response : value) (product_data : dict)
    : dict * result unit :=
  match _validate_response_structure oxylabs_response with
  | Error e => (product_data, Error e)
  | Ok _ =>
    match content_of oxylabs_response with
    | Error e => (product_data, Error e)
    | Ok content =>
      let product_data := extract_fields content product_data in
      (product_data, _validate_extracted_data product_data)
    end
  end.

(** What the [except] clauses store in [product_data["error"]]. *)
Definition error_text (e : exc) : str :=
  match class_of e with
  | InvalidASINError | InvalidCredentialsError | RateLimitError
  | APIConnectionError => str_of e
  | ValidationError => lit "Validation error: " ++ str_of e
  | DataExtractionError => lit "Data extraction error: " ++ str_of e
  | _ => lit "Unexpected extraction error: " ++ str_of e
  end.

(** The record before the envelope is built around it. *)
Definition extracted_product_data (now : str) (oxylabs_response : value)
    : dict :=
  let '(product_data, r) :=
    try_block oxylabs_response (initial_product_data now) in
  match r with
  | Ok _ => product_data
  | Error e => setitem (lit "error") (VStr (error_text e)) product_data
  end.

Definition extract_and_format_product_data (now : str)
    (oxylabs_response : value) : result value :=
  _create_clean_json_structure (extracted_product_data now oxylabs_response).

(** [if "product" in product_data: product_data["product"]["url"] = url]. *)
Definition set_product_url (product_data : value) (product_url : str)
    : result value :=
  has_product <- py_in (lit "product") product_data ;;
  if has_product then
    product <- subscript product_data (lit "product") ;;
    match product_data, product with
    | VDict envelope, VDict p =>
      Ok (VDict (setitem (lit "product")
                         (VDict (setitem (lit "url") (VStr product_url) p))
                         envelope))
    | _, _ => raise TypeError (lit "'" ++ type_name product
                               ++ lit "' object does not support item assignment")
    end
  else Ok product_data.

Definition scrape_product (self : OxylabsAmazonScraper) (up : upstream)
    (now : str) (product_url geo_location : str)
    : list event * result value :=
  let '(trace, response) := _make_request self up product_url geo_location in
  (trace,
   product_data <- extract_and_format_product_data now response ;;
   set_product_url product_data product_url).

(** ** Vocabulary of the specification *)

(** A structurally valid response around a given content dictionary. *)
Definition payload (content : dict) : value :=
  VDict [(lit "results", VList [VDict [(lit "content", VDict content)]])].

(** [envelope["product"][key]] and [envelope["metadata"][key]]. *)
Definition section_field (section key : str) (envelope : value)
    : option value :=
  match envelope with
  | VDict e =>
    match lookup section e with
    | Some (VDict d) => lookup key d
    | _ => None
    end
  | _ => None
  end.

Definition product_field (key : string) : value -> option value :=
  section_field (lit "product") (lit key).

Definition metadata_field (key : string) : value -> option value :=
  section_field (lit "metadata") (lit key).

(** The envelope with [product.scraped_at] taken out. *)
Definition without_scraped_at (envelope : value) : value :=
  match envelope with
  | VDict e =>
    match lookup (lit "product") e with
    | Some (VDict p) =>
      VDict (setitem (lit "product")
                     (VDict (delitem (lit "scraped_at") p)) e)
    | _ => envelope
    end
  | _ => envelope
  end.

Definition is_str (v : value) : bool :=
  match v with VStr _ => true | _ => false end.

Definition is_str_or_none (v : value) : bool :=
  match v with VStr _ | VNone => true | _ => false end.

Definition is_bool (v : value) : bool :=
  match v with VBool _ => true | _ => false end.

Definition is_int (v : value) : bool :=
  match v with VInt _ => true | _ => false end.

Definition is_dict (v : value) : bool :=
  match v with VDict _ => true | _ => false end.

Definition is_str_list (v : value) : bool :=
  match v with VList l => forallb is_str l | _ => false end.

(** A dictionary has exactly the keys of a schema, in its order, each
    bound to a value of the stated kind. *)
Fixpoint conforms (schema : list (string * (value -> bool))) (d : dict)
    : bool :=
  match schema, d with
  | [], [] => true
  | (k, kind) :: schema', (k', v) :: d' =>
    str_eqb (lit k) k' && kind v && conforms schema' d'
  | _, _ => false
  end.

(** The keys of [product] as the code writes them. *)
Definition product_schema : list (string * (value -> bool)) :=
  [("name", is_str); ("brand", is_str); ("price", is_str);
   ("rating", is_str); ("reviews_count", is_str); ("description", is_str);
   ("bullet_points", is_str); ("features", is_str_list);
   ("images", is_str_list); ("specifications", is_dict);
   ("availability", is_str); ("url", is_str); ("scraped_at", is_str)]%string.

Definition metadata_schema : list (string * (value -> bool)) :=
  [("extraction_successful", is_bool); ("error_message", is_str_or_none);
   ("fields_extracted", is_int)]%string.

(** [{product: {...}, metadata: {extraction_successful, error_message,
    fields_extracted}}]. *)
Definition envelope_shape (envelope : value) : bool :=
  match envelope with
  | VDict [(p, VDict product); (m, VDict metadata)] =>
    str_eqb p (lit "product") && conforms product_schema product
    && str_eqb m (lit "metadata") && conforms metadata_schema metadata
  | _ => false
  end.

(** The typed view of [product_data]: what each key holds once the
    extractors have run. *)
Record fields := Fields {
  f_name : str;
  f_brand : str;
  f_price : str;
  f_rating : str;
  f_reviews_count : str;
  f_description : str;
  f_bullet_points : list str;
  f_images : list str;
  f_specifications : dict;
  f_availability : str;
  f_url : str
}.

Definition or_empty (r : result str) : str :=
  match r with
  | Ok s => s
  | Error _ => []
  end.

Definition extracted (content : dict) : fields :=
  {| f_name := _safe_extract_text content
                 [lit "title"; lit "name"; lit "product_title"];
     f_brand := _safe_extract_text content
                  [lit "brand"; lit "manufacturer"; lit "brand_name"];
     f_price := or_empty (_extract_and_format_price content);
     f_rating := _extract_rating content;
     f_reviews_count := or_empty (_extract_reviews_count content);
     f_description := _safe_extract_text content
                        [lit "description"; lit "product_description";
                         lit "about"];
     f_bullet_points := _extract_bullet_points content;
     f_images := _extract_images content;
     f_specifications := _extract_specifications content;
     f_availability := _safe_extract_text content
                         [lit "availability"; lit "stock_status";
                          lit "in_stock"];
     f_url := _safe_extract_text content
                [lit "url"; lit "product_url"; lit "link"] |}.

Definition no_fields : fields :=
  Fields [] [] [] [] [] [] [] [] [] [] [].

Definition optional_str (e : option str) : value :=
  match e with
  | Some s => VStr s
  | None => VNone
  end.

Definition product_data_of (f : fields) (now : str) (error : option str)
    : dict :=
  [(lit "name", VStr (f_name f));
   (lit "brand", VStr (f_brand f));
   (lit "price", VStr (f_price f));
   (lit "rating", VStr (f_rating f));
   (lit "reviews_count", VStr (f_reviews_count f));
   (lit "description", VStr (f_description f));
   (lit "bullet_points", VList (map VStr (f_bullet_points f)));
   (lit "images", VList (map VStr (f_images f)));
   (lit "specifications", VDict (f_specifications f));
   (lit "availability", VStr (f_availability f));
   (lit "url", VStr (f_url f));
   (lit "scraped_at", VStr now);
   (lit "error", optional_str error)].

Definition default_str (s : str) (default : string) : value :=
  VStr (match s with [] => lit default | _ => s end).

Definition populated (s : str) : Z := if nonempty s then 1 else 0.

Definition envelope_of (f : fields) (now : str) (error : option str)
    : value :=
  VDict
    [(lit "product",
      VDict
        [(lit "name", default_str (f_name f) "Unknown");
         (lit "brand", default_str (f_brand f) "Unknown");
         (lit "price", default_str (f_price f) "0.00");
         (lit "rating", default_str (f_rating f) "0");
         (lit "reviews_count", default_str (f_reviews_count f) "0");
         (lit "description", VStr (f_description f));
         (lit "bullet_points",
          VStr (join [10%N]
                     (map (fun point => bullet_prefix ++ point)
                          (f_bullet_points f))));
         (lit "features", VList (map VStr (f_bullet_points f)));
         (lit "images", VList (map VStr (f_images f)));
         (lit "specifications", VDict (f_specifications f));
         (lit "availability", VStr (f_availability f));
         (lit "url", VStr (f_url f));
         (lit "scraped_at", VStr now)]);
     (lit "metadata",
      VDict
        [(lit "extraction_successful",
          VBool (match error with None => true | Some _ => false end));
         (lit "error_message", optional_str error);
         (lit "fields_extracted",
          VInt (populated (f_name f) + (populated (f_brand f)
                + (populated (f_price f) + (populated (f_rating f)
                + (populated (f_reviews_count f)
                + (populated (f_description f) + 0))))))%Z)])].

(** *** The retry protocol *)

Definition valid_credentials (self : OxylabsAmazonScraper) : Prop :=
  (3 <= List.length (username self) /\ 3 <= List.length (password self))%nat.

Definition is_rate_limit (o : outcome) : bool :=
  match o with
  | RaisesHTTPError status_code _ => (status_code =? 429)%Z
  | _ => false
  end.

Definition is_server_error (o : outcome) : bool :=
  match o with
  | RaisesHTTPError status_code _ => (500 <=? status_code)%Z
  | _ => false
  end.

(** The failures the pipeline may retry: throttling, server-class
    responses, timeouts and transport errors. *)
Definition retryable (o : outcome) : bool :=
  match o with
  | Returns _ | RaisesJSONDecodeError _ => false
  | RaisesHTTPError _ _ => is_rate_limit o || is_server_error o
  | RaisesTimeout _ | RaisesConnectionError _ | RaisesRequestException _
  | RaisesException _ => true
  end.

Definition underlying_error (o : outcome) : str :=
  match o with
  | Returns _ => []
  | RaisesTimeout e | RaisesHTTPError _ e | RaisesConnectionError e
  | RaisesRequestException e | RaisesJSONDecodeError e
  | RaisesException e => e
  end.

(** The backoff after attempt [k]: [d * 2^k], twice that after a rate
    limit. *)
Definition scheduled_sleep (o : outcome) (k : nat) : Z :=
  if is_rate_limit o then (1 * 2 ^ Z.of_nat k * 2)%Z
  else (1 * 2 ^ Z.of_nat k)%Z.

Definition posts (trace : list event) : nat :=
  List.length (filter (fun ev => match ev with Post _ _ _ _ => true
                                           | Sleep _ => false end) trace).

Definition sleeps (trace : list event) : list Z :=
  flat_map (fun ev => match ev with Sleep s => [s] | Post _ _ _ _ => [] end)
           trace.

(** *** Identifiers in a URL *)

(** [B[0-9A-Z]{9}]: ten characters, a [B] and nine of [[0-9A-Z]]. *)
Definition asin_shape (s : str) : Prop :=
  exists body : str, s = 66%N :: body /\ List.length body = 9%nat
               /\ Forall (fun c => in_0_9A_Z c = true) body.

(** A URL shape captures an identifier: its marker occurs in the URL
    with an identifier right behind it. *)
Definition captures (marker url : str) : Prop :=
  exists before asin after,
    url = before ++ marker ++ asin ++ after /\ asin_shape asin.

(** *** Bullet points *)

(** The value the bullet extractor works from: that of the first
    alternate key bound to a truthy list or string. *)
Fixpoint bullet_source (content : dict) (keys : list str) : option value :=
  match keys with
  | [] => None
  | key :: rest =>
    match lookup key content with
    | Some v =>
      if truthy v && (is_str v || match v with VList _ => true | _ => false end)
      then Some v else bullet_source content rest
    | None => bullet_source content rest
    end
  end.

(** *** What the envelope reports for a failed fetch *)

(** The text that ends in [metadata.error_message] when the fetch raised
    [e]: the four pipeline errors keep their message; the others come
    back through the generic error marker. *)
Definition reported (e : exc) : str :=
  match class_of e with
  | InvalidASINError | InvalidCredentialsError | RateLimitError
  | APIConnectionError => str_of e
  | _ => lit "Data extraction error: API returned error: " ++ str_of e
  end.

Definition with_url (f : fields) (url : str) : fields :=
  {| f_name := f_name f; f_brand := f_brand f; f_price := f_price f;
     f_rating := f_rating f; f_reviews_count := f_reviews_count f;
     f_description := f_description f;
     f_bullet_points := f_bullet_points f; f_images := f_images f;
     f_specifications := f_specifications f;
     f_availability := f_availability f; f_url := url |}.

(** The three payloads that miss the required shape. *)
Definition structurally_invalid : list value :=
  [VDict [];
   VDict [(lit "results", VList [])];
   VDict [(lit "results", VList [VDict []])]].

(** A trimmed, non-empty piece of text free of bullet delimiters. *)
Definition clean_point (p : str) : Prop :=
  p <> [] /\ strip p = p /\ Forall (fun c => bullet_delimiter c = false) p.

(** *** Falsy values in the rating and reviews loops *)

(** The falsy values those two loops pass over: [None], the empty list
    and the empty mapping. *)
Definition passed_over (x : value) : bool :=
  match x with
  | VNone | VList [] | VDict [] => true
  | _ => false
  end.

Definition is_next (c : control) : bool :=
  match c with Next _ => true | _ => false end.

(** *** Fixtures, after the repository's tests *)

Definition DEFAULT_GEO_LOCATION : str := lit "10001".

Definition test_scraper : OxylabsAmazonScraper :=
  __init__ (lit "test_user") (lit "test_pass").

Definition product_url : str := lit "https://www.amazon.com/dp/B08N5WRWNW".

Definition invalid_url : str := lit "https://www.amazon.com/dp/INVALID123".

(** Three server errors, then a success. *)
Definition failing_thrice : upstream :=
  fun attempt =>
    if (attempt <? 3)%nat then RaisesHTTPError 500 (lit "Server Error")
    else Returns (payload [(lit "title", VStr (lit "Success"))]).

Definition always_throttled : upstream :=
  fun _ => RaisesHTTPError 429 (lit "Too Many Requests").

Definition featured_payload : value :=
  payload [(lit "bullet_points", VList [VStr (lit "Fast"); VStr (lit "Light")])].

(** *** Prices *)

(** The full stop, the one character a digit-free price keeps once the
    commas are gone. *)
Definition dot (c : char) : Prop := c = 46%N.

(** ** Further built-ins *)

(** [str.upper] on one code point, after Unicode 14.0.  A code point
    with a single upper-case code point lies in one of the runs
    [(first, last, stride, target)]: every [stride]-th code point from
    [first] to [last] goes to [target] plus its distance from [first]. *)
Definition upper_runs : list (char * char * N * char) :=
  [(0x61, 0x7A, 1, 0x41); (0xB5, 0xB5, 1, 0x39C); (0xE0, 0xF6, 1, 0xC0);
   (0xF8, 0xFE, 1, 0xD8); (0xFF, 0xFF, 1, 0x178); (0x101, 0x12F, 2, 0x100);
   (0x131, 0x131, 1, 0x49); (0x133, 0x137, 2, 0x132);
   (0x13A, 0x148, 2, 0x139); (0x14B, 0x177, 2, 0x14A);
   (0x17A, 0x17E, 2, 0x179); (0x17F, 0x17F, 1, 0x53);
   (0x180, 0x180, 1, 0x243); (0x183, 0x185, 2, 0x182);
   (0x188, 0x188, 1, 0x187); (0x18C, 0x18C, 1, 0x18B);
   (0x192, 0x192, 1, 0x191); (0x195, 0x195, 1, 0x1F6);
   (0x199, 0x199, 1, 0x198); (0x19A, 0x19A, 1, 0x23D);
   (0x19E, 0x19E, 1, 0x220); (0x1A1, 0x1A5, 2, 0x1A0);
   (0x1A8, 0x1A8, 1, 0x1A7); (0x1AD, 0x1AD, 1, 0x1AC);
   (0x1B0, 0x1B0, 1, 0x1AF); (0x1B4, 0x1B6, 2, 0x1B3);
   (0x1B9, 0x1B9, 1, 0x1B8); (0x1BD, 0x1BD, 1, 0x1BC);
   (0x1BF, 0x1BF, 1, 0x1F7); (0x1C5, 0x1C5, 1, 0x1C4);
   (0x1C6, 0x1C6, 1, 0x1C4); (0x1C8, 0x1C8, 1, 0x1C7);
   (0x1C9, 0x1C9, 1, 0x1C7); (0x1CB, 0x1CB, 1, 0x1CA);
   (0x1CC, 0x1CC, 1, 0x1CA); (0x1CE, 0x1DC, 2, 0x1CD);
   (0x1DD, 0x1DD, 1, 0x18E); (0x1DF, 0x1EF, 2, 0x1DE);
   (0x1F2, 0x1F2, 1, 0x1F1); (0x1F3, 0x1F3, 1, 0x1F1);
   (0x1F5, 0x1F5, 1, 0x1F4); (0x1F9, 0x21F, 2, 0x1F8);
   (0x223, 0x233, 2, 0x222); (0x23C, 0x23C, 1, 0x23B);
   (0x23F, 0x240, 1, 0x2C7E); (0x242, 0x242, 1, 0x241);
   (0x247, 0x24F, 2, 0x246); (0x250, 0x250, 1, 0x2C6F);
   (0x251, 0x251, 1, 0x2C6D); (0x252, 0x252, 1, 0x2C70);
   (0x253, 0x253, 1, 0x181); (0x254, 0x254, 1, 0x186);
   (0x256, 0x257, 1, 0x189); (0x259, 0x259, 1, 0x18F);
   (0x25B, 0x25B, 1, 0x190); (0x25C, 0x25C, 1, 0xA7AB);
   (0x260, 0x260, 1, 0x193); (0x261, 0x261, 1, 0xA7AC);
   (0x263, 0x263, 1, 0x194); (0x265, 0x265, 1, 0xA78D);
   (0x266, 0x266, 1, 0xA7AA); (0x268, 0x268, 1, 0x197);
   (0x269, 0x269, 1, 0x196); (0x26A, 0x26A, 1, 0xA7AE);
   (0x26B, 0x26B, 1, 0x2C62); (0x26C, 0x26C, 1, 0xA7AD);
   (0x26F, 0x26F, 1, 0x19C); (0x271, 0x271, 1, 0x2C6E);
   (0x272, 0x272, 1, 0x19D); (0x275, 0x275, 1, 0x19F);
   (0x27D, 0x27D, 1, 0x2C64); (0x280, 0x280, 1, 0x1A6);
   (0x282, 0x282, 1, 0xA7C5); (0x283, 0x283, 1, 0x1A9);
   (0x287, 0x287, 1, 0xA7B1); (0x288, 0x288, 1, 0x1AE);
   (0x289, 0x289, 1, 0x244); (0x28A, 0x28B, 1, 0x1B1);
   (0x28C, 0x28C, 1, 0x245); (0x292, 0x292, 1, 0x1B7);
   (0x29D, 0x29D, 1, 0xA7B2); (0x29E, 0x29E, 1, 0xA7B0);
   (0x345, 0x345, 1, 0x399); (0x371, 0x373, 2, 0x370);
   (0x377, 0x377, 1, 0x376); (0x37B, 0x37D, 1, 0x3FD);
   (0x3AC, 0x3AC, 1, 0x386); (0x3AD, 0x3AF, 1, 0x388);
   (0x3B1, 0x3C1, 1, 0x391); (0x3C2, 0x3C2, 1, 0x3A3);
   (0x3C3, 0x3CB, 1, 0x3A3); (0x3CC, 0x3CC, 1, 0x38C);
   (0x3CD, 0x3CE, 1, 0x38E); (0x3D0, 0x3D0, 1, 0x392);
   (0x3D1, 0x3D1, 1, 0x398); (0x3D5, 0x3D5, 1, 0x3A6);
   (0x3D6, 0x3D6, 1, 0x3A0); (0x3D7, 0x3D7, 1, 0x3CF);
   (0x3D9, 0x3EF, 2, 0x3D8); (0x3F0, 0x3F0, 1, 0x39A);
   (0x3F1, 0x3F1, 1, 0x3A1); (0x3F2, 0x3F2, 1, 0x3F9);
   (0x3F3, 0x3F3, 1, 0x37F); (0x3F5, 0x3F5, 1, 0x395);
   (0x3F8, 0x3F8, 1, 0x3F7); (0x3FB, 0x3FB, 1, 0x3FA);
   (0x430, 0x44F, 1, 0x410); (0x450, 0x45F, 1, 0x400);
   (0x461, 0x481, 2, 0x460); (0x48B, 0x4BF, 2, 0x48A);
   (0x4C2, 0x4CE, 2, 0x4C1); (0x4CF, 0x4CF, 1, 0x4C0);
   (0x4D1, 0x52F, 2, 0x4D0); (0x561, 0x586, 1, 0x531);
   (0x10D0, 0x10FA, 1, 0x1C90); (0x10FD, 0x10FF, 1, 0x1CBD);
   (0x13F8, 0x13FD, 1, 0x13F0); (0x1C80, 0x1C80, 1, 0x412);
   (0x1C81, 0x1C81, 1, 0x414); (0x1C82, 0x1C82, 1, 0x41E);
   (0x1C83, 0x1C84, 1, 0x421); (0x1C85, 0x1C85, 1, 0x422);
   (0x1C86, 0x1C86, 1, 0x42A); (0x1C87, 0x1C87, 1, 0x462);
   (0x1C88, 0x1C88, 1, 0xA64A); (0x1D79, 0x1D79, 1, 0xA77D);
   (0x1D7D, 0x1D7D, 1, 0x2C63); (0x1D8E, 0x1D8E, 1, 0xA7C6);
   (0x1E01, 0x1E95, 2, 0x1E00); (0x1E9B, 0x1E9B, 1, 0x1E60);
   (0x1EA1, 0x1EFF, 2, 0x1EA0); (0x1F00, 0x1F07, 1, 0x1F08);
   (0x1F10, 0x1F15, 1, 0x1F18); (0x1F20, 0x1F27, 1, 0x1F28);
   (0x1F30, 0x1F37, 1, 0x1F38); (0x1F40, 0x1F45, 1, 0x1F48);
   (0x1F51, 0x1F57, 2, 0x1F59); (0x1F60, 0x1F67, 1, 0x1F68);
   (0x1F70, 0x1F71, 1, 0x1FBA); (0x1F72, 0x1F75, 1, 0x1FC8);
   (0x1F76, 0x1F77, 1, 0x1FDA); (0x1F78, 0x1F79, 1, 0x1FF8);
   (0x1F7A, 0x1F7B, 1, 0x1FEA); (0x1F7C, 0x1F7D, 1, 0x1FFA);
   (0x1FB0, 0x1FB1, 1, 0x1FB8); (0x1FBE, 0x1FBE, 1, 0x399);
   (0x1FD0, 0x1FD1, 1, 0x1FD8); (0x1FE0, 0x1FE1, 1, 0x1FE8);
   (0x1FE5, 0x1FE5, 1, 0x1FEC); (0x214E, 0x214E, 1, 0x2132);
   (0x2170, 0x217F, 1, 0x2160); (0x2184, 0x2184, 1, 0x2183);
   (0x24D0, 0x24E9, 1, 0x24B6); (0x2C30, 0x2C5F, 1, 0x2C00);
   (0x2C61, 0x2C61, 1, 0x2C60); (0x2C65, 0x2C65, 1, 0x23A);
   (0x2C66, 0x2C66, 1, 0x23E); (0x2C68, 0x2C6C, 2, 0x2C67);
   (0x2C73, 0x2C73, 1, 0x2C72); (0x2C76, 0x2C76, 1, 0x2C75);
   (0x2C81, 0x2CE3, 2, 0x2C80); (0x2CEC, 0x2CEE, 2, 0x2CEB);
   (0x2CF3, 0x2CF3, 1, 0x2CF2); (0x2D00, 0x2D25, 1, 0x10A0);
   (0x2D27, 0x2D27, 1, 0x10C7); (0x2D2D, 0x2D2D, 1, 0x10CD);
   (0xA641, 0xA66D, 2, 0xA640); (0xA681, 0xA69B, 2, 0xA680);
   (0xA723, 0xA72F, 2, 0xA722); (0xA733, 0xA76F, 2, 0xA732);
   (0xA77A, 0xA77C, 2, 0xA779); (0xA77F, 0xA787, 2, 0xA77E);
   (0xA78C, 0xA78C, 1, 0xA78B); (0xA791, 0xA793, 2, 0xA790);
   (0xA794, 0xA794, 1, 0xA7C4); (0xA797, 0xA7A9, 2, 0xA796);
   (0xA7B5, 0xA7C3, 2, 0xA7B4); (0xA7C8, 0xA7CA, 2, 0xA7C7);
   (0xA7D1, 0xA7D1, 1, 0xA7D0); (0xA7D7, 0xA7D9, 2, 0xA7D6);
   (0xA7F6, 0xA7F6, 1, 0xA7F5); (0xAB53, 0xAB53, 1, 0xA7B3);
   (0xAB70, 0xABBF, 1, 0x13A0); (0xFF41, 0xFF5A, 1, 0xFF21);
   (0x10428, 0x1044F, 1, 0x10400); (0x104D8, 0x104FB, 1, 0x104B0);
   (0x10597, 0x105A1, 1, 0x10570); (0x105A3, 0x105B1, 1, 0x1057C);
   (0x105B3, 0x105B9, 1, 0x1058C); (0x105BB, 0x105BC, 1, 0x10594);
   (0x10CC0, 0x10CF2, 1, 0x10C80); (0x118C0, 0x118DF, 1, 0x118A0);
   (0x16E60, 0x16E7F, 1, 0x16E40); (0x1E922, 0x1E943, 1, 0x1E900)]%N.

(** The code points whose upper case is longer than one code point. *)
Definition upper_special : list (char * str) :=
  [(0xDF, [0x53; 0x53]); (0x149, [0x2BC; 0x4E]); (0x1F0, [0x4A; 0x30C]);
   (0x390, [0x399; 0x308; 0x301]); (0x3B0, [0x3A5; 0x308; 0x301]);
   (0x587, [0x535; 0x552]); (0x1E96, [0x48; 0x331]);
   (0x1E97, [0x54; 0x308]); (0x1E98, [0x57; 0x30A]);
   (0x1E99, [0x59; 0x30A]); (0x1E9A, [0x41; 0x2BE]);
   (0x1F50, [0x3A5; 0x313]); (0x1F52, [0x3A5; 0x313; 0x300]);
   (0x1F54, [0x3A5; 0x313; 0x301]); (0x1F56, [0x3A5; 0x313; 0x342]);
   (0x1F80, [0x1F08; 0x399]); (0x1F81, [0x1F09; 0x399]);
   (0x1F82, [0x1F0A; 0x399]); (0x1F83, [0x1F0B; 0x399]);
   (0x1F84, [0x1F0C; 0x399]); (0x1F85, [0x1F0D; 0x399]);
   (0x1F86, [0x1F0E; 0x399]); (0x1F87, [0x1F0F; 0x399]);
   (0x1F88, [0x1F08; 0x399]); (0x1F89, [0x1F09; 0x399]);
   (0x1F8A, [0x1F0A; 0x399]); (0x1F8B, [0x1F0B; 0x399]);
   (0x1F8C, [0x1F0C; 0x399]); (0x1F8D, [0x1F0D; 0x399]);
   (0x1F8E, [0x1F0E; 0x399]); (0x1F8F, [0x1F0F; 0x399]);
   (0x1F90, [0x1F28; 0x399]); (0x1F91, [0x1F29; 0x399]);
   (0x1F92, [0x1F2A; 0x399]); (0x1F93, [0x1F2B; 0x399]);
   (0x1F94, [0x1F2C; 0x399]); (0x1F95, [0x1F2D; 0x399]);
   (0x1F96, [0x1F2E; 0x399]); (0x1F97, [0x1F2F; 0x399]);
   (0x1F98, [0x1F28; 0x399]); (0x1F99, [0x1F29; 0x399]);
   (0x1F9A, [0x1F2A; 0x399]); (0x1F9B, [0x1F2B; 0x399]);
   (0x1F9C, [0x1F2C; 0x399]); (0x1F9D, [0x1F2D; 0x399]);
   (0x1F9E, [0x1F2E; 0x399]); (0x1F9F, [0x1F2F; 0x399]);
   (0x1FA0, [0x1F68; 0x399]); (0x1FA1, [0x1F69; 0x399]);
   (0x1FA2, [0x1F6A; 0x399]); (0x1FA3, [0x1F6B; 0x399]);
   (0x1FA4, [0x1F6C; 0x399]); (0x1FA5, [0x1F6D; 0x399]);
   (0x1FA6, [0x1F6E; 0x399]); (0x1FA7, [0x1F6F; 0x399]);
   (0x1FA8, [0x1F68; 0x399]); (0x1FA9, [0x1F69; 0x399]);
   (0x1FAA, [0x1F6A; 0x399]); (0x1FAB, [0x1F6B; 0x399]);
   (0x1FAC, [0x1F6C; 0x399]); (0x1FAD, [0x1F6D; 0x399]);
   (0x1FAE, [0x1F6E; 0x399]); (0x1FAF, [0x1F6F; 0x399]);
   (0x1FB2, [0x1FBA; 0x399]); (0x1FB3, [0x391; 0x399]);
   (0x1FB4, [0x386; 0x399]); (0x1FB6, [0x391; 0x342]);
   (0x1FB7, [0x391; 0x342; 0x399]); (0x1FBC, [0x391; 0x399]);
   (0x1FC2, [0x1FCA; 0x399]); (0x1FC3, [0x397; 0x399]);
   (0x1FC4, [0x389; 0x399]); (0x1FC6, [0x397; 0x342]);
   (0x1FC7, [0x397; 0x342; 0x399]); (0x1FCC, [0x397; 0x399]);
   (0x1FD2, [0x399; 0x308; 0x300]); (0x1FD3, [0x399; 0x308; 0x301]);
   (0x1FD6, [0x399; 0x342]); (0x1FD7, [0x399; 0x308; 0x342]);
   (0x1FE2, [0x3A5; 0x308; 0x300]); (0x1FE3, [0x3A5; 0x308; 0x301]);
   (0x1FE4, [0x3A1; 0x313]); (0x1FE6, [0x3A5; 0x342]);
   (0x1FE7, [0x3A5; 0x308; 0x342]); (0x1FF2, [0x1FFA; 0x399]);
   (0x1FF3, [0x3A9; 0x399]); (0x1FF4, [0x38F; 0x399]);
   (0x1FF6, [0x3A9; 0x342]); (0x1FF7, [0x3A9; 0x342; 0x399]);
   (0x1FFC, [0x3A9; 0x399]); (0xFB00, [0x46; 0x46]);
   (0xFB01, [0x46; 0x49]); (0xFB02, [0x46; 0x4C]);
   (0xFB03, [0x46; 0x46; 0x49]); (0xFB04, [0x46; 0x46; 0x4C]);
   (0xFB05, [0x53; 0x54]); (0xFB06, [0x53; 0x54]);
   (0xFB13, [0x544; 0x546]); (0xFB14, [0x544; 0x535]);
   (0xFB15, [0x544; 0x53B]); (0xFB16, [0x54E; 0x546]);
   (0xFB17, [0x544; 0x53D])]%N.

Definition in_upper_run (c : char) (r : char * char * N * char) : bool :=
  let '(first, last, stride, _) := r in
  ((first <=? c) && (c <=? last) && ((c - first) mod stride =? 0))%N.

Definition upper_char (c : char) : str :=
  match find (fun p => N.eqb (fst p) c) upper_special with
  | Some (_, u) => u
  | None =>
    match find (in_upper_run c) upper_runs with
    | Some (first, _, _, target) => [(target + (c - first))%N]
    | None => [c]
    end
  end.

(** [s.upper()]. *)
Definition upper (s : str) : str := flat_map upper_char s.

(** The code points [str.isdigit] accepts beside the decimal digits:
    superscripts, circled digits and the like, as closed ranges. *)
Definition other_digits : list (char * char) :=
  [(0xB2, 0xB3); (0xB9, 0xB9); (0x1369, 0x1371); (0x19DA, 0x19DA);
   (0x2070, 0x2070); (0x2074, 0x2079); (0x2080, 0x2089); (0x2460, 0x2468);
   (0x2474, 0x247C); (0x2488, 0x2490); (0x24EA, 0x24EA); (0x24F5, 0x24FD);
   (0x24FF, 0x24FF); (0x2776, 0x277E); (0x2780, 0x2788); (0x278A, 0x2792);
   (0x10A40, 0x10A43); (0x10E60, 0x10E68); (0x11052, 0x1105A);
   (0x1F100, 0x1F10A)]%N.

(** [s.isdigit()]: at least one code point, and digits only. *)
Definition py_isdigit (s : str) : bool :=
  nonempty s
  && forallb (fun c =>
                isdigit c
                || existsb (fun r => (fst r <=? c) && (c <=? snd r))%N
                           other_digits) s.

(** [s.split()]: the maximal runs free of white space. *)
Fixpoint split_ws (s : str) : list str :=
  match s with
  | [] => []
  | c :: s' =>
    if isspace c then split_ws s'
    else match s' with
         | [] => [[c]]
         | d :: _ =>
           if isspace d then [c] :: split_ws s'
           else match split_ws s' with
                | p :: ps => (c :: p) :: ps
                | [] => [[c]]
                end
         end
  end.

(** ** Further code of the repository *)

(** *** [build_amazon_url] *)

Definition domain_map : dict :=
  [(lit "US", VStr (lit "amazon.com"));
   (lit "UK", VStr (lit "amazon.co.uk"));
   (lit "DE", VStr (lit "amazon.de"));
   (lit "FR", VStr (lit "amazon.fr"));
   (lit "IT", VStr (lit "amazon.it"));
   (lit "ES", VStr (lit "amazon.es"));
   (lit "CA", VStr (lit "amazon.ca"));
   (lit "JP", VStr (lit "amazon.co.jp"));
   (lit "AU", VStr (lit "amazon.com.au"));
   (lit "IN", VStr (lit "amazon.in"))].

Definition build_amazon_url (asin country : str) : str :=
  let domain :=
    match lookup (upper country) domain_map with
    | Some d => d
    | None => VStr (lit "amazon.com")
    end in
  lit "https://www." ++ str_ domain ++ lit "/dp/" ++ asin.

(** *** [scrape_search_results] *)

(** [v.get(k, default)]: only a dictionary has the method. *)
Definition py_get (v : value) (k : str) (default : value) : result value :=
  match v with
  | VDict d => Ok (match lookup k d with Some x => x | None => default end)
  | _ => raise AttributeError (lit "'" ++ type_name v
                               ++ lit "' object has no attribute 'get'")
  end.

(** The values [for x in v] runs through. *)
Definition iterate (v : value) : result (list value) :=
  match v with
  | VList l => Ok l
  | VStr s => Ok (map (fun c => VStr [c]) s)
  | VDict d => Ok (map (fun kv => VStr (fst kv)) d)
  | _ => raise TypeError (lit "'" ++ type_name v
                          ++ lit "' object is not iterable")
  end.

Definition search_url (search_query : str) (page : Z) : str :=
  lit "https://www.amazon.com/s?k=" ++ search_query ++ lit "&page="
  ++ str_of_Z page.

(** The [product_data] literal of the inner loop; [now] is the clock
    reading its last entry takes. *)
Definition search_item (product : value) (now : str) : result value :=
  title <- py_get product (lit "title") (VStr []) ;;
  price <- py_get product (lit "price") (VStr []) ;;
  rating <- py_get product (lit "rating") (VStr []) ;;
  reviews_count <- py_get product (lit "reviews_count") (VStr []) ;;
  url <- py_get product (lit "url") (VStr []) ;;
  image <- py_get product (lit "image") (VStr []) ;;
  Ok (VDict [(lit "title", title); (lit "price", price);
             (lit "rating", rating); (lit "reviews_count", reviews_count);
             (lit "url", url); (lit "image", image);
             (lit "scraped_at", VStr now)]).

(** [for product in products: ... all_products.append(product_data)];
    [clock n] is the [n]-th reading of the wall clock in this call of
    [scrape_search_results]. *)
Fixpoint append_products (products : list value) (clock : nat -> str)
    (n : nat) (all_products : list value) : result (list value * nat) :=
  match products with
  | [] => Ok (all_products, n)
  | product :: rest =>
    product_data <- search_item product (clock n) ;;
    append_products rest clock (S n) (all_products ++ [product_data])
  end.

(** The part of one page after the request: the products appended, or
    [None] where the body says [continue]. *)
Definition read_page (response : value) (clock : nat -> str) (n : nat)
    (all_products : list value) : result (option (list value * nat)) :=
  has_error <- py_in (lit "error") response ;;
  if has_error then
    _ <- py_get response (lit "message") (VStr (lit "Unknown error")) ;;
    Ok None
  else if negb (truthy response) then Ok None
  else
    has_results <- py_in (lit "results") response ;;
    if negb has_results then Ok None
    else
      results <- subscript response (lit "results") ;;
      result <- first_item results ;;
      has_content <- py_in (lit "content") result ;;
      if negb has_content then Ok None
      else
        content <- subscript result (lit "content") ;;
        products <- py_get content (lit "products") (VList []) ;;
        items <- iterate products ;;
        appended <- append_products items clock n all_products ;;
        Ok (Some appended).

(** [for page in range(1, pages + 1)], over the pages still to do;
    [ups page] is the upstream met by the fetch of that page.  The events
    are those up to the return or the exception. *)
Fixpoint search_pages (self : OxylabsAmazonScraper) (ups : Z -> upstream)
    (clock : nat -> str) (n : nat) (search_query geo_location : str)
    (pages : list Z) (all_products : list value)
    : list event * result (list value) :=
  match pages with
  | [] => ([], Ok all_products)
  | page :: rest =>
    let '(trace, response) :=
      _make_request self (ups page) (search_url search_query page)
                    geo_location in
    match read_page response clock n all_products with
    | Error e => (trace, Error e)
    | Ok None =>
      let '(later, r) :=
        search_pages self ups clock n search_query geo_location rest
                     all_products in
      (trace ++ later, r)
    | Ok (Some (all_products', n')) =>
      let '(later, r) :=
        search_pages self ups clock n' search_query geo_location rest
                     all_products' in
      (trace ++ [Sleep 1] ++ later, r)
    end
  end.

(** [range(1, pages + 1)]. *)
Definition page_range (pages : Z) : list Z :=
  map Z.of_nat (seq 1 (Z.to_nat pages)).

Definition scrape_search_results (self : OxylabsAmazonScraper)
    (ups : Z -> upstream) (clock : nat -> str)
    (search_query geo_location : str) (pages : Z)
    : list event * result (list value) :=
  search_pages self ups clock 0 search_query geo_location
               (page_range pages) [].

(** *** [_format_product_data] *)

(** [d.setdefault(k, v)]. *)
Definition setdefault (k : str) (v : value) (d : dict) : dict :=
  match lookup k d with
  | Some _ => d
  | None => setitem k v d
  end.

(** [d.get(k, default)] for a dictionary. *)
Definition get (d : dict) (k : str) (default : value) : value :=
  match lookup k d with
  | Some x => x
  | None => default
  end.

(** The description with a line feed, a dash and a space before each of
    its lines, or the empty string for a falsy description; only a string
    has [split]. *)
Definition bulleted_description (description : value) : result str :=
  if truthy description then
    match description with
    | VStr s =>
      let bullet := 10%N :: lit "- " in
      Ok (bullet ++ join bullet (split_on (N.eqb 10) s))
    | _ => raise AttributeError (lit "'" ++ type_name description
                                 ++ lit "' object has no attribute 'split'")
    end
  else Ok [].

(** The [try] around [str(Decimal(...))]: a text that is no decimal
    gives the empty string; only a string has [replace]. *)
Definition plain_price (price_str : value) : result str :=
  match price_str with
  | VStr s =>
    match decimal_text (strip (remove_char 44%N (remove_char 36%N s))) with
    | Ok p => Ok p
    | Error _ => Ok []
    end
  | _ => raise AttributeError (lit "'" ++ type_name price_str
                               ++ lit "' object has no attribute 'replace'")
  end.

Definition _format_product_data (product_data : dict) : result value :=
  description <- bulleted_description
                   (get product_data (lit "description") (VStr [])) ;;
  let product_data := setitem (lit "description") (VStr description)
                              product_data in
  price <- plain_price (get product_data (lit "price") (VStr [])) ;;
  let product_data := setitem (lit "price") (VStr price) product_data in
  let product_data :=
    setdefault (lit "title") (VStr (lit "Unknown")) product_data in
  let product_data :=
    setdefault (lit "brand") (VStr (lit "Unknown")) product_data in
  let product_data :=
    setdefault (lit "rating") (VStr (lit "0")) product_data in
  let product_data :=
    setdefault (lit "reviews_count") (VStr (lit "0")) product_data in
  name <- getitem product_data (lit "title") ;;
  brand <- getitem product_data (lit "brand") ;;
  price <- getitem product_data (lit "price") ;;
  description <- getitem product_data (lit "description") ;;
  Ok (VDict
        [(lit "product",
          VDict
            [(lit "name", name);
             (lit "brand", brand);
             (lit "price", price);
             (lit "rating", get product_data (lit "rating") (VStr []));
             (lit "reviews_count",
              get product_data (lit "reviews_count") (VStr []));
             (lit "description", description);
             (lit "url", get product_data (lit "url") (VStr []));
             (lit "images", get product_data (lit "images") (VList []));
             (lit "specifications",
              get product_data (lit "specifications") (VDict []));
             (lit "scraped_at",
              get product_data (lit "scraped_at") (VStr []))])]).

(** *** process_asins.py: [clean_asin] and [read_asins_from_file] *)

Definition clean_asin (asin : str) : str :=
  let asin := remove_char 10%N (remove_char 13%N (strip asin)) in
  if Nat.eqb (List.length asin) 10 && startswith (lit "B") asin then asin
  else if startswith (lit "BO") asin && Nat.eqb (List.length asin) 10 then
    lit "B0" ++ skipn 2 asin
  else asin.

(** The identifier a line offers: the second field when there are two
    or more, the only field when it is not a number, none otherwise. *)
Definition asin_of_line (line : str) : option str :=
  match split_ws (strip line) with
  | _ :: second :: _ => Some (clean_asin second)
  | [only] => if negb (py_isdigit only) then Some (clean_asin only) else None
  | [] => None
  end.

(** The file is the list of its lines, or [None] when [open] raises
    [FileNotFoundError].  Lines that offer no identifier or an invalid
    one are passed over. *)
Definition read_asins_from_file (asins_file : option (list str))
    : list str :=
  match asins_file with
  | None => []
  | Some lines =>
    flat_map
      (fun line =>
         match asin_of_line line with
         | Some asin =>
           if Nat.eqb (List.length asin) 10 && startswith (lit "B") asin
           then [asin] else []
         | None => []
         end)
      lines
  end.

(** *** extract_items_by_asin.py: [sanitize_filename] *)

(** The characters the [re.sub] of the function removes: less-than,
    greater-than, colon, double quote, slash, backslash, bar, question
    mark and asterisk. *)
Definition invalid_filename_char (c : char) : bool :=
  existsb (N.eqb c) [60; 62; 58; 34; 47; 92; 124; 63; 42]%N.

Definition sanitize_filename (filename : str) : str :=
  let sanitized := filter (fun c => negb (invalid_filename_char c)) filename in
  map (fun c => if N.eqb c 32%N then 95%N else c) sanitized.

(** *** The command line: [get_credentials], [format_output], [main] *)

(** What [parse_arguments] returns; an option that was not given is
    [None]. *)
Record Namespace := Args {
  args_asin : option str;
  args_url : option str;
  args_search : option str;
  args_output : option str;
  args_country : str;
  args_format : str;
  args_pages : Z;
  args_username : option str;
  args_password : option str;
  args_verbose : bool;
  args_timeout : Z
}.

(** What a run of [main] meets: the two environment variables, the
    upstream of a product fetch and of the fetch of each page of a
    search, and the readings of the wall clock. *)
Record world := World {
  OXYLABS_USERNAME : option str;
  OXYLABS_PASSWORD : option str;
  product_upstream : upstream;
  search_upstream : Z -> upstream;
  wall_clock : nat -> str
}.

(** [bool(x)] for a string or [None]. *)
Definition given (x : option str) : bool :=
  match x with
  | Some (_ :: _) => true
  | _ => false
  end.

(** [a or b] for strings or [None]. *)
Definition or_else (a b : option str) : option str :=
  if given a then a else b.

(** The pair of credentials, or [None] where the function leaves
    through [sys.exit(1)]. *)
Definition get_credentials (w : world) (args : Namespace)
    : option (str * str) :=
  match or_else (args_username args) (OXYLABS_USERNAME w),
        or_else (args_password args) (OXYLABS_PASSWORD w) with
  | Some ((_ :: _) as username), Some ((_ :: _) as password) =>
    Some (username, password)
  | _, _ => None
  end.

(** [v[:200]]; slicing a dictionary raises [TypeError] up to Python 3.11
    and [KeyError] from 3.12 on. *)
Definition slice_200 (v : value) : result value :=
  match v with
  | VStr s => Ok (VStr (firstn 200 s))
  | VList l => Ok (VList (firstn 200 l))
  | VDict _ => raise TypeError (lit "unhashable type: 'slice'")
  | _ => raise TypeError (lit "'" ++ type_name v
                          ++ lit "' object is not subscriptable")
  end.

(** [sep.join(items)] for a list that may hold values that are no
    strings. *)
Fixpoint join_values (sep : str) (i : Z) (items : list value)
    : result str :=
  match items with
  | [] => Ok []
  | item :: rest =>
    match item with
    | VStr s =>
      match rest with
      | [] => Ok s
      | _ => tail <- join_values sep (i + 1) rest ;; Ok (s ++ sep ++ tail)
      end
    | _ => raise TypeError (lit "sequence item " ++ str_of_Z i
                            ++ lit ": expected str instance, "
                            ++ type_name item ++ lit " found")
    end
  end.

(** The line [f"{label}{product.get(key, 'N/A')}"]. *)
Definition labelled (label : string) (product : value) (key : string)
    : result value :=
  v <- py_get product (lit key) (VStr (lit "N/A")) ;;
  Ok (VStr (lit label ++ str_ v)).

(** The branch of [format_output] for a dictionary with a product. *)
Definition pretty_product (data : value) : result str :=
  product <- subscript data (lit "product") ;;
  name <- labelled "Product: " product "name" ;;
  brand <- labelled "Brand: " product "brand" ;;
  price <- labelled "Price: " product "price" ;;
  rating <- labelled "Rating: " product "rating" ;;
  reviews <- labelled "Reviews: " product "reviews_count" ;;
  url <- labelled "URL: " product "url" ;;
  availability <- labelled "Availability: " product "availability" ;;
  let output := [name; brand; price; rating; reviews; url; availability] in
  description <- py_get product (lit "description") VNone ;;
  output <-
    (if truthy description then
       description <- subscript product (lit "description") ;;
       head <- slice_200 description ;;
       Ok (output ++ [VStr (lit "Description: " ++ str_ head ++ lit "...")])
     else Ok output) ;;
  bullet_points <- py_get product (lit "bullet_points") VNone ;;
  output <-
    (if truthy bullet_points then
       bullet_points <- subscript product (lit "bullet_points") ;;
       Ok (output ++ [VStr (10%N :: lit "Key Features:"); bullet_points])
     else Ok output) ;;
  metadata <- subscript data (lit "metadata") ;;
  extraction_successful <- subscript metadata (lit "extraction_successful") ;;
  let output :=
    output ++ [VStr (10%N :: lit "Extraction successful: "
                     ++ str_ extraction_successful)] in
  metadata <- subscript data (lit "metadata") ;;
  error_message <- subscript metadata (lit "error_message") ;;
  output <-
    (if truthy error_message then
       metadata <- subscript data (lit "metadata") ;;
       error_message <- subscript metadata (lit "error_message") ;;
       Ok (output ++ [VStr (lit "Error: " ++ str_ error_message)])
     else Ok output) ;;
  join_values [10%N] 0 output.

(** The branch of [format_output] for a list: one numbered line for
    each item, counted from [i]. *)
Fixpoint pretty_items (i : Z) (data : list value) : result (list value) :=
  match data with
  | [] => Ok []
  | item :: rest =>
    title <- py_get item (lit "title") (VStr (lit "N/A")) ;;
    price <- py_get item (lit "price") (VStr (lit "N/A")) ;;
    output <- pretty_items (i + 1) rest ;;
    Ok (VStr (str_of_Z i ++ lit ". " ++ str_ title ++ lit " - "
              ++ str_ price) :: output)
  end.

(** [dumps data] is [json.dumps(data, indent=2, ensure_ascii=False)]. *)
Definition format_output (dumps : value -> str) (data : value)
    (format_type : str) : result str :=
  if str_eqb format_type (lit "pretty") then
    match data with
    | VDict d =>
      match lookup (lit "product") d with
      | Some _ => pretty_product data
      | None => Ok (dumps data)
      end
    | VList l => output <- pretty_items 1 l ;; join_values [10%N] 0 output
    | _ => Ok (dumps data)
    end
  else Ok (dumps data).

(** What a run of [main] does that can be seen from outside.  [Saved]
    is the call of [save_to_json], which catches whatever the writing
    raises; [Printed] is a call of [print], taken to succeed.  An
    interrupt from the keyboard is not part of the model. *)
Inductive effect :=
| Network (e : event)
| Saved (data : value) (filename : str)
| Printed (text : str).

(** [if args.output: scraper.save_to_json(data, args.output)]. *)
Definition save_if_asked (args : Namespace) (data : value) : list effect :=
  match args_output args with
  | Some ((_ :: _) as filename) => [Saved data filename]
  | _ => []
  end.

(** The block both product branches of [main] share, after the call of
    [scrape_product]; [Some n] is the status of a [sys.exit(n)], [None]
    a normal return.  An exception of the [try] body ends in the
    handler that leaves with status 1. *)
Definition report_product (dumps : value -> str) (args : Namespace)
    (scraped : list event * result value) : list effect * option Z :=
  let '(trace, r) := scraped in
  let trace := map Network trace in
  match r with
  | Error _ => (trace, Some 1%Z)
  | Ok product_data =>
    match (if truthy product_data then py_in (lit "product") product_data
           else Ok false) with
    | Error _ => (trace, Some 1%Z)
    | Ok false => (trace, Some 1%Z)
    | Ok true =>
      let trace := trace ++ save_if_asked args product_data in
      match format_output dumps product_data (args_format args) with
      | Error _ => (trace, Some 1%Z)
      | Ok text => (trace ++ [Printed text], None)
      end
    end
  end.

(** The search branch of [main], after the call of
    [scrape_search_results]. *)
Definition report_search (dumps : value -> str) (args : Namespace)
    (search : str) (scraped : list event * result (list value))
    : list effect * option Z :=
  let '(trace, r) := scraped in
  let trace := map Network trace in
  match r with
  | Error _ => (trace, Some 1%Z)
  | Ok [] => (trace, Some 1%Z)
  | Ok search_results =>
    let trace := trace ++ save_if_asked args (VList search_results) in
    match format_output dumps (VList search_results) (args_format args) with
    | Error _ => (trace, Some 1%Z)
    | Ok text =>
      (trace ++ [Printed text;
                 Printed (10%N :: lit "Found "
                          ++ str_of_Z (Z.of_nat (List.length search_results))
                          ++ lit " products for '" ++ search ++ lit "'")],
       None)
    end
  end.

(** [main], from the parsed arguments on; the calls of the logger are
    left out. *)
Definition main (dumps : value -> str) (w : world) (args : Namespace)
    : list effect * option Z :=
  match get_credentials w args with
  | None => ([], Some 1%Z)
  | Some (username, password) =>
    let scraper := __init__ username password in
    let scraper :=
      if negb (args_timeout args =? DEFAULT_TIMEOUT)%Z
      then Scraper username password (args_timeout args)
      else scraper in
    match args_asin args, args_url args, args_search args with
    | Some ((_ :: _) as asin), _, _ =>
      let product_url := build_amazon_url asin (args_country args) in
      report_product dumps args
        (scrape_product scraper (product_upstream w) (wall_clock w 0)
                        product_url (lit "10001"))
    | _, Some ((_ :: _) as url), _ =>
      report_product dumps args
        (scrape_product scraper (product_upstream w) (wall_clock w 0)
                        url (lit "10001"))
    | _, _, Some ((_ :: _) as search) =>
      report_search dumps args search
        (scrape_search_results scraper (search_upstream w) (wall_clock w)
                               search (lit "10001") (args_pages args))
    | _, _, _ => ([], None)
    end
  end.

(** *** Vocabulary of the further properties *)


Fixpoint nondecreasing (l : list Z) : Prop :=
  match l with
  | a :: ((b :: _) as rest) => (a <= b)%Z /\ nondecreasing rest
  | _ => True
  end.

(** The keys of a dictionary. *)
Definition keys (d : dict) : list str := map fst d.

(** The four errors that pass through the error marker unchanged. *)
Definition pipeline_error (c : exc_class) : bool :=
  match c with
  | InvalidASINError | InvalidCredentialsError | RateLimitError
  | APIConnectionError => true
  | _ => false
  end.

(** A text that is a number: digits, with a dot and more digits or
    without. *)
Definition numeric_text (s : str) : Prop :=
  exists whole frac,
    whole <> [] /\ forallb isdigit whole = true /\ forallb isdigit frac = true
    /\ (s = whole \/ (frac <> [] /\ s = whole ++ [46%N] ++ frac)).


(** A trace in which no sleep comes last. *)
Definition ends_with_post (trace : list event) : Prop :=
  match rev trace with
  | Sleep _ :: _ => False
  | _ => True
  end.

(** A key that is bound in a dictionary. *)
Definition present (k : str) (d : dict) : Prop :=
  exists v, lookup k d = Some v.

(** The keys of the product [_format_product_data] builds. *)
Definition product_keys : list str :=
  [lit "name"; lit "brand"; lit "price"; lit "rating"; lit "reviews_count";
   lit "description"; lit "url"; lit "images"; lit "specifications";
   lit "scraped_at"].

(** The lines the pretty printer gives for the envelope of a record. *)
Definition pretty_lines (f : fields) (error : option str) : list str :=
  let points :=
    join [10%N] (map (fun point => bullet_prefix ++ point)
                     (f_bullet_points f)) in
  [lit "Product: " ++ str_ (default_str (f_name f) "Unknown");
   lit "Brand: " ++ str_ (default_str (f_brand f) "Unknown");
   lit "Price: " ++ str_ (default_str (f_price f) "0.00");
   lit "Rating: " ++ str_ (default_str (f_rating f) "0");
   lit "Reviews: " ++ str_ (default_str (f_reviews_count f) "0");
   lit "URL: " ++ f_url f;
   lit "Availability: " ++ f_availability f]
  ++ (if nonempty (f_description f)
      then [lit "Description: " ++ firstn 200 (f_description f) ++ lit "..."]
      else [])
  ++ (if nonempty points then [10%N :: lit "Key Features:"; points] else [])
  ++ [10%N :: lit "Extraction successful: "
      ++ match error with None => lit "True" | Some _ => lit "False" end]
  ++ match error with
     | Some ((_ :: _) as message) => [lit "Error: " ++ message]
     | _ => []
     end.

(** A text free of white space. *)
Definition no_space (s : str) : Prop := Forall (fun c => isspace c = false) s.

(** A character [sanitize_filename] leaves in place. *)
Definition filename_safe (c : char) : bool :=
  negb (invalid_filename_char c) && negb (N.eqb c 32%N).

(** *** Further fixtures *)

(** One server error, then a success. *)
Definition failing_once : upstream :=
  fun attempt =>
    if (attempt <? 1)%nat then RaisesHTTPError 500 (lit "Server Error")
    else Returns (payload [(lit "title", VStr (lit "Success"))]).

Definition test_world : world :=
  World None None failing_once (fun _ => failing_once)
        (fun _ => lit "2024-01-15 10:30:00").


Definition search_args : Namespace :=
  Args None None (Some (lit "laptop")) None (lit "US") (lit "json") 2%Z
       (Some (lit "test_user")) (Some (lit "test_pass")) false
       DEFAULT_TIMEOUT.

(** * Properties *)

(** ** The record behind the envelope *)

Lemma extract_fields_typed content now :
  extract_fields content (initial_product_data now)
  = product_data_of (extracted content) now None.
Proof.
  unfold extract_fields, extracted, product_data_of, initial_product_data.
  unfold text, texts. cbn [f_name f_brand f_price f_rating f_reviews_count
    f_description f_bullet_points f_images f_specifications f_availability
    f_url].
  destruct (_extract_and_format_price content) as [p | e1];
    destruct (_extract_reviews_count content) as [n | e2];
    reflexivity.
Qed.

Lemma validate_typed f now error :
  _validate_extracted_data (product_data_of f now error) = Ok tt.
Proof.
  unfold _validate_extracted_data, product_data_of, lit.
  cbn -[truthy].
  destruct (f_price f), (f_rating f), (f_reviews_count f); reflexivity.
Qed.

Lemma format_points_strs l :
  format_points (VList (map VStr l))
  = Ok (map (fun point => bullet_prefix ++ point) l).
Proof.
  unfold format_points. rewrite map_map. reflexivity.
Qed.

Lemma py_or_str s d :
  py_or (VStr s) (VStr d) = VStr (match s with [] => d | _ => s end).
Proof. destruct s; reflexivity. Qed.

Lemma truthy_str s : truthy (VStr s) = nonempty s.
Proof. destruct s; reflexivity. Qed.

Lemma clean_json_typed f now error :
  _create_clean_json_structure (product_data_of f now error)
  = Ok (envelope_of f now error).
Proof.
  unfold _create_clean_json_structure, product_data_of, envelope_of.
  unfold required_fields, lit.
  cbn -[truthy py_or format_points join bullet_prefix Z.add].
  assert (Hp : (if truthy (VList (map VStr (f_bullet_points f)))
                then lines <- format_points (VList (map VStr (f_bullet_points f))) ;;
                     Ok (join [10%N] lines)
                else Ok [])
               = Ok (join [10%N] (map (fun point => bullet_prefix ++ point)
                                       (f_bullet_points f)))).
  { rewrite format_points_strs. destruct (f_bullet_points f); reflexivity. }
  rewrite Hp. cbn -[truthy py_or join bullet_prefix Z.add].
  rewrite !py_or_str, !truthy_str.
  destruct error; reflexivity.
Qed.

Lemma validated_content response :
  _validate_response_structure response = Ok tt ->
  exists c, content_of response = Ok c.
Proof.
  unfold _validate_response_structure, content_of.
  destruct response as [| | | | |l|r]; try discriminate.
  destruct (lookup (lit "error") r) eqn:He.
  - repeat match goal with
           | |- context [if ?b then _ else _] => destruct b
           end; discriminate.
  - unfold subscript at 2. unfold getitem.
    destruct (lookup (lit "results") r) as [[| | | | |[|result ?]|]|] eqn:Hr;
      try discriminate.
    cbn [bind first_item].
    destruct (py_in (lit "content") result) as [[|]|] eqn:Hin;
      cbn [bind negb]; try discriminate.
    destruct (subscript result (lit "content")) as [[]|];
      cbn [bind]; try discriminate.
    eauto.
Qed.

Lemma extracted_product_data_ok now response c :
  _validate_response_structure response = Ok tt ->
  content_of response = Ok c ->
  extracted_product_data now response
  = product_data_of (extracted c) now None.
Proof.
  intros Hv Hc. unfold extracted_product_data, try_block.
  rewrite Hv, Hc, extract_fields_typed, validate_typed. reflexivity.
Qed.

Lemma extracted_product_data_error now response e :
  _validate_response_structure response = Error e ->
  extracted_product_data now response
  = product_data_of no_fields now (Some (error_text e)).
Proof.
  intros Hv. unfold extracted_product_data, try_block.
  rewrite Hv. reflexivity.
Qed.

(** The normaliser never raises: its result is the envelope of the typed
    record, with the error slot filled exactly when validation failed. *)
Lemma normalize_total now response :
  exists f error,
    extract_and_format_product_data now response
    = Ok (envelope_of f now error)
    /\ match _validate_response_structure response with
       | Ok _ => error = None
                 /\ exists c, content_of response = Ok c /\ f = extracted c
       | Error e => error = Some (error_text e) /\ f = no_fields
       end.
Proof.
  unfold extract_and_format_product_data.
  destruct (_validate_response_structure response) as [[]|e] eqn:Hv.
  - destruct (validated_content _ Hv) as [c Hc].
    exists (extracted c), None.
    rewrite (extracted_product_data_ok _ _ _ Hv Hc), clean_json_typed. eauto.
  - exists no_fields, (Some (error_text e)).
    rewrite (extracted_product_data_error _ _ _ Hv), clean_json_typed. eauto.
Qed.

(** ** C1: the envelope of [scrape_product] *)

Lemma set_product_url_typed f now error url :
  set_product_url (envelope_of f now error) url
  = Ok (envelope_of (with_url f url) now error).
Proof. reflexivity. Qed.

Lemma forallb_is_str l : forallb is_str (map VStr l) = true.
Proof. induction l; cbn; auto. Qed.

Lemma envelope_of_shape f now error :
  envelope_shape (envelope_of f now error) = true.
Proof.
  unfold envelope_shape, envelope_of, product_schema, metadata_schema, lit.
  cbn -[forallb]. rewrite !forallb_is_str.
  destruct error; reflexivity.
Qed.

Lemma fetch_ok_response self up url geo response :
  snd (_make_request_with_retry self up url geo) = Ok response ->
  snd (_make_request self up url geo) = response.
Proof.
  unfold _make_request.
  destruct (_make_request_with_retry self up url geo) as [trace r].
  cbn [snd]. intros ->. reflexivity.
Qed.

Lemma fetch_error_reported self up url geo e :
  snd (_make_request_with_retry self up url geo) = Error e ->
  exists e',
    _validate_response_structure (snd (_make_request self up url geo))
    = Error e'
    /\ error_text e' = reported e.
Proof.
  unfold _make_request.
  destruct (_make_request_with_retry self up url geo) as [trace r].
  cbn [snd]. intros ->. destruct e as [c msg].
  destruct c; cbn [class_of]; eexists; split; reflexivity.
Qed.

(** C1: [scrape_product] never raises.  For every scraper, upstream,
    clock reading, URL and geo-location it returns an envelope
    [{product: {...}, metadata: {extraction_successful, error_message,
    fields_extracted}}]; a failure of the fetch or of the structural
    validation is reported in [metadata] and nowhere else:
    [extraction_successful] is false and [error_message] holds the text
    exactly when one occurred. *)
Theorem scrape_product_total self up now url geo :
  exists envelope error,
    snd (scrape_product self up now url geo) = Ok envelope
    /\ envelope_shape envelope = true
    /\ metadata_field "extraction_successful" envelope
       = Some (VBool (match error with None => true | Some _ => false end))
    /\ metadata_field "error_message" envelope = Some (optional_str error)
    /\ match snd (_make_request_with_retry self up url geo) with
       | Error e => error = Some (reported e)
       | Ok response =>
         match _validate_response_structure response with
         | Ok _ => error = None
         | Error e => error = Some (error_text e)
         end
       end.
Proof.
  unfold scrape_product.
  pose proof (fetch_error_reported self up url geo) as Hfail.
  pose proof (fetch_ok_response self up url geo) as Hok.
  destruct (_make_request self up url geo) as [trace response].
  cbn [snd] in *.
  destruct (normalize_total now response) as (f & error & Hn & Hcase).
  exists (envelope_of (with_url f url) now error), error.
  rewrite Hn. cbn [bind]. rewrite set_product_url_typed.
  split; [reflexivity|]. split; [apply envelope_of_shape|].
  split; [destruct error; reflexivity|]. split; [destruct error; reflexivity|].
  destruct (snd (_make_request_with_retry self up url geo)) as [r|e].
  - rewrite (Hok r eq_refl) in Hcase.
    destruct (_validate_response_structure r); tauto.
  - destruct (Hfail e eq_refl) as (e' & He' & Hrep).
    rewrite He' in Hcase. rewrite <- Hrep. tauto.
Qed.

(** ** C2, C6, C7: the normaliser on given payloads *)

(** C2: the sparse payload [{"results": [{"content": {"title": "X"}}]}]
    gives name [X], brand [Unknown], price [0.00], rating [0],
    reviews_count [0], one field extracted and a successful
    extraction. *)
Theorem sparse_payload now :
  exists envelope,
    extract_and_format_product_data now
      (VDict [(lit "results",
               VList [VDict [(lit "content",
                              VDict [(lit "title", VStr (lit "X"))])]])])
    = Ok envelope
    /\ product_field "name" envelope = Some (VStr (lit "X"))
    /\ product_field "brand" envelope = Some (VStr (lit "Unknown"))
    /\ product_field "price" envelope = Some (VStr (lit "0.00"))
    /\ product_field "rating" envelope = Some (VStr (lit "0"))
    /\ product_field "reviews_count" envelope = Some (VStr (lit "0"))
    /\ metadata_field "fields_extracted" envelope = Some (VInt 1)
    /\ metadata_field "extraction_successful" envelope = Some (VBool true).
Proof.
  eexists. split; [vm_compute; reflexivity|].
  repeat split; reflexivity.
Qed.

(** C6: each of [{}], [{"results": []}] and [{"results": [{}]}] fails
    structural validation; the validation error is stored in the record's
    error slot, and the envelope is returned with
    [extraction_successful] false and the message in [error_message]. *)
Theorem structural_validation now :
  Forall (fun response =>
    exists msg envelope,
      _validate_response_structure response = Error (Exc ValidationError msg)
      /\ lookup (lit "error") (extracted_product_data now response)
         = Some (VStr (lit "Validation error: " ++ msg))
      /\ extract_and_format_product_data now response = Ok envelope
      /\ metadata_field "extraction_successful" envelope = Some (VBool false)
      /\ metadata_field "error_message" envelope
         = Some (VStr (lit "Validation error: " ++ msg)))
    structurally_invalid.
Proof.
  repeat constructor; do 2 eexists;
    (split; [reflexivity|]); (split; [reflexivity|]);
    (split; [vm_compute; reflexivity|]); split; reflexivity.
Qed.

Lemma lstrip_dots t : Forall dot t -> lstrip t = t.
Proof. destruct 1 as [|c t ->]; reflexivity. Qed.

Lemma strip_dots t : Forall dot t -> strip t = t.
Proof.
  intros H. unfold strip, rstrip. rewrite (lstrip_dots t H).
  rewrite (lstrip_dots (rev t)); [apply rev_involutive | apply Forall_rev, H].
Qed.

Lemma remove_char_dots c t : c <> 46%N -> Forall dot t -> remove_char c t = t.
Proof.
  intros Hc. induction 1 as [|x t -> Ht IH]; [reflexivity|].
  unfold remove_char in *. cbn [filter].
  destruct (N.eqb_spec 46 c); [congruence|]. cbn [negb]. f_equal. exact IH.
Qed.

Lemma Decimal_dots t :
  Forall dot t -> exists e, Decimal t = Error e.
Proof.
  intros H. unfold Decimal.
  rewrite (strip_dots t H), (remove_char_dots 95%N t) by (discriminate || exact H).
  destruct H as [|c t -> Ht]; [eexists; reflexivity|].
  destruct Ht as [|c t -> Ht]; [eexists; reflexivity|].
  eexists; reflexivity.
Qed.

Lemma cleaned_without_digits s :
  forallb (fun c => negb (isdigit c)) s = true ->
  Forall dot (remove_char 44%N (clean_price_chars s)).
Proof.
  induction s as [|c s IH]; cbn; [constructor|].
  intros H. apply andb_true_iff in H as [Hc Hs]. apply negb_true_iff in Hc.
  rewrite Hc. cbn [orb].
  destruct (N.eqb_spec c 46) as [->|H46]; cbn.
  - constructor; [reflexivity | apply IH, Hs].
  - destruct (N.eqb_spec c 44) as [->|H44]; cbn; [apply IH, Hs|].
    apply IH, Hs.
Qed.

Lemma price_without_digits s :
  s <> [] ->
  forallb (fun c => negb (isdigit c)) s = true ->
  _extract_and_format_price [(lit "price", VStr s)] = Ok (strip s).
Proof.
  intros Hs Hd. unfold _extract_and_format_price, price_keys.
  cbn [price_loop].
  replace (lookup (lit "price") [(lit "price", VStr s)]) with (Some (VStr s))
    by reflexivity.
  destruct s as [|c s]; [congruence|]. cbn [truthy].
  unfold decimal_text.
  destruct (Decimal_dots _ (cleaned_without_digits _ Hd)) as [e ->].
  reflexivity.
Qed.

(** C7: the price [$1,234.50] is extracted as [1234.50], the trailing
    zero kept, and [not a price], which holds no decimal, comes back as
    the trimmed raw string, as does every non-empty price text without a
    digit. *)
Theorem price_decimal_exact :
  _extract_and_format_price [(lit "price", VStr (lit "$1,234.50"))]
  = Ok (lit "1234.50")
  /\ _extract_and_format_price [(lit "price", VStr (lit "not a price"))]
     = Ok (lit "not a price")
  /\ (forall s,
        s <> [] ->
        forallb (fun c => negb (isdigit c)) s = true ->
        _extract_and_format_price [(lit "price", VStr s)] = Ok (strip s)).
Proof.
  split; [reflexivity|]. split; [reflexivity|]. exact price_without_digits.
Qed.

(** ** C3, C4: the retry loop *)

Lemma valid_credentials_pass self :
  valid_credentials self -> _validate_credentials self = Ok tt.
Proof.
  unfold valid_credentials, _validate_credentials. intros [Hu Hp].
  destruct (username self) as [|? [|? [|? ?]]]; cbn in Hu; try lia.
  destruct (password self) as [|? [|? [|? ?]]]; cbn in Hp; try lia.
  reflexivity.
Qed.

Lemma fetch_is_retry_loop self up url geo asin :
  valid_credentials self ->
  _extract_asin_from_url url = Ok asin ->
  _make_request_with_retry self up url geo
  = retry_loop self up url geo [0; 1; 2]%nat None.
Proof.
  intros Hc Ha. unfold _make_request_with_retry.
  rewrite (valid_credentials_pass _ Hc), Ha. reflexivity.
Qed.

Lemma handle_retryable k o last :
  retryable o = true -> (k < 2)%nat ->
  exists last',
    handle_attempt k o last = ([Sleep (scheduled_sleep o k)], Next last').
Proof.
  intros Hr Hk.
  assert (Hlt : (k <? MAX_RETRIES - 1)%nat = true)
    by (apply Nat.ltb_lt; cbn; lia).
  unfold handle_attempt, sleep_and_continue, scheduled_sleep.
  destruct o as [?|?|status ?|?|?|?|?]; cbn in Hr; try discriminate;
    rewrite ?Hlt; cbn [is_rate_limit]; eauto.
  destruct (status =? 401)%Z eqn:H401; [lia|].
  destruct (status =? 429)%Z eqn:H429; [eauto|].
  destruct (500 <=? status)%Z eqn:H500; [eauto | discriminate].
Qed.

Lemma handle_last o last :
  retryable o = true ->
  handle_attempt 2 o last
  = ([], if is_rate_limit o
         then Raise (Exc RateLimitError
                         (lit "Rate limit exceeded after retries"))
         else Next (Some (underlying_error o))).
Proof.
  intros Hr.
  unfold handle_attempt, sleep_and_continue.
  destruct o as [?|?|status ?|?|?|?|?]; cbn in Hr; try discriminate;
    try reflexivity.
  cbn [is_rate_limit underlying_error].
  destruct (status =? 401)%Z eqn:H401; [lia|].
  destruct (status =? 429)%Z eqn:H429; [reflexivity|].
  destruct (500 <=? status)%Z eqn:H500; [reflexivity | discriminate].
Qed.

Lemma handle_not_retryable k o last :
  retryable o = false ->
  exists c, handle_attempt k o last = ([], c) /\ is_next c = false.
Proof.
  intros Hr. unfold handle_attempt.
  destruct o as [?|?|status ?|?|?|?|?]; cbn in Hr; try discriminate; eauto.
  apply orb_false_iff in Hr as [H429 H500]. rewrite H429, H500.
  destruct (status =? 401)%Z; eauto.
Qed.

Lemma server_error_retryable o :
  is_server_error o = true -> retryable o = true /\ is_rate_limit o = false.
Proof.
  destruct o; cbn; try discriminate. intros H.
  rewrite H, orb_true_r. split; [reflexivity | lia].
Qed.






(** C4: with valid credentials and an identifier in the URL, when all
    three attempts meet retryable failures the fetch makes exactly three
    calls and raises by the last failure: [RateLimitError] when it was a
    429, [APIConnectionError] carrying the text of the last underlying
    error otherwise; so three server errors end in [APIConnectionError]
    and three 429 responses in [RateLimitError]. *)
Theorem retries_exhausted self up url geo asin :
  valid_credentials self ->
  _extract_asin_from_url url = Ok asin ->
  retryable (up 0%nat) = true ->
  retryable (up 1%nat) = true ->
  retryable (up 2%nat) = true ->
  let fetch := _make_request_with_retry self up url geo in
  posts (fst fetch) = 3%nat
  /\ snd fetch
     = Error (if is_rate_limit (up 2%nat)
              then Exc RateLimitError (lit "Rate limit exceeded after retries")
              else Exc APIConnectionError
                       (lit "Request failed after 3 attempts. Last error: "
                        ++ underlying_error (up 2%nat)))
  /\ (is_server_error (up 2%nat) = true ->
      snd fetch
      = Error (Exc APIConnectionError
                   (lit "Request failed after 3 attempts. Last error: "
                    ++ underlying_error (up 2%nat))))
  /\ (is_rate_limit (up 2%nat) = true ->
      snd fetch
      = Error (Exc RateLimitError (lit "Rate limit exceeded after retries"))).
Proof.
  intros Hc Ha R0 R1 R2. rewrite (fetch_is_retry_loop _ _ _ _ _ Hc Ha).
  cbn zeta. unfold retry_loop.
  destruct (handle_retryable 0 _ None R0 ltac:(lia)) as [l0 ->].
  destruct (handle_retryable 1 _ l0 R1 ltac:(lia)) as [l1 ->].
  rewrite (handle_last _ l1 R2).
  destruct (is_rate_limit (up 2%nat)) eqn:RL.
  - cbn [fst snd posts filter List.length app].
    repeat split; try reflexivity.
    intros S2. destruct (server_error_retryable _ S2). congruence.
  - cbn [fst snd posts filter List.length app].
    repeat split; try reflexivity. discriminate.
Qed.

Lemma retries_exhausted_witness :
  valid_credentials test_scraper
  /\ _extract_asin_from_url product_url = Ok (lit "B08N5WRWNW")
  /\ retryable (always_throttled 0%nat) = true
  /\ posts (fst (_make_request_with_retry test_scraper always_throttled
                   product_url DEFAULT_GEO_LOCATION)) = 3%nat
  /\ snd (_make_request_with_retry test_scraper always_throttled
            product_url DEFAULT_GEO_LOCATION)
     = Error (Exc RateLimitError (lit "Rate limit exceeded after retries")).
Proof.
  assert (Hc : valid_credentials test_scraper) by (split; vm_compute; lia).
  assert (Ha : _extract_asin_from_url product_url = Ok (lit "B08N5WRWNW"))
    by reflexivity.
  split; [exact Hc|]. split; [exact Ha|]. split; [reflexivity|].
  destruct (retries_exhausted test_scraper always_throttled product_url
              DEFAULT_GEO_LOCATION (lit "B08N5WRWNW") Hc Ha
              eq_refl eq_refl eq_refl) as (Hp & _ & _ & Hr).
  split; [exact Hp | exact (Hr eq_refl)].
Defined.

(** ** C5: identifiers are checked before the network is used *)

Lemma startswith_app p s :
  startswith p s = true -> s = p ++ skipn (List.length p) s.
Proof.
  revert s. induction p as [|x p IH]; intros s H; [reflexivity|].
  destruct s as [|y s]; [discriminate|]. cbn in H.
  apply andb_true_iff in H as [Hxy Hp]. apply N.eqb_eq in Hxy. subst y.
  cbn. f_equal. apply IH, Hp.
Qed.

Lemma startswith_prefix p s : startswith p (p ++ s) = true.
Proof.
  induction p as [|x p IH]; [reflexivity|].
  cbn. rewrite N.eqb_refl. exact IH.
Qed.

Lemma skipn_prefix (p s : str) : skipn (List.length p) (p ++ s) = s.
Proof. induction p; cbn; auto. Qed.

Lemma match_asin_shape s a :
  match_asin s = Some a -> asin_shape a /\ exists after, s = a ++ after.
Proof.
  unfold match_asin. destruct s as [|c r]; [discriminate|].
  destruct (N.eqb_spec c 66); [subst c | ].
  2:{ destruct c as [|p]; try discriminate.
      do 7 (destruct p; try discriminate). congruence. }
  destruct (Nat.eqb (List.length (firstn 9 r)) 9
            && forallb in_0_9A_Z (firstn 9 r)) eqn:H; [|discriminate].
  intros [= <-]. apply andb_true_iff in H as [Hlen Hall].
  apply Nat.eqb_eq in Hlen. split.
  - exists (firstn 9 r). split; [reflexivity|]. split; [exact Hlen|].
    apply Forall_forall. apply forallb_forall. exact Hall.
  - exists (skipn 9 r). cbn [app]. f_equal. symmetry. exact (firstn_skipn 9 r).
Qed.

Lemma match_asin_complete a after :
  asin_shape a -> match_asin (a ++ after) = Some a.
Proof.
  intros (body & -> & Hlen & Hall).
  assert (Hf : @firstn char 9 (body ++ after) = body).
  { rewrite firstn_app, Hlen, Nat.sub_diag, firstn_O, app_nil_r.
    rewrite <- Hlen. apply firstn_all. }
  assert (Hb : forallb in_0_9A_Z body = true).
  { apply forallb_forall. apply Forall_forall. exact Hall. }
  unfold match_asin. cbn [app]. rewrite Hf, Hlen, Hb. reflexivity.
Qed.

Lemma re_search_group_sound marker url a :
  re_search_group marker url = Some a -> captures marker url.
Proof.
  induction url as [|c url IH]; cbn [re_search_group].
  - destruct (startswith marker []) eqn:Hs.
    + destruct (match_asin (skipn (List.length marker) [])) eqn:Hm;
        [|discriminate].
      intros _. apply startswith_app in Hs.
      destruct (match_asin_shape _ _ Hm) as [Hshape [after Ha]].
      exists [], s, after. split; [|exact Hshape].
      cbn. rewrite <- Ha. exact Hs.
    + discriminate.
  - destruct (startswith marker (c :: url)) eqn:Hs.
    + destruct (match_asin (skipn (List.length marker) (c :: url))) eqn:Hm.
      * intros _. apply startswith_app in Hs.
        destruct (match_asin_shape _ _ Hm) as [Hshape [after Ha]].
        exists [], s, after. split; [|exact Hshape].
        cbn [app]. rewrite <- Ha. exact Hs.
      * intros H. destruct (IH H) as (before & asin & after & -> & Hshape).
        exists (c :: before), asin, after. split; [reflexivity | exact Hshape].
    + intros H. destruct (IH H) as (before & asin & after & -> & Hshape).
      exists (c :: before), asin, after. split; [reflexivity | exact Hshape].
Qed.

Lemma re_search_group_unfold marker url :
  re_search_group marker url
  = match (if startswith marker url
           then match_asin (skipn (List.length marker) url) else None) with
    | Some asin => Some asin
    | None =>
      match url with
      | [] => None
      | _ :: url' => re_search_group marker url'
      end
    end.
Proof. destruct url; reflexivity. Qed.

Lemma re_search_group_complete marker url :
  captures marker url -> exists a, re_search_group marker url = Some a.
Proof.
  intros (before & asin & after & -> & Hshape).
  induction before as [|c before IH]; rewrite re_search_group_unfold.
  - cbn [app].
    rewrite startswith_prefix, skipn_prefix, (match_asin_complete _ _ Hshape).
    eauto.
  - cbn [app].
    destruct (if startswith marker (c :: before ++ marker ++ asin ++ after)
              then match_asin (skipn (List.length marker)
                                     (c :: before ++ marker ++ asin ++ after))
              else None); eauto.
Qed.

Lemma not_captured_none marker url :
  ~ captures marker url <-> re_search_group marker url = None.
Proof.
  split.
  - intros H. destruct (re_search_group marker url) eqn:E; [|reflexivity].
    elim H. eapply re_search_group_sound, E.
  - intros H Hc. apply re_search_group_complete in Hc as [a Ha]. congruence.
Qed.

Lemma no_capture_no_asin patterns url :
  (forall marker, In marker patterns -> ~ captures marker url) ->
  first_valid_asin patterns url = None.
Proof.
  induction patterns as [|p patterns IH]; intros H; [reflexivity|].
  cbn [first_valid_asin].
  rewrite (proj1 (not_captured_none p url) (H p (or_introl eq_refl))).
  apply IH. intros m Hm. apply H. right. exact Hm.
Qed.

Lemma invalid_credentials_raise self :
  ~ valid_credentials self ->
  exists msg, _validate_credentials self = Error (Exc InvalidCredentialsError msg).
Proof.
  unfold valid_credentials, _validate_credentials. intros H.
  destruct (username self) as [|? [|? [|? ?]]];
    destruct (password self) as [|? [|? [|? ?]]];
    cbn; unfold raise; eauto.
  elim H. cbn. lia.
Qed.

(** C5, amended: for a URL in which none of the four shapes captures an
    identifier, the fetch makes no network call and raises; with
    credentials that pass validation the error is [InvalidASINError]
    (and [_make_request] returns the [invalid_asin] marker), with
    credentials that fail it the error is [InvalidCredentialsError],
    since credentials are validated first. *)
Theorem invalid_identifier_before_network self up url geo :
  (forall marker, In marker asin_patterns -> ~ captures marker url) ->
  exists e,
    _make_request_with_retry self up url geo = ([], Error e)
    /\ (valid_credentials self ->
        e = Exc InvalidASINError
                (lit "Invalid or missing ASIN in URL: " ++ url)
        /\ _make_request self up url geo
           = ([], error_response "invalid_asin" e))
    /\ (~ valid_credentials self -> class_of e = InvalidCredentialsError).
Proof.
  intros Hno. unfold _make_request, _make_request_with_retry.
  unfold _extract_asin_from_url.
  rewrite (no_capture_no_asin _ _ Hno).
  destruct (_validate_credentials self) as [[]|e] eqn:Hv.
  - eexists. split; [reflexivity|]. split.
    + intros _. split; reflexivity.
    + intros Hbad. apply invalid_credentials_raise in Hbad as [msg Hm].
      congruence.
  - exists e. split; [reflexivity|]. split.
    + intros Hgood. rewrite (valid_credentials_pass _ Hgood) in Hv.
      discriminate.
    + intros Hbad. apply invalid_credentials_raise in Hbad as [msg Hm].
      rewrite Hm in Hv. injection Hv as <-. reflexivity.
Qed.

Lemma invalid_url_not_captured marker :
  In marker asin_patterns -> ~ captures marker invalid_url.
Proof.
  intros Hin. apply not_captured_none.
  repeat (destruct Hin as [<- | Hin]; [vm_compute; reflexivity|]).
  destruct Hin.
Qed.

Lemma invalid_identifier_before_network_witness :
  (forall marker, In marker asin_patterns -> ~ captures marker invalid_url)
  /\ exists e,
       _make_request_with_retry test_scraper failing_thrice invalid_url
         DEFAULT_GEO_LOCATION = ([], Error e)
       /\ (valid_credentials test_scraper ->
           e = Exc InvalidASINError
                   (lit "Invalid or missing ASIN in URL: " ++ invalid_url)
           /\ _make_request test_scraper failing_thrice invalid_url
                DEFAULT_GEO_LOCATION
              = ([], error_response "invalid_asin" e))
       /\ (~ valid_credentials test_scraper ->
           class_of e = InvalidCredentialsError).
Proof.
  split; [exact invalid_url_not_captured|].
  exact (invalid_identifier_before_network test_scraper failing_thrice
           invalid_url DEFAULT_GEO_LOCATION invalid_url_not_captured).
Defined.

(** C5 as stated fails: a scraper with empty credentials, given a URL
    without an identifier, raises [InvalidCredentialsError], not
    [InvalidASINError]. *)
Lemma fetch_with_bad_credentials :
  (forall marker, In marker asin_patterns -> ~ captures marker invalid_url)
  /\ _make_request_with_retry (__init__ [] []) failing_thrice invalid_url
       DEFAULT_GEO_LOCATION
     = ([], Error (Exc InvalidCredentialsError
                       (lit "Username and password are required")))
  /\ (forall msg,
         snd (_make_request_with_retry (__init__ [] []) failing_thrice
                invalid_url DEFAULT_GEO_LOCATION)
         <> Error (Exc InvalidASINError msg))
  /\ _make_request (__init__ [] []) failing_thrice invalid_url
       DEFAULT_GEO_LOCATION
     = ([], VDict [(lit "error", VStr (lit "invalid_credentials"));
                   (lit "message",
                    VStr (lit "Username and password are required"))]).
Proof.
  split; [exact invalid_url_not_captured|].
  split; [reflexivity|]. split; [|reflexivity].
  intros msg. discriminate.
Qed.

(** ** C8: normalising the same payload twice *)

(** C8, amended: two normalisations of one payload, made when the clock
    reads [now1] and [now2], both return an envelope; the envelopes agree
    on everything but [product.scraped_at], which holds the clock reading
    of each call, and are identical when the readings are. *)
Theorem normalize_twice now1 now2 response :
  exists envelope1 envelope2,
    extract_and_format_product_data now1 response = Ok envelope1
    /\ extract_and_format_product_data now2 response = Ok envelope2
    /\ without_scraped_at envelope1 = without_scraped_at envelope2
    /\ product_field "scraped_at" envelope1 = Some (VStr now1)
    /\ product_field "scraped_at" envelope2 = Some (VStr now2)
    /\ (now1 = now2 -> envelope1 = envelope2).
Proof.
  destruct (normalize_total now1 response) as (f1 & e1 & H1 & C1).
  destruct (normalize_total now2 response) as (f2 & e2 & H2 & C2).
  assert (Hsame : f1 = f2 /\ e1 = e2).
  { destruct (_validate_response_structure response).
    - destruct C1 as (-> & c1 & Hc1 & ->), C2 as (-> & c2 & Hc2 & ->).
      split; congruence.
    - destruct C1 as [-> ->], C2 as [-> ->]. split; reflexivity. }
  destruct Hsame as [<- <-].
  exists (envelope_of f1 now1 e1), (envelope_of f1 now2 e1).
  repeat split; try assumption; try reflexivity.
  intros ->. reflexivity.
Qed.

(** C8 as stated fails: the same payload normalised one second apart
    gives two different results. *)
Lemma normalize_twice_differs :
  extract_and_format_product_data (lit "2024-01-15 10:30:00")
    (VDict [(lit "results",
             VList [VDict [(lit "content",
                            VDict [(lit "title", VStr (lit "X"))])]])])
  <> extract_and_format_product_data (lit "2024-01-15 10:30:01")
       (VDict [(lit "results",
                VList [VDict [(lit "content",
                               VDict [(lit "title", VStr (lit "X"))])]])]).
Proof. vm_compute. discriminate. Qed.

(** ** C9: bullet points and features *)

Lemma lstrip_idem s : lstrip (lstrip s) = lstrip s.
Proof.
  induction s as [|c s IH]; [reflexivity|]. cbn.
  destruct (isspace c) eqn:Hc; [exact IH|]. cbn. rewrite Hc. reflexivity.
Qed.

Lemma lstrip_head s c t : lstrip s = c :: t -> isspace c = false.
Proof.
  induction s as [|x s IH]; [discriminate|]. cbn.
  destruct (isspace x) eqn:Hx; [exact IH|]. intros [= <- _]. exact Hx.
Qed.

Lemma lstrip_snoc s c :
  isspace c = false -> exists u, lstrip (s ++ [c]) = u ++ [c].
Proof.
  intros Hc. induction s as [|x s IH]; cbn.
  - rewrite Hc. exists []. reflexivity.
  - destruct (isspace x); [exact IH|]. exists (x :: s). reflexivity.
Qed.

Lemma rstrip_idem s : rstrip (rstrip s) = rstrip s.
Proof. unfold rstrip. rewrite rev_involutive, lstrip_idem. reflexivity. Qed.

Lemma rstrip_cons c t :
  isspace c = false -> exists u, rstrip (c :: t) = c :: u.
Proof.
  intros Hc. unfold rstrip. cbn [rev].
  destruct (lstrip_snoc (rev t) c Hc) as [u ->].
  exists (rev u). rewrite rev_app_distr. reflexivity.
Qed.

Lemma strip_idem s : strip (strip s) = strip s.
Proof.
  unfold strip. destruct (lstrip s) as [|c t] eqn:Hl; [reflexivity|].
  pose proof (lstrip_head _ _ _ Hl) as Hc.
  destruct (rstrip_cons c t Hc) as [u Hu].
  replace (lstrip (rstrip (c :: t))) with (rstrip (c :: t)).
  - apply rstrip_idem.
  - rewrite Hu. cbn. rewrite Hc. reflexivity.
Qed.

Lemma Forall_lstrip (P : char -> Prop) s : Forall P s -> Forall P (lstrip s).
Proof.
  induction 1 as [|c s Hc Hs IH]; cbn; [constructor|].
  destruct (isspace c); [exact IH | constructor; assumption].
Qed.

Lemma Forall_strip (P : char -> Prop) s : Forall P s -> Forall P (strip s).
Proof.
  intros H. unfold strip, rstrip.
  apply Forall_rev, Forall_lstrip, Forall_rev, Forall_lstrip, H.
Qed.

Lemma split_on_pieces delim s :
  Forall (Forall (fun c => delim c = false)) (split_on delim s).
Proof.
  induction s as [|c s IH]; cbn; [repeat constructor|].
  destruct (delim c) eqn:Hc; [constructor; [constructor | exact IH]|].
  destruct (split_on delim s) as [|p ps]; [repeat constructor; exact Hc|].
  inversion IH; subst. constructor; [constructor|]; assumption.
Qed.

Lemma split_points_clean s :
  Forall clean_point
    (map strip (filter (fun point => nonempty (strip point))
                       (split_on bullet_delimiter s))).
Proof.
  pose proof (split_on_pieces bullet_delimiter s) as H.
  induction H as [|p ps Hp Hps IH]; cbn; [constructor|].
  destruct (nonempty (strip p)) eqn:Hn; cbn [map]; [|exact IH].
  constructor; [|exact IH]. split; [|split].
  - destruct (strip p); [discriminate Hn | discriminate].
  - apply strip_idem.
  - apply Forall_strip, Hp.
Qed.

Lemma bullets_loop_source content keys :
  bullets_loop content keys
  = match bullet_source content keys with
    | Some (VList l) => map (fun item => strip (str_ item)) (filter truthy l)
    | Some (VStr s) =>
      map strip (filter (fun point => nonempty (strip point))
                        (split_on bullet_delimiter s))
    | _ => []
    end.
Proof.
  induction keys as [|key rest IH]; [reflexivity|].
  cbn [bullets_loop bullet_source].
  destruct (lookup key content) as [v|]; [|exact IH].
  destruct (truthy v) eqn:Ht; [|exact IH].
  destruct v; cbn [andb orb is_str]; try exact IH; reflexivity.
Qed.

(** C9, amended: in the envelope of a response that passes validation,
    [product.features] is the ordered sequence of extracted points and
    [product.bullet_points] is one string, the points each behind a
    bullet glyph and a space and joined by line feeds.  The points come
    from the first alternate key bound to a truthy list or string: for a
    list, its truthy elements, stringified and trimmed, in source order;
    for a string, the pieces between the delimiters, trimmed, empties
    dropped, so that each point is non-empty, trimmed and free of
    delimiters. *)
Theorem bullet_points_fields now response c :
  _validate_response_structure response = Ok tt ->
  content_of response = Ok c ->
  exists envelope,
    extract_and_format_product_data now response = Ok envelope
    /\ product_field "features" envelope
       = Some (VList (map VStr (_extract_bullet_points c)))
    /\ product_field "bullet_points" envelope
       = Some (VStr (join [10%N]
                          (map (fun point => bullet_prefix ++ point)
                               (_extract_bullet_points c))))
    /\ match bullet_source c bullet_keys with
       | Some (VList l) =>
         _extract_bullet_points c
         = map (fun item => strip (str_ item)) (filter truthy l)
       | Some (VStr s) =>
         _extract_bullet_points c
         = map strip (filter (fun point => nonempty (strip point))
                             (split_on bullet_delimiter s))
         /\ Forall clean_point (_extract_bullet_points c)
       | _ => _extract_bullet_points c = []
       end.
Proof.
  intros Hv Hc. exists (envelope_of (extracted c) now None).
  unfold extract_and_format_product_data.
  rewrite (extracted_product_data_ok _ _ _ Hv Hc), clean_json_typed.
  split; [reflexivity|]. split; [reflexivity|]. split; [reflexivity|].
  unfold _extract_bullet_points. rewrite bullets_loop_source.
  destruct (bullet_source c bullet_keys) as [[| | | |s|l|]|]; try reflexivity.
  split; [reflexivity | apply split_points_clean].
Qed.

Lemma bullet_points_fields_witness :
  _validate_response_structure featured_payload = Ok tt
  /\ content_of featured_payload
     = Ok [(lit "bullet_points", VList [VStr (lit "Fast"); VStr (lit "Light")])]
  /\ exists envelope,
       extract_and_format_product_data (lit "2024-01-15 10:30:00")
         featured_payload = Ok envelope
       /\ product_field "features" envelope
          = Some (VList [VStr (lit "Fast"); VStr (lit "Light")]).
Proof.
  split; [reflexivity|]. split; [reflexivity|].
  destruct (bullet_points_fields (lit "2024-01-15 10:30:00") featured_payload
              [(lit "bullet_points",
                VList [VStr (lit "Fast"); VStr (lit "Light")])]
              eq_refl eq_refl) as (envelope & He & Hf & _).
  exists envelope. split; [exact He | exact Hf].
Defined.

(** C9 as stated fails: for a list of two points, [product.bullet_points]
    is a single string, not the sequence; the sequence is under
    [product.features]. *)
Lemma bullet_points_is_text :
  exists envelope,
    extract_and_format_product_data (lit "2024-01-15 10:30:00")
      featured_payload = Ok envelope
    /\ product_field "bullet_points" envelope
       = Some (VStr ([0x2022; 32] ++ lit "Fast" ++ [10; 0x2022; 32]
                     ++ lit "Light")%N)
    /\ product_field "bullet_points" envelope
       <> Some (VList [VStr (lit "Fast"); VStr (lit "Light")])
    /\ product_field "features" envelope
       = Some (VList [VStr (lit "Fast"); VStr (lit "Light")]).
Proof.
  eexists. split; [vm_compute; reflexivity|].
  split; [reflexivity|]. split; [discriminate | reflexivity].
Qed.

(** ** C10: falsy values under an alternate key *)

Lemma str_eqb_eq a b : str_eqb a b = true <-> a = b.
Proof.
  revert b. induction a as [|x a IH]; intros [|y b]; cbn; split;
    try discriminate; try reflexivity.
  - intros H. apply andb_true_iff in H as [Hx Ha].
    apply N.eqb_eq in Hx. apply IH in Ha. congruence.
  - intros [= -> ->]. rewrite N.eqb_refl. apply IH. reflexivity.
Qed.

Lemma str_eqb_trans_false k k1 k2 :
  str_eqb k k1 = true -> str_eqb k2 k1 = false -> str_eqb k2 k = false.
Proof.
  intros H1 H2. apply str_eqb_eq in H1. subst k1. exact H2.
Qed.

Lemma lookup_delitem key k content :
  lookup k (delitem key content)
  = if str_eqb key k then None else lookup k content.
Proof.
  induction content as [|[k' v'] content IH]; cbn.
  - destruct (str_eqb key k); reflexivity.
  - destruct (str_eqb key k') eqn:E1.
    + rewrite IH. destruct (str_eqb key k) eqn:E2; [reflexivity|].
      apply str_eqb_eq in E1. subst k'.
      destruct (str_eqb k key) eqn:E3; [|reflexivity].
      apply str_eqb_eq in E3. subst k.
      rewrite (proj2 (str_eqb_eq key key) eq_refl) in E2. discriminate.
    + cbn. destruct (str_eqb k k') eqn:E3.
      * apply str_eqb_eq in E3. subst k'. rewrite E1. reflexivity.
      * exact IH.
Qed.

(** One step of an extractor loop at a key of the shortened dictionary. *)
Ltac loop_step content key v Hl IH :=
  match goal with
  | |- context [lookup ?k (delitem key content)] =>
    rewrite (lookup_delitem key k content);
    destruct (str_eqb key k) eqn:Ek;
    [ apply str_eqb_eq in Ek; subst k; rewrite Hl | ]
  end.

Section Falsy.

Variables (content : dict) (key : str) (v : value).
Hypothesis Hl : lookup key content = Some v.

Lemma text_skips_falsy keys :
  truthy v = false ->
  _safe_extract_text content keys
  = _safe_extract_text (delitem key content) keys.
Proof.
  intros Hf. induction keys as [|k rest IH]; [reflexivity|].
  cbn [_safe_extract_text]. loop_step content key v Hl IH.
  - rewrite Hf. exact IH.
  - rewrite IH. reflexivity.
Qed.

Lemma price_skips_falsy keys :
  truthy v = false ->
  price_loop content keys = price_loop (delitem key content) keys.
Proof.
  intros Hf. induction keys as [|k rest IH]; [reflexivity|].
  cbn [price_loop]. loop_step content key v Hl IH.
  - rewrite Hf. exact IH.
  - rewrite IH. reflexivity.
Qed.

Lemma bullets_skip_falsy keys :
  truthy v = false ->
  bullets_loop content keys = bullets_loop (delitem key content) keys.
Proof.
  intros Hf. induction keys as [|k rest IH]; [reflexivity|].
  cbn [bullets_loop]. loop_step content key v Hl IH.
  - rewrite Hf. exact IH.
  - rewrite IH. reflexivity.
Qed.

Lemma images_skip_falsy keys :
  truthy v = false ->
  images_loop content keys = images_loop (delitem key content) keys.
Proof.
  intros Hf. induction keys as [|k rest IH]; [reflexivity|].
  cbn [images_loop]. loop_step content key v Hl IH.
  - rewrite Hf. exact IH.
  - rewrite IH. reflexivity.
Qed.

Lemma specs_skip_falsy keys :
  truthy v = false ->
  specs_loop content keys = specs_loop (delitem key content) keys.
Proof.
  intros Hf. induction keys as [|k rest IH]; [reflexivity|].
  cbn [specs_loop]. loop_step content key v Hl IH.
  - rewrite Hf. exact IH.
  - rewrite IH. reflexivity.
Qed.

Lemma rating_passes_over keys :
  passed_over v = true ->
  rating_loop content keys = rating_loop (delitem key content) keys.
Proof.
  intros Hp. induction keys as [|k rest IH]; [reflexivity|].
  cbn [rating_loop]. loop_step content key v Hl IH.
  - destruct v as [| | | | |[|]|[|]]; try discriminate; exact IH.
  - rewrite IH. reflexivity.
Qed.

Lemma reviews_pass_over keys :
  passed_over v = true ->
  reviews_loop content keys = reviews_loop (delitem key content) keys.
Proof.
  intros Hp. induction keys as [|k rest IH]; [reflexivity|].
  cbn [reviews_loop]. loop_step content key v Hl IH.
  - destruct v as [| | | | |[|]|[|]]; try discriminate; exact IH.
  - rewrite IH. reflexivity.
Qed.

End Falsy.

Lemma zero_is_extracted content key rest :
  lookup key content = Some (VInt 0) ->
  rating_loop content (key :: rest) = lit "0"
  /\ reviews_loop content (key :: rest) = Ok (lit "0").
Proof.
  intros H. cbn [rating_loop reviews_loop]. rewrite H. split; reflexivity.
Qed.

Lemma populated_nonneg s : (0 <= populated s)%Z.
Proof. unfold populated. destruct (nonempty s); lia. Qed.

Lemma payload_normalized now c :
  extract_and_format_product_data now (payload c)
  = Ok (envelope_of (extracted c) now None).
Proof.
  unfold extract_and_format_product_data.
  rewrite (extracted_product_data_ok now (payload c) c eq_refl eq_refl).
  apply clean_json_typed.
Qed.

(** C10, amended: a key bound to a falsy value is treated as absent by
    the text, price, bullet-point, image and specification extractors.
    The rating and reviews-count extractors treat it as absent when the
    value is [None], an empty list or an empty mapping, and return at
    the key when it is an empty string or a number: a numeric 0 is
    extracted as [0].  So a numeric price 0 alone leaves the default
    [0.00] with nothing counted, while a numeric rating or reviews count
    0 under the first alternate key is extracted as [0] and counted in
    [fields_extracted]. *)
Theorem falsy_values content key v :
  lookup key content = Some v ->
  truthy v = false ->
  (forall keys, _safe_extract_text content keys
                = _safe_extract_text (delitem key content) keys)
  /\ _extract_and_format_price content
     = _extract_and_format_price (delitem key content)
  /\ _extract_bullet_points content
     = _extract_bullet_points (delitem key content)
  /\ _extract_images content = _extract_images (delitem key content)
  /\ _extract_specifications content
     = _extract_specifications (delitem key content)
  /\ (if passed_over v
      then _extract_rating content = _extract_rating (delitem key content)
           /\ _extract_reviews_count content
              = _extract_reviews_count (delitem key content)
      else forall rest,
          rating_loop content (key :: rest) = str_ v
          /\ reviews_loop content (key :: rest)
             = match v with
               | VStr _ => Ok []
               | _ => n <- int_of_number v ;; Ok (str_of_Z n)
               end)
  /\ (v = VInt 0 ->
      forall rest,
        rating_loop content (key :: rest) = lit "0"
        /\ reviews_loop content (key :: rest) = Ok (lit "0"))
  /\ (forall now,
        exists envelope,
          extract_and_format_product_data now
            (payload [(lit "price", VInt 0)]) = Ok envelope
          /\ product_field "price" envelope = Some (VStr (lit "0.00"))
          /\ metadata_field "fields_extracted" envelope = Some (VInt 0))
  /\ (forall now c,
        lookup (lit "rating") c = Some (VInt 0)
        \/ lookup (lit "reviews_count") c = Some (VInt 0) ->
        exists envelope n,
          extract_and_format_product_data now (payload c) = Ok envelope
          /\ (lookup (lit "rating") c = Some (VInt 0) ->
              product_field "rating" envelope = Some (VStr (lit "0"))
              /\ _extract_rating c = lit "0")
          /\ (lookup (lit "reviews_count") c = Some (VInt 0) ->
              product_field "reviews_count" envelope = Some (VStr (lit "0"))
              /\ _extract_reviews_count c = Ok (lit "0"))
          /\ metadata_field "fields_extracted" envelope = Some (VInt n)
          /\ (1 <= n)%Z).
Proof.
  intros Hl Hf.
  split; [intros keys; apply (text_skips_falsy _ _ _ Hl _ Hf)|].
  split; [apply (price_skips_falsy _ _ _ Hl _ Hf)|].
  split; [apply (bullets_skip_falsy _ _ _ Hl _ Hf)|].
  split; [apply (images_skip_falsy _ _ _ Hl _ Hf)|].
  split; [apply (specs_skip_falsy _ _ _ Hl _ Hf)|].
  split.
  { destruct (passed_over v) eqn:Hp.
    - split; [apply (rating_passes_over _ _ _ Hl _ Hp)
             | apply (reviews_pass_over _ _ _ Hl _ Hp)].
    - intros rest. cbn [rating_loop reviews_loop]. rewrite Hl.
      destruct v as [| | | |[|]|[|]|[|]]; try discriminate;
        split; reflexivity. }
  split.
  { intros -> rest. apply zero_is_extracted, Hl. }
  split.
  { intros now. eexists. rewrite payload_normalized.
    split; [reflexivity|]. split; reflexivity. }
  intros now c Hc. rewrite payload_normalized.
  assert (Hr : lookup (lit "rating") c = Some (VInt 0) ->
               _extract_rating c = lit "0").
  { intros H. apply (zero_is_extracted _ _ _ H). }
  assert (Hn : lookup (lit "reviews_count") c = Some (VInt 0) ->
               _extract_reviews_count c = Ok (lit "0")).
  { intros H. apply (zero_is_extracted _ _ _ H). }
  eexists. eexists. split; [reflexivity|].
  split.
  { intros H. split; [|exact (Hr H)].
    unfold product_field, envelope_of, extracted. cbn [f_rating].
    rewrite (Hr H). reflexivity. }
  split.
  { intros H. split; [|exact (Hn H)].
    unfold product_field, envelope_of, extracted. cbn [f_reviews_count].
    rewrite (Hn H). reflexivity. }
  split; [reflexivity|].
  pose proof (populated_nonneg (f_name (extracted c))).
  pose proof (populated_nonneg (f_brand (extracted c))).
  pose proof (populated_nonneg (f_price (extracted c))).
  pose proof (populated_nonneg (f_rating (extracted c))).
  pose proof (populated_nonneg (f_reviews_count (extracted c))).
  pose proof (populated_nonneg (f_description (extracted c))).
  assert (populated (f_rating (extracted c)) = 1
          \/ populated (f_reviews_count (extracted c)) = 1)%Z as Hone.
  { destruct Hc as [Hz|Hz]; [left | right]; unfold extracted;
      cbn [f_rating f_reviews_count];
      [rewrite (Hr Hz) | rewrite (Hn Hz)]; reflexivity. }
  lia.
Qed.

Lemma falsy_values_witness :
  lookup (lit "price") [(lit "price", VInt 0)] = Some (VInt 0)
  /\ truthy (VInt 0) = false
  /\ _extract_and_format_price [(lit "price", VInt 0)]
     = _extract_and_format_price (delitem (lit "price") [(lit "price", VInt 0)])
  /\ forall rest,
       rating_loop [(lit "price", VInt 0)] (lit "price" :: rest) = lit "0"
       /\ reviews_loop [(lit "price", VInt 0)] (lit "price" :: rest)
          = Ok (lit "0").
Proof.
  split; [reflexivity|]. split; [reflexivity|].
  destruct (falsy_values [(lit "price", VInt 0)] (lit "price") (VInt 0)
              eq_refl eq_refl) as (_ & Hp & _ & _ & _ & _ & Hz & _).
  split; [exact Hp | exact (Hz eq_refl)].
Defined.

(** C10 as stated fails: the rating extractor passes over an empty list
    and the reviews-count extractor over an empty mapping, values that
    are not [None], and take the next alternate key. *)
Lemma rating_skips_more_than_none :
  _extract_rating [(lit "rating", VList []);
                   (lit "average_rating", VStr (lit "4.5"))]
  = lit "4.5"
  /\ _extract_rating [(lit "average_rating", VStr (lit "4.5"))] = lit "4.5"
  /\ _extract_reviews_count [(lit "reviews_count", VDict []);
                             (lit "review_count", VInt 12)]
     = Ok (lit "12")
  /\ _extract_reviews_count [(lit "review_count", VInt 12)] = Ok (lit "12").
Proof. repeat split; reflexivity. Qed.

(** * Further properties *)

(** ** Identifiers in a URL *)

Lemma asin_shape_length a : asin_shape a -> List.length a = 10%nat.
Proof. intros (body & -> & Hlen & _). cbn. rewrite Hlen. reflexivity. Qed.

Lemma asin_shape_valid a : asin_shape a -> _validate_asin a = true.
Proof.
  intros H. unfold _validate_asin.
  pose proof (match_asin_complete a [] H) as Hm. rewrite app_nil_r in Hm.
  rewrite Hm. rewrite skipn_all2; [reflexivity|].
  rewrite (asin_shape_length a H). apply Nat.le_refl.
Qed.

Lemma sample_asin_shape : asin_shape (lit "B08N5WRWNW").
Proof.
  exists (lit "08N5WRWNW"). split; [reflexivity|]. split; [reflexivity|].
  repeat constructor.
Qed.

Lemma re_search_group_occurs marker url a :
  re_search_group marker url = Some a ->
  asin_shape a /\ exists before after, url = before ++ marker ++ a ++ after.
Proof.
  revert a. induction url as [|c url IH]; intros a; rewrite re_search_group_unfold.
  - destruct (startswith marker []) eqn:Hs; [|discriminate].
    destruct (match_asin (skipn (List.length marker) [])) eqn:Hm;
      [|discriminate].
    intros [= <-]. apply startswith_app in Hs.
    destruct (match_asin_shape _ _ Hm) as [Hshape [after Ha]].
    split; [exact Hshape|]. exists [], after. cbn [app].
    rewrite <- Ha. exact Hs.
  - destruct (startswith marker (c :: url)) eqn:Hs.
    + destruct (match_asin (skipn (List.length marker) (c :: url))) eqn:Hm.
      * intros [= <-]. apply startswith_app in Hs.
        destruct (match_asin_shape _ _ Hm) as [Hshape [after Ha]].
        split; [exact Hshape|]. exists [], after. cbn [app].
        rewrite <- Ha. exact Hs.
      * intros H. destruct (IH a H) as (Hshape & before & after & ->).
        split; [exact Hshape|]. exists (c :: before), after. reflexivity.
    + intros H. destruct (IH a H) as (Hshape & before & after & ->).
      split; [exact Hshape|]. exists (c :: before), after. reflexivity.
Qed.

(** The validation of a captured group never rejects it: the loop over
    the patterns returns the first capture. *)
Lemma first_valid_asin_cons pattern rest url :
  first_valid_asin (pattern :: rest) url
  = match re_search_group pattern url with
    | Some a => Some a
    | None => first_valid_asin rest url
    end.
Proof.
  cbn [first_valid_asin].
  destruct (re_search_group pattern url) as [a|] eqn:Hs; [|reflexivity].
  destruct (re_search_group_occurs _ _ _ Hs) as [Hshape _].
  rewrite (asin_shape_valid a Hshape). reflexivity.
Qed.

Lemma first_valid_asin_captured patterns url :
  (exists a, first_valid_asin patterns url = Some a)
  <-> exists marker, In marker patterns /\ captures marker url.
Proof.
  induction patterns as [|p ps IH].
  - split; [intros [a H]; discriminate | intros (m & [] & _)].
  - rewrite first_valid_asin_cons. split.
    + intros [a H]. destruct (re_search_group p url) as [b|] eqn:Hs.
      * exists p. split; [left; reflexivity|].
        eapply re_search_group_sound, Hs.
      * destruct (proj1 IH (ex_intro _ a H)) as (m & Hin & Hc).
        exists m. split; [right; exact Hin | exact Hc].
    + intros (m & [<-|Hin] & Hc).
      * destruct (re_search_group_complete _ _ Hc) as [a ->]. eauto.
      * destruct (re_search_group p url); [eauto|].
        apply IH. eauto.
Qed.

(** X1: [_extract_asin_from_url] returns an identifier exactly when one
    of the four URL shapes captures one; otherwise it raises. *)
Theorem identifier_found_iff_captured url :
  (exists asin, _extract_asin_from_url url = Ok asin)
  <-> exists marker, In marker asin_patterns /\ captures marker url.
Proof.
  rewrite <- first_valid_asin_captured. unfold _extract_asin_from_url.
  destruct (first_valid_asin asin_patterns url) as [a|]; split.
  - intros _. eauto.
  - intros _. eauto.
  - intros [a H]. discriminate.
  - intros [a H]. discriminate.
Qed.

Lemma first_valid_asin_occurs patterns url a :
  first_valid_asin patterns url = Some a ->
  asin_shape a
  /\ exists marker before after,
       In marker patterns /\ url = before ++ marker ++ a ++ after.
Proof.
  induction patterns as [|p ps IH]; [discriminate|].
  rewrite first_valid_asin_cons.
  destruct (re_search_group p url) as [b|] eqn:Hs.
  - intros [= <-].
    destruct (re_search_group_occurs _ _ _ Hs) as (Hshape & before & after & ->).
    split; [exact Hshape|]. exists p, before, after.
    split; [left; reflexivity | reflexivity].
  - intros H. destruct (IH H) as (Hshape & m & before & after & Hin & ->).
    split; [exact Hshape|]. exists m, before, after.
    split; [right; exact Hin | reflexivity].
Qed.

(** X2: an identifier [_extract_asin_from_url] returns is well formed:
    a [B] and nine characters of [[0-9A-Z]], accepted by
    [_validate_asin], and it stands in the URL right behind one of the
    four markers. *)
Theorem extracted_identifier_wellformed url asin :
  _extract_asin_from_url url = Ok asin ->
  asin_shape asin
  /\ _validate_asin asin = true
  /\ exists marker before after,
       In marker asin_patterns /\ url = before ++ marker ++ asin ++ after.
Proof.
  unfold _extract_asin_from_url.
  destruct (first_valid_asin asin_patterns url) as [a|] eqn:H; [|discriminate].
  intros [= <-]. destruct (first_valid_asin_occurs _ _ _ H) as [Hshape Hocc].
  split; [exact Hshape|]. split; [apply asin_shape_valid, Hshape | exact Hocc].
Qed.

Lemma extracted_identifier_wellformed_witness :
  _extract_asin_from_url product_url = Ok (lit "B08N5WRWNW")
  /\ asin_shape (lit "B08N5WRWNW")
  /\ _validate_asin (lit "B08N5WRWNW") = true.
Proof.
  split; [reflexivity|].
  destruct (extracted_identifier_wellformed product_url (lit "B08N5WRWNW")
              eq_refl) as (Hshape & Hvalid & _).
  split; [exact Hshape | exact Hvalid].
Defined.

Lemma gp_product_is_product url :
  re_search_group (lit "/product/") url = None ->
  re_search_group (lit "/gp/product/") url = None.
Proof.
  intros H. apply not_captured_none. apply not_captured_none in H.
  intros (before & asin & after & -> & Hshape). apply H.
  exists (before ++ lit "/gp"), asin, after. split; [|exact Hshape].
  rewrite <- app_assoc. reflexivity.
Qed.

(** X3: the identifier is that of the leftmost [/dp/] capture, else of
    the leftmost [/product/] capture, else of the leftmost [asin=]
    capture; the pattern [/gp/product/] never decides, since whatever it
    captures [/product/] captures before it. *)
Theorem identifier_priority url :
  _extract_asin_from_url url
  = match re_search_group (lit "/dp/") url with
    | Some asin => Ok asin
    | None =>
      match re_search_group (lit "/product/") url with
      | Some asin => Ok asin
      | None =>
        match re_search_group (lit "asin=") url with
        | Some asin => Ok asin
        | None =>
          raise InvalidASINError
                (lit "Invalid or missing ASIN in URL: " ++ url)
        end
      end
    end.
Proof.
  unfold _extract_asin_from_url, asin_patterns.
  rewrite !first_valid_asin_cons.
  destruct (re_search_group (lit "/dp/") url); [reflexivity|].
  destruct (re_search_group (lit "/product/") url) eqn:Hp; [reflexivity|].
  rewrite (gp_product_is_product url Hp).
  destruct (re_search_group (lit "asin=") url); reflexivity.
Qed.

Lemma re_search_group_skip marker c url :
  startswith marker (c :: url) = false ->
  re_search_group marker (c :: url) = re_search_group marker url.
Proof. intros H. rewrite re_search_group_unfold, H. reflexivity. Qed.

Lemma re_search_group_here marker asin after :
  asin_shape asin ->
  re_search_group marker (marker ++ asin ++ after) = Some asin.
Proof.
  intros H. rewrite re_search_group_unfold.
  rewrite startswith_prefix, skipn_prefix, (match_asin_complete _ _ H).
  reflexivity.
Qed.

Lemma lookup_values k d v : lookup k d = Some v -> In v (map snd d).
Proof.
  induction d as [|[k' v'] d IH]; [discriminate|]. cbn.
  destruct (str_eqb k k'); [intros [= ->]; left; reflexivity|].
  intros H. right. apply IH, H.
Qed.

Lemma dp_url_identifier (domain asin after : str) :
  In (VStr domain) (VStr (lit "amazon.com") :: map snd domain_map) ->
  asin_shape asin ->
  re_search_group (lit "/dp/")
    (lit "https://www." ++ domain ++ lit "/dp/" ++ asin ++ after)
  = Some asin.
Proof.
  intros Hd Ha.
  pose proof (re_search_group_here (lit "/dp/") asin after Ha) as Hhere.
  cbn [map snd domain_map] in Hd.
  repeat (destruct Hd as [[= <-] | Hd];
          [vm_compute app;
           repeat (rewrite re_search_group_skip by reflexivity);
           exact Hhere|]).
  destruct Hd.
Qed.

(** X4: [build_amazon_url] and [_extract_asin_from_url] compose to the
    identity on identifiers, for every country code, known or not; and
    of a longer argument that begins with an identifier, the identifier
    alone is read back. *)
Theorem build_url_round_trip asin extra country :
  asin_shape asin ->
  _extract_asin_from_url (build_amazon_url (asin ++ extra) country) = Ok asin.
Proof.
  intros Ha. unfold build_amazon_url.
  assert (Hd : exists domain,
             match lookup (upper country) domain_map with
             | Some d => d
             | None => VStr (lit "amazon.com")
             end = VStr domain
             /\ In (VStr domain)
                   (VStr (lit "amazon.com") :: map snd domain_map)).
  { destruct (lookup (upper country) domain_map) as [d|] eqn:Hl.
    - pose proof (lookup_values _ _ _ Hl) as Hin.
      cbn [map snd domain_map] in Hin.
      repeat (destruct Hin as [<- | Hin];
              [eexists; split; [reflexivity | right; cbn; tauto]|]).
      destruct Hin.
    - eexists. split; [reflexivity | left; reflexivity]. }
  destruct Hd as (domain & -> & Hin). cbn [str_].
  unfold _extract_asin_from_url, asin_patterns.
  rewrite first_valid_asin_cons, (dp_url_identifier domain asin extra Hin Ha).
  reflexivity.
Qed.

Lemma build_url_round_trip_witness :
  asin_shape (lit "B08N5WRWNW")
  /\ _extract_asin_from_url
       (build_amazon_url (lit "B08N5WRWNW" ++ lit "?th=1") (lit "uk"))
     = Ok (lit "B08N5WRWNW").
Proof.
  split; [exact sample_asin_shape|].
  exact (build_url_round_trip (lit "B08N5WRWNW") (lit "?th=1") (lit "uk")
           sample_asin_shape).
Defined.

(** ** The retry loop *)





Ltac bounds_leaf :=
  cbn [fst posts sleeps filter flat_map app List.length Nat.sub rev
       ends_with_post nondecreasing fold_right In];
  unfold scheduled_sleep;
  repeat match goal with
         | |- context [is_rate_limit ?o] => destruct (is_rate_limit o)
         end;
  cbn; repeat split; try lia; try tauto;
  intros s Hs; repeat (destruct Hs as [<- | Hs]; [lia|]); destruct Hs.

Lemma retry_loop_bounds self up url geo :
  let trace := fst (retry_loop self up url geo [0; 1; 2]%nat None) in
  (posts trace <= 3)%nat
  /\ List.length (sleeps trace) = (posts trace - 1)%nat
  /\ nondecreasing (sleeps trace)
  /\ (fold_right Z.add 0 (sleeps trace) <= 6)%Z
  /\ ends_with_post trace
  /\ (forall s, In s (sleeps trace) -> (1 <= s <= 4)%Z).
Proof.
  cbn zeta. unfold retry_loop.
  destruct (retryable (up 0%nat)) eqn:R0.
  - destruct (handle_retryable 0 _ None R0 ltac:(lia)) as [l0 ->].
    destruct (retryable (up 1%nat)) eqn:R1.
    + destruct (handle_retryable 1 _ l0 R1 ltac:(lia)) as [l1 ->].
      destruct (retryable (up 2%nat)) eqn:R2.
      * rewrite (handle_last _ l1 R2).
        destruct (is_rate_limit (up 2%nat)); bounds_leaf.
      * destruct (handle_not_retryable 2 _ l1 R2) as (c & -> & Hn).
        destruct c; try discriminate; bounds_leaf.
    + destruct (handle_not_retryable 1 _ l0 R1) as (c & -> & Hn).
      destruct c; try discriminate; bounds_leaf.
  - destruct (handle_not_retryable 0 _ None R0) as (c & -> & Hn).
    destruct c; try discriminate; bounds_leaf.
Qed.

(** X6: whatever the scraper, the upstream and the URL, one fetch makes
    at most three calls, sleeps one time less than it calls (and not at
    all without a call), never ends on a sleep, never sleeps less long
    than the time before, waits between one and four seconds each time
    and at most six seconds in all. *)
Theorem backoff_bounds self up url geo :
  let trace := fst (_make_request_with_retry self up url geo) in
  (posts trace <= 3)%nat
  /\ List.length (sleeps trace) = (posts trace - 1)%nat
  /\ nondecreasing (sleeps trace)
  /\ (fold_right Z.add 0 (sleeps trace) <= 6)%Z
  /\ ends_with_post trace
  /\ (forall s, In s (sleeps trace) -> (1 <= s <= 4)%Z).
Proof.
  unfold _make_request_with_retry.
  destruct (_validate_credentials self);
    [|cbn; repeat split; try lia; tauto].
  destruct (_extract_asin_from_url url);
    [|cbn; repeat split; try lia; tauto].
  apply retry_loop_bounds.
Qed.

(** ** Responses and the envelope *)

(** X7: the error marker [_make_request] returns for an exception is
    read back by [_validate_response_structure] as the same exception,
    class and text, when it is one of the four the marker names;
    any other comes back as [DataExtractionError] around its text. *)
Theorem error_marker_round_trip self up url geo e :
  snd (_make_request_with_retry self up url geo) = Error e ->
  _validate_response_structure (snd (_make_request self up url geo))
  = Error (if pipeline_error (class_of e) then e
           else Exc DataExtractionError
                    (lit "API returned error: " ++ str_of e)).
Proof.
  unfold _make_request.
  destruct (_make_request_with_retry self up url geo) as [trace r].
  cbn [snd]. intros ->. destruct e as [c msg].
  destruct c; reflexivity.
Qed.

Lemma error_marker_round_trip_witness :
  exists e,
    snd (_make_request_with_retry test_scraper always_throttled product_url
           DEFAULT_GEO_LOCATION) = Error e
    /\ class_of e = RateLimitError
    /\ _validate_response_structure
         (snd (_make_request test_scraper always_throttled product_url
                 DEFAULT_GEO_LOCATION)) = Error e.
Proof.
  eexists. split; [vm_compute; reflexivity|]. split; [reflexivity|].
  exact (error_marker_round_trip test_scraper always_throttled product_url
           DEFAULT_GEO_LOCATION _ eq_refl).
Defined.

(** X8: the responses that pass structural validation are exactly the
    dictionaries without an [error] key whose [results] is a list that
    begins with a dictionary whose [content] is a dictionary. *)
Theorem valid_structure response :
  _validate_response_structure response = Ok tt
  <-> exists d first rest c,
        response = VDict d
        /\ lookup (lit "error") d = None
        /\ lookup (lit "results") d = Some (VList (VDict first :: rest))
        /\ lookup (lit "content") first = Some (VDict c).
Proof.
  split.
  - unfold _validate_response_structure.
    destruct response as [| | | | |l|d]; try discriminate.
    destruct (lookup (lit "error") d) eqn:He.
    { repeat match goal with
             | |- context [if ?b then _ else _] => destruct b
             end; discriminate. }
    destruct (lookup (lit "results") d) as [[| | | | |[|result rest]|]|] eqn:Hr;
      try discriminate.
    destruct result as [| | | |s|l|first]; try discriminate.
    + cbn [py_in bind]. destruct (contains (lit "content") s); discriminate.
    + cbn [py_in bind].
      destruct (existsb (fun x => eq_str x (lit "content")) l); discriminate.
    + cbn [py_in bind subscript]. unfold getitem.
      destruct (lookup (lit "content") first) as [v|] eqn:Hc;
        cbn [negb bind]; [|discriminate].
      destruct v as [| | | | | |c]; try discriminate. intros _.
      exists d, first, rest, c. repeat split; assumption.
  - intros (d & first & rest & c & -> & He & Hr & Hc).
    unfold _validate_response_structure.
    rewrite He, Hr. cbn [py_in bind subscript]. unfold getitem.
    rewrite Hc. reflexivity.
Qed.

Lemma populated_range s : (0 <= populated s <= 1)%Z.
Proof. unfold populated. destruct (nonempty s); lia. Qed.

(** X9: the count [metadata.fields_extracted] lies between 0 and 6, and
    is 0 whenever structural validation fails. *)
Theorem fields_extracted_range now response :
  exists envelope n,
    extract_and_format_product_data now response = Ok envelope
    /\ metadata_field "fields_extracted" envelope = Some (VInt n)
    /\ (0 <= n <= 6)%Z
    /\ match _validate_response_structure response with
       | Ok _ => True
       | Error _ => n = 0%Z
       end.
Proof.
  destruct (normalize_total now response) as (f & error & -> & Hcase).
  eexists. eexists. split; [reflexivity|]. split; [reflexivity|].
  split.
  - pose proof (populated_range (f_name f)).
    pose proof (populated_range (f_brand f)).
    pose proof (populated_range (f_price f)).
    pose proof (populated_range (f_rating f)).
    pose proof (populated_range (f_reviews_count f)).
    pose proof (populated_range (f_description f)). lia.
  - destruct (_validate_response_structure response); [exact I|].
    destruct Hcase as [_ ->]. reflexivity.
Qed.

(** X10: when structural validation fails nothing of the response
    reaches the envelope: every field has its default, whatever else
    the response holds, and only the clock reading and the error text
    vary. *)
Theorem failed_extraction_defaults now response e :
  _validate_response_structure response = Error e ->
  extract_and_format_product_data now response
  = Ok (VDict
          [(lit "product",
            VDict
              [(lit "name", VStr (lit "Unknown"));
               (lit "brand", VStr (lit "Unknown"));
               (lit "price", VStr (lit "0.00"));
               (lit "rating", VStr (lit "0"));
               (lit "reviews_count", VStr (lit "0"));
               (lit "description", VStr []);
               (lit "bullet_points", VStr []);
               (lit "features", VList []);
               (lit "images", VList []);
               (lit "specifications", VDict []);
               (lit "availability", VStr []);
               (lit "url", VStr []);
               (lit "scraped_at", VStr now)]);
           (lit "metadata",
            VDict
              [(lit "extraction_successful", VBool false);
               (lit "error_message", VStr (error_text e));
               (lit "fields_extracted", VInt 0)])]).
Proof.
  intros Hv. unfold extract_and_format_product_data.
  rewrite (extracted_product_data_error _ _ _ Hv), clean_json_typed.
  reflexivity.
Qed.

Lemma failed_extraction_defaults_witness :
  exists e envelope,
    _validate_response_structure
      (VDict [(lit "title", VStr (lit "X"))]) = Error e
    /\ extract_and_format_product_data (lit "2024-01-15 10:30:00")
         (VDict [(lit "title", VStr (lit "X"))]) = Ok envelope
    /\ product_field "name" envelope = Some (VStr (lit "Unknown")).
Proof.
  eexists. eexists. split; [reflexivity|]. split.
  - exact (failed_extraction_defaults (lit "2024-01-15 10:30:00")
             (VDict [(lit "title", VStr (lit "X"))]) _ eq_refl).
  - reflexivity.
Defined.

Lemma scrape_product_envelope self up now url geo :
  exists f error,
    snd (scrape_product self up now url geo)
    = Ok (envelope_of (with_url f url) now error).
Proof.
  unfold scrape_product.
  destruct (_make_request self up url geo) as [trace response]. cbn [snd].
  destruct (normalize_total now response) as (f & error & -> & _).
  cbn [bind]. rewrite set_product_url_typed. eauto.
Qed.

(** X11: the [url] of the product [scrape_product] returns is the URL
    it was called with, whatever the response offers under its URL keys
    and also when the fetch failed. *)
Theorem product_url_is_requested self up now url geo :
  exists envelope,
    snd (scrape_product self up now url geo) = Ok envelope
    /\ product_field "url" envelope = Some (VStr url).
Proof.
  destruct (scrape_product_envelope self up now url geo) as (f & error & ->).
  eexists. split; reflexivity.
Qed.

(** ** Field extractors *)

Lemma str_eqb_refl k : str_eqb k k = true.
Proof. apply str_eqb_eq. reflexivity. Qed.









Lemma lookup_setitem k v d : lookup k (setitem k v d) = Some v.
Proof.
  induction d as [|[k' v'] d IH]; cbn.
  - rewrite str_eqb_refl. reflexivity.
  - destruct (str_eqb k k') eqn:E; cbn; rewrite E; [reflexivity | exact IH].
Qed.

Lemma contains_colon k v : contains [58%N] (k ++ 58%N :: v) = true.
Proof.
  induction k as [|c k IH]; [reflexivity|].
  cbn [app contains]. rewrite IH. apply orb_true_r.
Qed.

Lemma split_once_colon k v :
  ~ In 58%N k -> split_once 58%N (k ++ 58%N :: v) = [k; v].
Proof.
  induction k as [|c k IH]; intros H; [reflexivity|].
  cbn [app split_once].
  destruct (N.eqb_spec c 58%N) as [->|Hc]; [elim H; left; reflexivity|].
  rewrite IH; [reflexivity|]. intros Hin. apply H. right. exact Hin.
Qed.

(** X13: in a list of specifications the last item decides: the text
    [key: value] at the end of the list binds the trimmed key to the
    trimmed value, whatever the items before it bound the key to. *)
Theorem specifications_last_wins content earlier k v :
  ~ In 58%N k ->
  lookup (lit "specifications") content
  = Some (VList (earlier ++ [VStr (k ++ [58%N] ++ v)])) ->
  lookup (strip k) (_extract_specifications content) = Some (VStr (strip v)).
Proof.
  intros Hk Hl. unfold _extract_specifications, spec_keys.
  cbn [specs_loop]. rewrite Hl.
  replace (truthy (VList (earlier ++ [VStr (k ++ [58%N] ++ v)]))) with true
    by (destruct earlier; reflexivity).
  rewrite fold_left_app. cbn [fold_left merge_spec_item app].
  rewrite contains_colon, (split_once_colon k v Hk).
  apply lookup_setitem.
Qed.

Lemma specifications_last_wins_witness :
  ~ In 58%N (lit "Color")
  /\ lookup (lit "Color")
       (_extract_specifications
          [(lit "specifications",
            VList [VStr (lit "Color: Red"); VStr (lit "Color: Blue")])])
     = Some (VStr (lit "Blue")).
Proof.
  assert (Hk : ~ In 58%N (lit "Color"))
    by (vm_compute; intros H; repeat (destruct H as [H|H]; [discriminate H|]);
        exact H).
  split; [exact Hk|].
  exact (specifications_last_wins
           [(lit "specifications",
             VList [VStr (lit "Color: Red"); VStr (lit "Color: Blue")])]
           [VStr (lit "Color: Red")] (lit "Color") (lit " Blue") Hk eq_refl).
Defined.

Lemma strip_enclosed c d m :
  isspace c = false -> isspace d = false ->
  strip (c :: m ++ [d]) = c :: m ++ [d].
Proof.
  intros Hc Hd. unfold strip, rstrip. cbn [lstrip]. rewrite Hc.
  change (c :: m ++ [d]) with ((c :: m) ++ [d]).
  rewrite rev_app_distr. cbn [rev app lstrip]. rewrite Hd.
  cbn [rev]. rewrite rev_app_distr, rev_involutive. reflexivity.
Qed.

(** X14: what [_safe_extract_text] returns has no white space at either
    end, for a string as for the text of a list or a dictionary:
    trimming it again changes nothing. *)
Theorem text_is_trimmed content keys :
  strip (_safe_extract_text content keys) = _safe_extract_text content keys.
Proof.
  induction keys as [|key rest IH]; [reflexivity|].
  cbn [_safe_extract_text].
  destruct (lookup key content) as [v|]; [|exact IH].
  destruct (truthy v); [|exact IH].
  destruct v; try exact IH.
  - apply strip_idem.
  - cbn [str_ repr]. change (lit "[") with [91%N]. change (lit "]") with [93%N].
    cbn [app]. apply strip_enclosed; reflexivity.
  - cbn [str_ repr]. change (lit "{") with [123%N]. change (lit "}") with [125%N].
    cbn [app]. apply strip_enclosed; reflexivity.
Qed.

Lemma take_while_forallb f s : forallb f (take_while f s) = true.
Proof.
  induction s as [|c s IH]; [reflexivity|]. cbn [take_while].
  destruct (f c) eqn:E; [cbn [forallb]; rewrite E; exact IH | reflexivity].
Qed.

Lemma search_rating_numeric s :
  existsb isdigit s = true ->
  exists g, search_rating s = Some g /\ numeric_text g.
Proof.
  induction s as [|c s IH]; [discriminate|].
  cbn [existsb search_rating].
  destruct (isdigit c) eqn:Hc; [intros _ | exact IH].
  eexists. split; [reflexivity|].
  assert (Hw : take_while isdigit (c :: s) <> [])
    by (cbn [take_while]; rewrite Hc; discriminate).
  pose proof (take_while_forallb isdigit (c :: s)) as Hd.
  destruct (drop_while isdigit (c :: s)) as [|x t].
  { exists (take_while isdigit (c :: s)), []. auto. }
  destruct (N.eqb_spec x 46) as [->|Hx].
  - destruct (take_while isdigit t) as [|f fs] eqn:Hf.
    + exists (take_while isdigit (c :: s)), []. auto.
    + exists (take_while isdigit (c :: s)), (f :: fs).
      repeat split; try assumption.
      * rewrite <- Hf. apply take_while_forallb.
      * right. split; [discriminate | reflexivity].
  - exists (take_while isdigit (c :: s)), [].
    repeat split; try assumption. left.
    destruct x as [|p]; [reflexivity|].
    do 6 (destruct p as [p|p|]; try reflexivity).
    elim Hx. reflexivity.
Qed.

Lemma search_rating_none s :
  existsb isdigit s = false -> search_rating s = None.
Proof.
  induction s as [|c s IH]; [reflexivity|].
  cbn [existsb search_rating]. intros H.
  apply orb_false_iff in H as [-> H]. exact (IH H).
Qed.

Lemma rating_loop_text content key rest s :
  lookup key content = Some (VStr s) ->
  rating_loop content (key :: rest)
  = match search_rating s with
    | Some g => g
    | None => strip s
    end.
Proof. intros Hl. cbn [rating_loop]. rewrite Hl. reflexivity. Qed.

(** X15: of a textual rating with a digit in it [_extract_rating] keeps
    a number and nothing else: digits, with a dot and more digits or
    without; a text without a digit is returned trimmed. *)
Theorem rating_of_text content s :
  lookup (lit "rating") content = Some (VStr s) ->
  if existsb isdigit s then numeric_text (_extract_rating content)
  else _extract_rating content = strip s.
Proof.
  intros Hl. unfold _extract_rating, rating_keys.
  rewrite (rating_loop_text content _ _ s Hl).
  destruct (existsb isdigit s) eqn:E.
  - destruct (search_rating_numeric s E) as (g & -> & Hg). exact Hg.
  - rewrite (search_rating_none s E). reflexivity.
Qed.

Lemma rating_of_text_witness :
  lookup (lit "rating") [(lit "rating", VStr (lit "4.5 out of 5 stars"))]
  = Some (VStr (lit "4.5 out of 5 stars"))
  /\ numeric_text
       (_extract_rating [(lit "rating", VStr (lit "4.5 out of 5 stars"))]).
Proof.
  split; [reflexivity|].
  exact (rating_of_text [(lit "rating", VStr (lit "4.5 out of 5 stars"))]
           (lit "4.5 out of 5 stars") eq_refl).
Defined.

Lemma search_count_some s :
  existsb digit_or_comma s = true ->
  exists g, search_count s = Some g /\ forallb digit_or_comma g = true.
Proof.
  induction s as [|c s IH]; [discriminate|].
  cbn [existsb search_count].
  destruct (digit_or_comma c) eqn:Hc; [intros _ | exact IH].
  eexists. split; [reflexivity | apply take_while_forallb].
Qed.

Lemma search_count_none s :
  existsb digit_or_comma s = false -> search_count s = None.
Proof.
  induction s as [|c s IH]; [reflexivity|].
  cbn [existsb search_count]. intros H.
  apply orb_false_iff in H as [-> H]. exact (IH H).
Qed.

Lemma remove_comma_digits g :
  forallb digit_or_comma g = true ->
  forallb isdigit (remove_char 44%N g) = true.
Proof.
  induction g as [|c g IH]; [reflexivity|].
  cbn [forallb]. intros H. apply andb_true_iff in H as [Hc Hg].
  unfold remove_char in *. cbn [filter].
  destruct (N.eqb_spec c 44) as [->|Hn]; cbn [negb]; [exact (IH Hg)|].
  cbn [forallb]. rewrite (IH Hg), andb_true_r.
  unfold digit_or_comma in Hc. apply orb_true_iff in Hc as [Hc|Hc];
    [exact Hc|]. apply N.eqb_eq in Hc. contradiction.
Qed.

Lemma reviews_loop_text content key rest s :
  lookup key content = Some (VStr s) ->
  reviews_loop content (key :: rest)
  = match search_count s with
    | Some g => Ok (remove_char 44%N g)
    | None => Ok (strip s)
    end.
Proof. intros Hl. cbn [reviews_loop]. rewrite Hl. reflexivity. Qed.

(** X16: of a textual review count with a digit or a comma in it
    [_extract_reviews_count] keeps digits only, and no comma; a text
    without either is returned trimmed.  It does not raise. *)
Theorem reviews_count_of_text content s :
  lookup (lit "reviews_count") content = Some (VStr s) ->
  exists r, _extract_reviews_count content = Ok r
    /\ if existsb digit_or_comma s then forallb isdigit r = true
       else r = strip s.
Proof.
  intros Hl. unfold _extract_reviews_count, review_keys.
  rewrite (reviews_loop_text content _ _ s Hl).
  destruct (existsb digit_or_comma s) eqn:E.
  - destruct (search_count_some s E) as (g & -> & Hg).
    eexists. split; [reflexivity | apply remove_comma_digits, Hg].
  - rewrite (search_count_none s E). eexists. split; reflexivity.
Qed.

Lemma reviews_count_of_text_witness :
  lookup (lit "reviews_count")
         [(lit "reviews_count", VStr (lit "1,234 ratings"))]
  = Some (VStr (lit "1,234 ratings"))
  /\ exists r,
       _extract_reviews_count
         [(lit "reviews_count", VStr (lit "1,234 ratings"))] = Ok r
       /\ forallb isdigit r = true.
Proof.
  split; [reflexivity|].
  exact (reviews_count_of_text
           [(lit "reviews_count", VStr (lit "1,234 ratings"))]
           (lit "1,234 ratings") eq_refl).
Defined.

(** ** [_format_product_data] *)

Lemma present_setitem k k' v d : present k d -> present k (setitem k' v d).
Proof.
  unfold present. induction d as [|[k0 v0] d IH]; intros [x Hx];
    [discriminate|].
  cbn [lookup setitem] in *.
  destruct (str_eqb k' k0) eqn:E'; cbn [lookup];
    destruct (str_eqb k k0) eqn:E; eauto.
Qed.

Lemma present_setitem_same k v d : present k (setitem k v d).
Proof. exists v. apply lookup_setitem. Qed.

Lemma present_setdefault k k' v d : present k d -> present k (setdefault k' v d).
Proof.
  intros H. unfold setdefault.
  destruct (lookup k' d); [exact H | apply present_setitem, H].
Qed.

Lemma present_setdefault_same k v d : present k (setdefault k v d).
Proof.
  unfold setdefault. destruct (lookup k d) eqn:E;
    [eexists; exact E | apply present_setitem_same].
Qed.

Lemma getitem_present d k :
  present k d -> exists v, getitem d k = Ok v.
Proof. intros [v Hv]. unfold getitem. rewrite Hv. eauto. Qed.

Lemma lookup_setitem_other k k' v d :
  str_eqb k k' = false -> lookup k (setitem k' v d) = lookup k d.
Proof.
  intros Hk. induction d as [|[k0 v0] d IH]; cbn [setitem lookup].
  - rewrite Hk. reflexivity.
  - destruct (str_eqb k' k0) eqn:E'; cbn [lookup].
    + destruct (str_eqb k k0) eqn:E; [|reflexivity].
      apply str_eqb_eq in E', E. subst.
      rewrite str_eqb_refl in Hk. discriminate.
    + destruct (str_eqb k k0); [reflexivity | exact IH].
Qed.

Lemma get_setitem_other k k' v d x :
  str_eqb k k' = false -> get (setitem k' v d) k x = get d k x.
Proof.
  intros H. unfold get. rewrite lookup_setitem_other by exact H.
  reflexivity.
Qed.

(** After the four [setdefault] calls the four subscripts of the
    formatter find their keys. *)
Lemma defaults_present d :
  let filled :=
    setdefault (lit "reviews_count") (VStr (lit "0"))
      (setdefault (lit "rating") (VStr (lit "0"))
         (setdefault (lit "brand") (VStr (lit "Unknown"))
            (setdefault (lit "title") (VStr (lit "Unknown")) d))) in
  present (lit "price") d -> present (lit "description") d ->
  exists name brand price description,
    getitem filled (lit "title") = Ok name
    /\ getitem filled (lit "brand") = Ok brand
    /\ getitem filled (lit "price") = Ok price
    /\ getitem filled (lit "description") = Ok description.
Proof.
  intros filled Hp Hd. subst filled.
  edestruct getitem_present as [name Hn]; [|
  edestruct getitem_present as [brand Hb]; [|
  edestruct getitem_present as [price Hp']; [|
  edestruct getitem_present as [description Hd']; [|
  exists name, brand, price, description;
    repeat split; eassumption]]]].
  - do 3 apply present_setdefault. apply present_setdefault_same.
  - do 2 apply present_setdefault. apply present_setdefault_same.
  - do 4 apply present_setdefault. exact Hp.
  - do 4 apply present_setdefault. exact Hd.
Qed.

(** X17: [_format_product_data] raises nothing but [AttributeError],
    and that exactly when the description is truthy and no string or
    the price is no string; a missing key never makes it raise.
    Otherwise it returns a product with the ten keys of
    [product_keys]. *)
Theorem format_product_data_errors product_data :
  let description := get product_data (lit "description") (VStr []) in
  let price := get product_data (lit "price") (VStr []) in
  match _format_product_data product_data with
  | Ok v =>
    (truthy description = false \/ is_str description = true)
    /\ is_str price = true
    /\ exists product,
         v = VDict [(lit "product", VDict product)]
         /\ keys product = product_keys
  | Error e =>
    class_of e = AttributeError
    /\ ((truthy description = true /\ is_str description = false)
        \/ is_str price = false)
  end.
Proof.
  intros description price. unfold _format_product_data.
  fold description. unfold bulleted_description.
  destruct (truthy description) eqn:Ht;
    [destruct description as [| | | |s| |] eqn:Hd;
     try (cbn [bind raise class_of]; split; [reflexivity|];
          left; split; reflexivity)|];
    cbn [bind]; cbv zeta;
    rewrite (get_setitem_other (lit "price") (lit "description"))
      by reflexivity;
    fold price;
    (destruct price as [| | | |p| |]; cbn [plain_price bind raise class_of];
     try (split; [reflexivity | right; reflexivity]));
    (destruct (decimal_text _) as [p'|_]; cbn [bind]);
    match goal with
    | |- context [getitem (setdefault _ _ (setdefault _ _ (setdefault _ _
                    (setdefault _ _ ?d)))) _] =>
      destruct (defaults_present d) as (n & b & p1 & d1 & Hn & Hb & Hp1 & Hd1);
      [apply present_setitem_same
      |apply present_setitem, present_setitem_same|]
    end;
    cbv zeta in *; rewrite Hn, Hb, Hp1, Hd1; cbn [bind];
    (split; [auto | split; [reflexivity|]]);
    eexists; split; reflexivity.
Qed.

(** ** Searches *)

Lemma read_page_error kind e clock n all_products :
  read_page (error_response kind e) clock n all_products = Ok None.
Proof. reflexivity. Qed.

Lemma fetch_refused self up url geo :
  first_valid_asin asin_patterns url = None ->
  exists kind e, _make_request self up url geo = ([], error_response kind e).
Proof.
  intros H. unfold _make_request, _make_request_with_retry,
    _extract_asin_from_url. rewrite H.
  destruct (_validate_credentials self) as [_|e].
  - unfold raise. cbn [class_of]. eauto.
  - destruct (class_of e); eauto.
Qed.

Lemma search_pages_refused self ups clock q geo pages :
  (forall page marker,
      In page pages -> In marker asin_patterns ->
      ~ captures marker (search_url q page)) ->
  forall n all_products,
    search_pages self ups clock n q geo pages all_products
    = ([], Ok all_products).
Proof.
  induction pages as [|page rest IH]; intros H n acc; [reflexivity|].
  cbn [search_pages].
  destruct (fetch_refused self (ups page) (search_url q page) geo)
    as (kind & e & ->).
  { apply no_capture_no_asin. intros m Hm. apply (H page m); [left|]; auto. }
  rewrite read_page_error, IH; [reflexivity|].
  intros p m Hp. apply H. right. exact Hp.
Qed.

Lemma laptop_not_captured page marker :
  In page (page_range 2) -> In marker asin_patterns ->
  ~ captures marker (search_url (lit "laptop") page).
Proof.
  intros Hp Hm. apply not_captured_none.
  cbv [page_range Z.to_nat Pos.to_nat Pos.iter_op Nat.add seq map] in Hp.
  repeat (destruct Hp as [<- | Hp];
          [repeat (destruct Hm as [<- | Hm]; [vm_compute; reflexivity|]);
           destruct Hm|]).
  destruct Hp.
Qed.

(** X18: a search asks the same fetch as a product page does, so it
    asks for an identifier in the address of the search page: when no
    page address carries one, [scrape_search_results] makes no network
    call, does not sleep, and returns the empty list, whatever the
    credentials and the upstream. *)
Theorem search_without_identifier self ups clock search_query geo pages :
  (forall page marker,
      In page (page_range pages) -> In marker asin_patterns ->
      ~ captures marker (search_url search_query page)) ->
  scrape_search_results self ups clock search_query geo pages = ([], Ok []).
Proof.
  intros H. unfold scrape_search_results. apply search_pages_refused, H.
Qed.

Lemma search_without_identifier_witness :
  scrape_search_results test_scraper (fun _ => failing_once)
    (fun _ => lit "2024-01-15 10:30:00") (lit "laptop")
    DEFAULT_GEO_LOCATION 2
  = ([], Ok []).
Proof.
  exact (search_without_identifier test_scraper (fun _ => failing_once)
           (fun _ => lit "2024-01-15 10:30:00") (lit "laptop")
           DEFAULT_GEO_LOCATION 2 laptop_not_captured).
Defined.

(** ** The command line *)

Lemma pretty_envelope f now error :
  pretty_product (envelope_of f now error)
  = Ok (join [10%N] (pretty_lines f error)).
Proof.
  unfold pretty_product, pretty_lines, envelope_of, labelled.
  destruct f as [name brand price rating reviews description bullets images
                 specifications availability url].
  cbn [f_name f_brand f_price f_rating f_reviews_count f_description
       f_bullet_points f_images f_specifications f_availability f_url].
  set (points := join [10%N] (map (fun point => bullet_prefix ++ point) bullets)).
  destruct description as [|d ds], points as [|p ps], error as [[|e es]|];
    reflexivity.
Qed.

Lemma format_output_envelope dumps f now error format_type :
  format_output dumps (envelope_of f now error) format_type
  = Ok (if str_eqb format_type (lit "pretty")
        then join [10%N] (pretty_lines f error)
        else dumps (envelope_of f now error)).
Proof.
  unfold format_output. destruct (str_eqb format_type (lit "pretty"));
    [|reflexivity].
  change (pretty_product (envelope_of f now error)
          = Ok (join [10%N] (pretty_lines f error))).
  apply pretty_envelope.
Qed.

(** X19: [format_output] never raises on what [scrape_product] returns.
    In the pretty format the text is the lines of [pretty_lines]: seven
    labelled fields, the first 200 characters of a description that is
    not empty, the key features when there are some, the success flag,
    and the error when there is one; in any other format it is what
    [json.dumps] gives. *)
Theorem pretty_output_of_scrape dumps self up now url geo format_type :
  exists f error,
    snd (scrape_product self up now url geo)
    = Ok (envelope_of f now error)
    /\ f_url f = url
    /\ format_output dumps (envelope_of f now error) format_type
       = Ok (if str_eqb format_type (lit "pretty")
             then join [10%N] (pretty_lines f error)
             else dumps (envelope_of f now error)).
Proof.
  destruct (scrape_product_envelope self up now url geo) as (f & error & H).
  exists (with_url f url), error. split; [exact H|].
  split; [reflexivity | apply format_output_envelope].
Qed.





(** X21: a search run of [main] whose page addresses carry no
    identifier ends with failure status 1 without a network call and
    without printing, whatever the upstream would have answered. *)
Theorem search_run_without_identifier dumps w args search :
  get_credentials w args <> None ->
  given (args_asin args) = false -> given (args_url args) = false ->
  args_search args = Some search -> search <> [] ->
  (forall page marker,
      In page (page_range (args_pages args)) -> In marker asin_patterns ->
      ~ captures marker (search_url search page)) ->
  main dumps w args = ([], Some 1%Z).
Proof.
  intros Hc Ha Hu Hs Hne Hcap. unfold main.
  destruct (get_credentials w args) as [[username password]|];
    [clear Hc | elim Hc; reflexivity].
  rewrite Hs.
  destruct (args_asin args) as [[|a asin]|]; try discriminate Ha;
    destruct (args_url args) as [[|u url]|]; try discriminate Hu;
    (destruct search as [|c search]; [elim Hne; reflexivity|]);
    unfold scrape_search_results;
    rewrite search_pages_refused by exact Hcap; reflexivity.
Qed.

Lemma search_args_credentials :
  get_credentials test_world search_args <> None.
Proof. vm_compute. discriminate. Qed.

Lemma laptop_nonempty : lit "laptop" <> [].
Proof. discriminate. Qed.

Lemma search_run_without_identifier_witness :
  main (fun _ => []) test_world search_args = ([], Some 1%Z).
Proof.
  exact (search_run_without_identifier (fun _ => []) test_world search_args
           (lit "laptop") search_args_credentials eq_refl eq_refl eq_refl
           laptop_nonempty laptop_not_captured).
Defined.

(** ** The batch scripts *)

Lemma startswith_BO_B s :
  startswith (lit "BO") s = true -> startswith (lit "B") s = true.
Proof.
  unfold lit. cbn. destruct s as [|c s]; [discriminate|].
  intros H. apply andb_true_iff in H as [-> _]. reflexivity.
Qed.

Lemma clean_asin_body asin :
  clean_asin asin = remove_char 10%N (remove_char 13%N (strip asin)).
Proof.
  unfold clean_asin.
  set (a := remove_char 10%N (remove_char 13%N (strip asin))).
  destruct (Nat.eqb (List.length a) 10) eqn:Hlen; cbn [andb].
  - destruct (startswith (lit "B") a) eqn:HB; [reflexivity|].
    destruct (startswith (lit "BO") a) eqn:HBO; [|reflexivity].
    apply startswith_BO_B in HBO. congruence.
  - rewrite andb_false_r. reflexivity.
Qed.

(** A filter that drops white space only leaves the ends of a trimmed
    text in place. *)
Lemma lstrip_filter f s :
  (forall c, f c = false -> isspace c = true) ->
  lstrip (filter f (lstrip s)) = filter f (lstrip s).
Proof.
  intros Hf. destruct (lstrip s) as [|c t] eqn:E; [reflexivity|].
  pose proof (lstrip_head _ _ _ E) as Hc. cbn [filter].
  destruct (f c) eqn:Hfc.
  - cbn [lstrip]. rewrite Hc. reflexivity.
  - rewrite (Hf c Hfc) in Hc. discriminate.
Qed.

Lemma filter_rev_str (f : char -> bool) (s : str) :
  filter f (rev s) = rev (filter f s).
Proof.
  induction s as [|c s IH]; [reflexivity|].
  cbn [rev filter]. rewrite filter_app, IH. cbn [filter].
  destruct (f c); cbn [rev]; [reflexivity | apply app_nil_r].
Qed.

Lemma rstrip_filter f s :
  (forall c, f c = false -> isspace c = true) ->
  rstrip (filter f (rstrip s)) = filter f (rstrip s).
Proof.
  intros Hf. unfold rstrip.
  rewrite <- (filter_rev_str f (rev (lstrip (rev s)))), rev_involutive.
  rewrite (lstrip_filter f (rev s) Hf).
  symmetry. apply filter_rev_str.
Qed.

Lemma lstrip_rstrip_of_lstrip s :
  lstrip (rstrip (lstrip s)) = rstrip (lstrip s).
Proof.
  destruct (lstrip s) as [|c t] eqn:Hl; [reflexivity|].
  pose proof (lstrip_head _ _ _ Hl) as Hc.
  destruct (rstrip_cons c t Hc) as [u ->]. cbn [lstrip]. rewrite Hc.
  reflexivity.
Qed.

Lemma strip_filter f s :
  (forall c, f c = false -> isspace c = true) ->
  strip (filter f (strip s)) = filter f (strip s).
Proof.
  intros Hf. unfold strip at 1.
  assert (Hl : lstrip (filter f (strip s)) = filter f (strip s)).
  { unfold strip. rewrite <- (lstrip_rstrip_of_lstrip s).
    apply lstrip_filter, Hf. }
  rewrite Hl. unfold strip. apply rstrip_filter, Hf.
Qed.

Lemma not_cr_or_lf c :
  negb (N.eqb c 10) && negb (N.eqb c 13) = false -> isspace c = true.
Proof.
  destruct (N.eqb_spec c 10) as [->|_]; [reflexivity|].
  destruct (N.eqb_spec c 13) as [->|_]; [reflexivity|]. discriminate.
Qed.

Lemma remove_two a b (s : str) :
  remove_char a (remove_char b s)
  = filter (fun c => negb (N.eqb c a) && negb (N.eqb c b)) s.
Proof.
  unfold remove_char. induction s as [|c s IH]; [reflexivity|].
  cbn [filter]. destruct (N.eqb c b); cbn [negb].
  - rewrite andb_false_r. exact IH.
  - cbn [filter]. rewrite andb_true_r.
    destruct (negb (N.eqb c a)); rewrite IH; reflexivity.
Qed.

(** X22: [clean_asin] only trims its argument and takes the carriage
    returns and line feeds out of it: the repair of a leading [BO] is
    never applied, since a text it would apply to has already been
    returned; and cleaning twice is cleaning once. *)
Theorem clean_asin_never_repairs asin :
  clean_asin asin = remove_char 10%N (remove_char 13%N (strip asin))
  /\ clean_asin (clean_asin asin) = clean_asin asin.
Proof.
  split; [apply clean_asin_body|].
  rewrite !clean_asin_body, !remove_two.
  pose proof (strip_filter _ asin not_cr_or_lf) as Hs. cbv beta in Hs.
  change char with N in Hs. rewrite Hs. clear Hs.
  induction (strip asin) as [|c s IH]; [reflexivity|].
  cbn [filter].
  destruct (negb (N.eqb c 10) && negb (N.eqb c 13)) eqn:E; [|exact IH].
  cbn [filter]. rewrite E, IH. reflexivity.
Qed.

Lemma split_ws_tokens s : Forall no_space (split_ws s).
Proof.
  induction s as [|c s IH]; [constructor|]. cbn [split_ws].
  destruct (isspace c) eqn:Hc; [exact IH|].
  destruct s as [|d s']; [repeat constructor; exact Hc|].
  destruct (isspace d) eqn:Hd.
  - constructor; [repeat constructor; exact Hc | exact IH].
  - destruct (split_ws (d :: s')) as [|p ps];
      [repeat constructor; exact Hc|].
    inversion IH; subst. constructor; [constructor|]; assumption.
Qed.

Lemma lstrip_no_space s : no_space s -> lstrip s = s.
Proof. intros [|c t Hc _]; [reflexivity|]. cbn. rewrite Hc. reflexivity. Qed.

Lemma strip_no_space s : no_space s -> strip s = s.
Proof.
  intros H. unfold strip, rstrip. rewrite (lstrip_no_space s H).
  rewrite lstrip_no_space; [apply rev_involutive | apply Forall_rev, H].
Qed.

Lemma remove_space_no_space c s :
  isspace c = true -> no_space s -> remove_char c s = s.
Proof.
  intros Hc. unfold remove_char. induction 1 as [|x s Hx Hs IH]; [reflexivity|].
  cbn [filter]. destruct (N.eqb_spec x c) as [->|_]; [congruence|].
  cbn [negb]. rewrite IH. reflexivity.
Qed.

Lemma clean_asin_token s : no_space s -> clean_asin s = s.
Proof.
  intros H. rewrite clean_asin_body.
  rewrite (strip_no_space s H), (remove_space_no_space 13%N s eq_refl H),
    (remove_space_no_space 10%N s eq_refl H).
  reflexivity.
Qed.

(** X23: every identifier [read_asins_from_file] returns has ten
    characters, begins with [B], holds no white space and is, unchanged,
    a field of a line of the file; a file that is not found gives
    none. *)
Theorem read_asins_wellformed asins_file asin :
  In asin (read_asins_from_file asins_file) ->
  List.length asin = 10%nat
  /\ startswith (lit "B") asin = true
  /\ no_space asin
  /\ exists lines line,
       asins_file = Some lines /\ In line lines
       /\ In asin (split_ws (strip line)).
Proof.
  destruct asins_file as [lines|]; [|intros []].
  cbn [read_asins_from_file]. intros H.
  apply in_flat_map in H as (line & Hline & H).
  destruct (asin_of_line line) as [a|] eqn:Ha; [|destruct H].
  destruct (Nat.eqb (List.length a) 10 && startswith (lit "B") a) eqn:Hok;
    [|destruct H].
  destruct H as [<-|[]]. apply andb_true_iff in Hok as [Hlen HB].
  apply Nat.eqb_eq in Hlen.
  assert (Htok : no_space a /\ In a (split_ws (strip line))).
  { unfold asin_of_line in Ha.
    pose proof (split_ws_tokens (strip line)) as Ht.
    destruct (split_ws (strip line)) as [|first [|second more]];
      [discriminate| |].
    - destruct (py_isdigit first); [discriminate|]. injection Ha as <-.
      inversion Ht; subst. rewrite clean_asin_token by assumption.
      split; [assumption | left; reflexivity].
    - injection Ha as <-. inversion Ht as [|? ? _ Ht']; subst.
      inversion Ht'; subst. rewrite clean_asin_token by assumption.
      split; [assumption | right; left; reflexivity]. }
  destruct Htok as [Hns Hin].
  repeat split; try assumption. exists lines, line. auto.
Qed.

Lemma numbered_line_read :
  In (lit "B08N5WRWNW")
     (read_asins_from_file
        (Some [lit "1 B08N5WRWNW"; lit "2 0123456789"; lit "3"])).
Proof. vm_compute. left. reflexivity. Qed.

Lemma read_asins_wellformed_witness :
  List.length (lit "B08N5WRWNW") = 10%nat /\ no_space (lit "B08N5WRWNW").
Proof.
  destruct (read_asins_wellformed
              (Some [lit "1 B08N5WRWNW"; lit "2 0123456789"; lit "3"])
              (lit "B08N5WRWNW") numbered_line_read)
    as (Hlen & _ & Hns & _).
  split; [exact Hlen | exact Hns].
Defined.

Lemma sanitize_filename_safe filename :
  forallb filename_safe (sanitize_filename filename) = true.
Proof.
  unfold sanitize_filename. induction filename as [|c s IH]; [reflexivity|].
  cbn [filter]. destruct (invalid_filename_char c) eqn:Hc; cbn [negb];
    [exact IH|].
  cbn [map forallb]. rewrite IH, andb_true_r. unfold filename_safe.
  destruct (N.eqb_spec c 32) as [->|Hn]; [reflexivity|].
  rewrite Hc. cbn [negb andb]. apply negb_true_iff, N.eqb_neq, Hn.
Qed.

Lemma sanitize_filename_fixed s :
  forallb filename_safe s = true -> sanitize_filename s = s.
Proof.
  unfold sanitize_filename. induction s as [|c s IH]; [reflexivity|].
  cbn [forallb]. intros H. apply andb_true_iff in H as [Hc H].
  unfold filename_safe in Hc. apply andb_true_iff in Hc as [Hi Hs].
  cbn [filter]. rewrite Hi. cbn [map]. rewrite (IH H).
  apply negb_true_iff in Hs. rewrite Hs. reflexivity.
Qed.

(** X24: what [sanitize_filename] returns holds none of the nine
    characters it removes and no space, is no longer than its argument,
    and is left unchanged by a second pass. *)
Theorem sanitize_filename_clean filename :
  forallb filename_safe (sanitize_filename filename) = true
  /\ sanitize_filename (sanitize_filename filename)
     = sanitize_filename filename
  /\ (List.length (sanitize_filename filename) <= List.length filename)%nat.
Proof.
  split; [apply sanitize_filename_safe|]. split.
  - apply sanitize_filename_fixed, sanitize_filename_safe.
  - unfold sanitize_filename. rewrite length_map. apply filter_length_le.
Qed.
